(** * Shopping-cart cost optimisation: the model builder and the solution
      extractor of [main.py], embedded and verified.

    The program reads a cart (items, and for each item the offers of several
    sellers), builds a mixed-integer program with PuLP, hands it to CBC and
    decodes the variable values into a purchase plan grouped by seller.

    Conventions of the embedding.
    - Python [dict]s are insertion-ordered association lists with unique keys
      ([Dict]); a failed subscript [d[k]] raises [KeyError].
    - Integers are [Z]; list indices produced by [enumerate] are [nat].
    - [LpVariable.varValue] is [None] or a Python float.  The program only
      compares such a value with zero, truncates it ([int]) or rounds it
      ([round]); no floating-point arithmetic is performed on it.  Every
      finite float is a rational number and these three operations are exact
      functions of that number, so a value is modelled as an [option Q].
    - The CBC solver is an external collaborator: it is a parameter of
      [solve_shopping_problem], mapping the model to a status and values.
      A variable is identified by its family and its index, as in the
      dictionaries of the program; the names PuLP derives from them for the
      solver are not modelled.
    - [print] calls and the solver invocation are recorded, in order, as a
      list of [event]s.
    - The report prints amounts of money with [x / 100] and [:.2f], [x] an
      integer number of cents.  The division of two integers gives the
      binary64 float nearest to the quotient, a tie going to the even
      mantissa, and raises [OverflowError] beyond the largest float
      ([true_divide]); [:.2f] gives the decimal with two places nearest to
      that float, a tie going to the even digit ([format_2f]).  Both are
      exact functions of rational numbers, and the text printed is
      determined by its number of hundredths: an event carries that
      number. *)

From Stdlib Require Import List String Ascii ZArith QArith Qround Qabs Lia Bool Arith.
From Stdlib Require Import DecimalString DecimalNat Decimal.
Import ListNotations.

Local Open Scope string_scope.
Local Open Scope list_scope.
Local Open Scope Z_scope.

(* ================================================================== *)
(** ** Exceptions: a subscript on a missing key raises [KeyError], a
       division of integers whose quotient is beyond the floats raises
       [OverflowError] *)

Inductive exc (A : Type) : Type :=
| Ok (a : A)
| KeyError (k : string)
| OverflowError.
Arguments Ok {A} a.
Arguments KeyError {A} k.
Arguments OverflowError {A}.

Definition bind {A B} (m : exc A) (f : A -> exc B) : exc B :=
  match m with
  | Ok a => f a
  | KeyError k => KeyError k
  | OverflowError => OverflowError
  end.

Notation "x <- m ;; k" := (bind m (fun x => k))
  (at level 61, m at next level, right associativity).

Fixpoint mapM {A B} (f : A -> exc B) (l : list A) : exc (list B) :=
  match l with
  | [] => Ok []
  | a :: l' => b <- f a ;; bs <- mapM f l' ;; Ok (b :: bs)
  end.

Fixpoint filterM {A} (f : A -> exc bool) (l : list A) : exc (list A) :=
  match l with
  | [] => Ok []
  | a :: l' => b <- f a ;; r <- filterM f l' ;; Ok (if b then a :: r else r)
  end.

Fixpoint foldM {A S} (f : S -> A -> exc S) (l : list A) (s : S) : exc S :=
  match l with
  | [] => Ok s
  | a :: l' => s' <- f s a ;; foldM f l' s'
  end.

(* ================================================================== *)
(** ** Python dictionaries keyed by strings *)

Module Dict.
Section Dict.
Context {V : Type}.

Definition t := list (string * V).

Definition empty : t := [].

Fixpoint get (d : t) (k : string) : option V :=
  match d with
  | [] => None
  | (k', v) :: d' => if String.eqb k k' then Some v else get d' k
  end.

(** [d[k] = v]: an existing key keeps its position. *)
Fixpoint set (d : t) (k : string) (v : V) : t :=
  match d with
  | [] => [(k, v)]
  | (k', v') :: d' =>
      if String.eqb k k' then (k', v) :: d' else (k', v') :: set d' k v
  end.

Definition keys (d : t) : list string := map fst d.

Definition items (d : t) : list (string * V) := d.

(** [d.get(k, dflt)] *)
Definition get_default (d : t) (k : string) (dflt : V) : V :=
  match get d k with
  | Some v => v
  | None => dflt
  end.

(** [d[k]] *)
Definition subscript (d : t) (k : string) : exc V :=
  match get d k with
  | Some v => Ok v
  | None => KeyError k
  end.
End Dict.
Arguments t V : clear implicits.

(** [d[k].append(x)] on a [defaultdict(list)]. *)
Definition append {A} (d : t (list A)) (k : string) (x : A) : t (list A) :=
  set d k (get_default d k [] ++ [x]).
End Dict.

(* ================================================================== *)
(** ** [str] of an index, [enumerate] *)

Definition str (n : nat) : string := NilEmpty.string_of_uint (Nat.to_uint n).

Fixpoint enumerate_from {A} (n : nat) (l : list A) : list (nat * A) :=
  match l with
  | [] => []
  | a :: l' => (n, a) :: enumerate_from (S n) l'
  end.

Definition enumerate {A} (l : list A) : list (nat * A) := enumerate_from 0 l.

(* ================================================================== *)
(** ** The input document (the parsed JSON) *)

Module Json.
Record offer := { name : string; cost : Z; available : Z }.
Record item := { amount : Z; url : string; sellers : list offer }.
End Json.

(* ================================================================== *)
(** ** [load_cart] *)

(** A value of [offer_catalog]. *)
Record offer_entry := {
  item_id : string;
  cost : Z;
  available : Z;
  seller : string
}.

(** The six structures [load_cart] returns. *)
Record cart := {
  items_needed : Dict.t Z;
  item_id_to_url : Dict.t string;
  offer_catalog : Dict.t offer_entry;
  offer_ids : list string;
  offer_to_seller : Dict.t string;
  seller_to_offers : Dict.t (list string)
}.

Definition empty_cart : cart :=
  {| items_needed := Dict.empty; item_id_to_url := Dict.empty;
     offer_catalog := Dict.empty; offer_ids := [];
     offer_to_seller := Dict.empty; seller_to_offers := Dict.empty |}.

(** f"item_{item_index}" *)
Definition item_id_of (item_index : nat) : string :=
  ("item_" ++ str item_index)%string.

(** f"{base_seller}_{item_index}_{offer_index}" *)
Definition offer_id_of (base_seller : string) (item_index offer_index : nat) : string :=
  (base_seller ++ "_" ++ str item_index ++ "_" ++ str offer_index)%string.

(** The body of the inner loop (lines 29-44). *)
Definition load_offer (item_index : nat) (c : cart) (p : nat * Json.offer) : cart :=
  let (offer_index, offer) := p in
  if Json.available offer <=? 0 then c
  else
    let base_seller := Json.name offer in
    let offer_id := offer_id_of base_seller item_index offer_index in
    {| items_needed := items_needed c;
       item_id_to_url := item_id_to_url c;
       offer_catalog :=
         Dict.set (offer_catalog c) offer_id
           {| item_id := item_id_of item_index;
              cost := Json.cost offer;
              available := Json.available offer;
              seller := base_seller |};
       offer_ids := offer_ids c ++ [offer_id];
       offer_to_seller := Dict.set (offer_to_seller c) offer_id base_seller;
       seller_to_offers := Dict.append (seller_to_offers c) base_seller offer_id |}.

(** The body of the outer loop (lines 23-44). *)
Definition load_item (c : cart) (p : nat * Json.item) : cart :=
  let (item_index, item) := p in
  let c' :=
    {| items_needed := Dict.set (items_needed c) (item_id_of item_index) (Json.amount item);
       item_id_to_url := Dict.set (item_id_to_url c) (item_id_of item_index) (Json.url item);
       offer_catalog := offer_catalog c;
       offer_ids := offer_ids c;
       offer_to_seller := offer_to_seller c;
       seller_to_offers := seller_to_offers c |} in
  fold_left (load_offer item_index) (enumerate (Json.sellers item)) c'.

(** [load_cart], from the parsed document on ([json.load] is outside the
    model; the local list [item_ids] is built and never read). *)
Definition load_cart (data : list Json.item) : cart :=
  fold_left load_item (enumerate data) empty_cart.

(* ================================================================== *)
(** ** The PuLP objects the program builds *)

Definition SMALL_DEL : Z := 132.
Definition MED_DEL : Z := 237.
Definition BIG_DEL : Z := 2000.
Definition BIG_M : Z := 100000.

(** A decision variable, identified by the family it was declared in
    ("buy", "use_seller", "qty_seller", "small_del", "med_del", "big_del")
    and its index. *)
Inductive LpVar : Type :=
| buy (o : string)
| use_seller (s : string)
| qty_seller (s : string)
| small_del (s : string)
| med_del (s : string)
| big_del (s : string).

Inductive LpCategory : Type := LpInteger | LpBinary.

Record LpVariable := {
  var : LpVar;
  lowBound : option Z;
  upBound : option Z;
  cat : LpCategory
}.

(** [LpVariable.dicts(name, indices, lowBound, upBound, cat)]: a dictionary
    with one variable for each index. *)
Definition LpVariable_dicts (name : string -> LpVar) (indices : list string)
    (low up : option Z) (c : LpCategory) : Dict.t LpVariable :=
  fold_left
    (fun d i => Dict.set d i {| var := name i; lowBound := low; upBound := up; cat := c |})
    indices Dict.empty.

(** An affine expression: coefficients of variables and a constant. *)
Record LpAffineExpression := {
  terms : list (LpVar * Z);
  constant : Z
}.

Definition of_var (v : LpVariable) : LpAffineExpression :=
  {| terms := [(var v, 1)]; constant := 0 |}.

Definition of_const (k : Z) : LpAffineExpression :=
  {| terms := []; constant := k |}.

Definition add (e1 e2 : LpAffineExpression) : LpAffineExpression :=
  {| terms := terms e1 ++ terms e2; constant := constant e1 + constant e2 |}.

Definition scale (k : Z) (e : LpAffineExpression) : LpAffineExpression :=
  {| terms := map (fun t => (fst t, k * snd t)) (terms e); constant := k * constant e |}.

Definition sub (e1 e2 : LpAffineExpression) : LpAffineExpression :=
  add e1 (scale (-1) e2).

Definition lpSum (l : list LpAffineExpression) : LpAffineExpression :=
  fold_left add l (of_const 0).

Inductive LpSense : Type := LpConstraintLE | LpConstraintEQ | LpConstraintGE.

(** [lhs <= rhs], [lhs == rhs] or [lhs >= rhs], with both sides as written. *)
Record LpConstraint := {
  lhs : LpAffineExpression;
  sense : LpSense;
  rhs : LpAffineExpression
}.

Definition le_c (l r : LpAffineExpression) : LpConstraint :=
  {| lhs := l; sense := LpConstraintLE; rhs := r |}.
Definition eq_c (l r : LpAffineExpression) : LpConstraint :=
  {| lhs := l; sense := LpConstraintEQ; rhs := r |}.
Definition ge_c (l r : LpAffineExpression) : LpConstraint :=
  {| lhs := l; sense := LpConstraintGE; rhs := r |}.

Record LpProblem := {
  objective : LpAffineExpression;
  constraints : list LpConstraint;
  variables : list LpVariable
}.

(** The six dictionaries of variables (lines 55-60). *)
Record lp_vars := {
  x : Dict.t LpVariable;
  y : Dict.t LpVariable;
  q : Dict.t LpVariable;
  z1 : Dict.t LpVariable;
  z2 : Dict.t LpVariable;
  z3 : Dict.t LpVariable
}.

Definition sellers_of (c : cart) : list string := Dict.keys (seller_to_offers c).

Definition declare_vars (c : cart) : lp_vars :=
  let sellers := sellers_of c in
  {| x := LpVariable_dicts buy (offer_ids c) (Some 0) None LpInteger;
     y := LpVariable_dicts use_seller sellers (Some 0) (Some 1) LpBinary;
     q := LpVariable_dicts qty_seller sellers (Some 0) None LpInteger;
     z1 := LpVariable_dicts small_del sellers (Some 0) (Some 1) LpBinary;
     z2 := LpVariable_dicts med_del sellers (Some 0) (Some 1) LpBinary;
     z3 := LpVariable_dicts big_del sellers (Some 0) (Some 1) LpBinary |}.

(* ================================================================== *)
(** ** The model builder: lines 49-95 of [solve_shopping_problem] *)

(** [x[o] * offer_catalog[o]["cost"]] *)
Definition cost_term (c : cart) (v : lp_vars) (o : string) : exc LpAffineExpression :=
  xo <- Dict.subscript (x v) o ;;
  e <- Dict.subscript (offer_catalog c) o ;;
  Ok (scale (cost e) (of_var xo)).

(** [SMALL_DEL * z1[s] + MED_DEL * z2[s] + BIG_DEL * z3[s]] *)
Definition delivery_term (v : lp_vars) (s : string) : exc LpAffineExpression :=
  a <- Dict.subscript (z1 v) s ;;
  b <- Dict.subscript (z2 v) s ;;
  d <- Dict.subscript (z3 v) s ;;
  Ok (add (add (scale SMALL_DEL (of_var a)) (scale MED_DEL (of_var b)))
          (scale BIG_DEL (of_var d))).

(** [[o for o in offer_ids if offer_catalog[o]["item_id"] == item_id]] *)
Definition offers_of_item (c : cart) (id : string) : exc (list string) :=
  filterM (fun o => e <- Dict.subscript (offer_catalog c) o ;;
                    Ok (String.eqb (item_id e) id))
          (offer_ids c).

(** Lines 69-71. *)
Definition demand_constraint (c : cart) (v : lp_vars) (id : string) : exc LpConstraint :=
  offers <- offers_of_item c id ;;
  xs <- mapM (fun o => xo <- Dict.subscript (x v) o ;; Ok (of_var xo)) offers ;;
  n <- Dict.subscript (items_needed c) id ;;
  Ok (eq_c (lpSum xs) (of_const n)).

(** Lines 74-75. *)
Definition stock_constraint (c : cart) (v : lp_vars) (o : string) : exc LpConstraint :=
  xo <- Dict.subscript (x v) o ;;
  e <- Dict.subscript (offer_catalog c) o ;;
  Ok (le_c (of_var xo) (of_const (available e))).

(** Line 81. *)
Definition linkage_constraint (c : cart) (v : lp_vars) (s o : string) : exc LpConstraint :=
  xo <- Dict.subscript (x v) o ;;
  e <- Dict.subscript (offer_catalog c) o ;;
  ys <- Dict.subscript (y v) s ;;
  Ok (le_c (of_var xo) (scale (available e) (of_var ys))).

(** Lines 78-81; [seller_to_offers] is a [defaultdict(list)]. *)
Definition seller_constraints (c : cart) (v : lp_vars) (s : string) : exc (list LpConstraint) :=
  let offers := Dict.get_default (seller_to_offers c) s [] in
  qs <- Dict.subscript (q v) s ;;
  xs <- mapM (fun o => xo <- Dict.subscript (x v) o ;; Ok (of_var xo)) offers ;;
  links <- mapM (linkage_constraint c v s) offers ;;
  Ok (eq_c (of_var qs) (lpSum xs) :: links).

(** Lines 84-95. *)
Definition tier_constraints (v : lp_vars) (s : string) : exc (list LpConstraint) :=
  a <- Dict.subscript (z1 v) s ;;
  b <- Dict.subscript (z2 v) s ;;
  d <- Dict.subscript (z3 v) s ;;
  ys <- Dict.subscript (y v) s ;;
  qs <- Dict.subscript (q v) s ;;
  Ok [ eq_c (add (add (of_var a) (of_var b)) (of_var d)) (of_var ys);
       le_c (of_var qs) (add (of_const 4) (scale BIG_M (sub (of_const 1) (of_var a))));
       ge_c (of_var qs) (scale 5 (of_var b));
       le_c (of_var qs) (add (of_const 20) (scale BIG_M (sub (of_const 1) (of_var b))));
       ge_c (of_var qs) (scale 21 (of_var d)) ].

Definition all_variables (v : lp_vars) : list LpVariable :=
  map snd (Dict.items (x v)) ++ map snd (Dict.items (y v)) ++
  map snd (Dict.items (q v)) ++ map snd (Dict.items (z1 v)) ++
  map snd (Dict.items (z2 v)) ++ map snd (Dict.items (z3 v)).

Definition build_model (c : cart) : exc LpProblem :=
  let sellers := sellers_of c in
  let item_ids := Dict.keys (items_needed c) in
  let v := declare_vars c in
  item_costs <- mapM (cost_term c v) (offer_ids c) ;;
  delivery <- mapM (delivery_term v) sellers ;;
  demand <- mapM (demand_constraint c v) item_ids ;;
  stock <- mapM (stock_constraint c v) (offer_ids c) ;;
  link <- mapM (seller_constraints c v) sellers ;;
  tier <- mapM (tier_constraints v) sellers ;;
  Ok {| objective := add (lpSum item_costs) (lpSum delivery);
        constraints := demand ++ stock ++ List.concat link ++ List.concat tier;
        variables := all_variables v |}.

(* ================================================================== *)
(** ** The solver's answer *)

Inductive LpStatus : Type :=
| LpStatusNotSolved
| LpStatusOptimal
| LpStatusInfeasible
| LpStatusUnbounded
| LpStatusUndefined.

Definition is_optimal (s : LpStatus) : bool :=
  match s with LpStatusOptimal => true | _ => false end.

(** What [prob.solve] leaves behind: [prob.status] and the [varValue] of
    every variable. *)
Record solution := {
  status : LpStatus;
  varValue : LpVar -> option Q
}.

(** [int(v)] of a float: truncation towards zero. *)
Definition py_int (v : Q) : Z := Z.quot (Qnum v) (Z.pos (Qden v)).

(** [round(v)] of a float: the nearest integer, a tie going to the even one. *)
Definition py_round (v : Q) : Z :=
  let d := Z.pos (Qden v) in
  let f := Qnum v / d in
  match (2 * (Qnum v mod d)) ?= d with
  | Lt => f
  | Gt => f + 1
  | Eq => if Z.even f then f else f + 1
  end.

(** [qty and qty > 0] for a float [qty]: it is not zero and it is positive. *)
Definition truthy_and_positive (qty : Q) : bool :=
  negb (Qeq_bool qty 0) && negb (Qle_bool qty 0).

(** [v or 0] *)
Definition or_zero (v : option Q) : Q :=
  match v with
  | Some r => r
  | None => 0%Q
  end.

(* ================================================================== *)
(** ** Amounts of money as they are printed: [x / 100] and [:.2f] *)

(** [r * 2 ** k], for any integer [k]. *)
Definition scale2 (r : Q) (k : Z) : Q :=
  if 0 <=? k then (r * inject_Z (2 ^ k))%Q else (r / inject_Z (2 ^ (- k)))%Q.

(** The integer [e] with [2 ** e <= r < 2 ** (e + 1)], for [r > 0]. *)
Definition floor_log2 (r : Q) : Z :=
  let k := Z.log2 (Qnum r) - Z.log2 (Z.pos (Qden r)) in
  if Qle_bool (scale2 1 k) r then k else k - 1.

(** The binary64 float nearest to [r], a tie going to the even mantissa:
    a mantissa of 53 bits, the unit in the last place being [2 ** q] with
    [q] at least -1074 (the subnormal floats); [None] when the float would
    be [2 ** 1024] or more in absolute value. *)
Definition binary64 (r : Q) : option Q :=
  if Qeq_bool r 0 then Some 0%Q
  else
    let q := Z.max (floor_log2 (Qabs r) - 52) (-1074) in
    let v := scale2 (inject_Z (py_round (scale2 r (- q)))) q in
    if Qle_bool (inject_Z (2 ^ 1024)) (Qabs v) then None else Some v.

(** [a / b] for two integers, [b] positive: the float nearest to the
    quotient, or [OverflowError]. *)
Definition true_divide (a : Z) (b : positive) : exc Q :=
  match binary64 (a # b) with
  | Some v => Ok v
  | None => OverflowError
  end.

(** [f"{v:.2f}"] for a float [v], as the number of hundredths of the decimal
    printed: 12345 stands for the text 123.45. *)
Definition format_2f (v : Q) : Z := py_round (v * 100).

(** [f"{x / 100:.2f}"] for an integer [x]. *)
Definition euros (x : Z) : exc Z :=
  v <- true_divide x 100 ;; Ok (format_2f v).

(* ================================================================== *)
(** ** The solution extractor: lines 104-134 of [solve_shopping_problem] *)

(** (item_id, offer_id, qty) *)
Definition order : Type := string * string * Z.

(** The body of the loop of lines 106-110; [None and ...] is [None], which
    is false. *)
Definition record_offer (c : cart) (v : lp_vars) (sol : solution)
    (assignment : Dict.t (list order)) (o : string) : exc (Dict.t (list order)) :=
  xo <- Dict.subscript (x v) o ;;
  match varValue sol (var xo) with
  | Some qty =>
      if truthy_and_positive qty then
        s <- Dict.subscript (offer_to_seller c) o ;;
        e <- Dict.subscript (offer_catalog c) o ;;
        Ok (Dict.append assignment s (item_id e, o, py_int qty))
      else Ok assignment
  | None => Ok assignment
  end.

Definition extract_assignment (c : cart) (v : lp_vars) (sol : solution)
    : exc (Dict.t (list order)) :=
  foldM (record_offer c v sol) (offer_ids c) Dict.empty.

(** The body of the loop of lines 114-126. *)
Definition record_delivery (v : lp_vars) (sol : solution)
    (delivery_costs : Dict.t Z) (s : string) : exc (Dict.t Z) :=
  a <- Dict.subscript (z1 v) s ;;
  let z1_val := or_zero (varValue sol (var a)) in
  b <- Dict.subscript (z2 v) s ;;
  let z2_val := or_zero (varValue sol (var b)) in
  d <- Dict.subscript (z3 v) s ;;
  let z3_val := or_zero (varValue sol (var d)) in
  Ok (Dict.set delivery_costs s
        (if py_round z1_val =? 1 then SMALL_DEL
         else if py_round z2_val =? 1 then MED_DEL
         else if py_round z3_val =? 1 then BIG_DEL
         else 0)).

Definition extract_delivery (c : cart) (v : lp_vars) (sol : solution) : exc (Dict.t Z) :=
  foldM (record_delivery v sol) (sellers_of c) Dict.empty.

Definition sum (l : list Z) : Z := fold_left Z.add l 0.
Arguments sum : simpl never.

(** [offer_catalog[offer_id]["cost"] * qty] *)
Definition order_cost (c : cart) (r : order) : exc Z :=
  let '(_, offer_id, qty) := r in
  e <- Dict.subscript (offer_catalog c) offer_id ;;
  Ok (cost e * qty).

(** The summand of lines 129-132 for one seller of the assignment. *)
Definition seller_cost (c : cart) (delivery_costs : Dict.t Z)
    (p : string * list order) : exc Z :=
  let (s, orders) := p in
  costs <- mapM (order_cost c) orders ;;
  Ok (sum costs + Dict.get_default delivery_costs s 0).

Definition result : Type := Dict.t (list order) * Dict.t Z * Z.

Definition extract (c : cart) (v : lp_vars) (sol : solution) : exc result :=
  assignment <- extract_assignment c v sol ;;
  delivery_costs <- extract_delivery c v sol ;;
  per_seller <- mapM (seller_cost c delivery_costs) (Dict.items assignment) ;;
  Ok (assignment, delivery_costs, sum per_seller).

(* ================================================================== *)
(** ** What the program prints and calls, in order

    An event stands for one [print] (or for the consecutive ones that its
    arguments fill) and carries what the text shows: a quantity as the
    integer it is, an amount of money as the number of hundredths of the
    decimal that [:.2f] printed ([euros]). *)

Inductive event : Type :=
| print_checking_availability                         (* line 169 *)
| print_need_available (url : string) (need avail : Z) (* line 176 *)
| print_not_enough_stock                              (* line 178 *)
| print_solving                                       (* line 97 *)
| solver_called (prob : LpProblem)                    (* line 98 *)
| print_no_optimal_solution                           (* line 101 *)
| print_optimal_cart                                  (* line 137 *)
| print_seller (s : string)                           (* line 140 *)
| print_order (qty cost : Z) (url : string)           (* line 148 *)
| print_seller_totals (total_qty item_total delivery : Z) (* lines 151-153 *)
| print_totals (total_delivery_cost total_cost : Z).  (* lines 155-156 *)

(* ================================================================== *)
(** ** [solve_shopping_problem]

    Lines 48-134: the model is built ([build_model]), "Solving..." is
    printed, the solver is called, and either the status is not "Optimal"
    and [None] is returned after a message, or the plan is extracted
    ([extract]). *)

Definition solve_shopping_problem (solver : LpProblem -> solution) (c : cart)
    : exc (list event * option result) :=
  prob <- build_model c ;;
  let sol := solver prob in
  if negb (is_optimal (status sol)) then
    Ok ([print_solving; solver_called prob; print_no_optimal_solution], None)
  else
    r <- extract c (declare_vars c) sol ;;
    Ok ([print_solving; solver_called prob], Some r).

(* ================================================================== *)
(** ** [print_result] *)

(** Lines 144-148, for one order. *)
Definition print_one_order (c : cart) (r : order) : exc event :=
  let '(id, offer_id, qty) := r in
  let url := Dict.get_default (item_id_to_url c) id "Unknown URL" in
  e <- Dict.subscript (offer_catalog c) offer_id ;;
  shown <- euros (cost e) ;;
  Ok (print_order qty shown url).

(** Lines 140-153, for one seller: the events, and the delivery cost that
    is added to [total_delivery_cost]. *)
Definition print_one_seller (c : cart) (delivery_costs : Dict.t Z)
    (p : string * list order) : exc (list event * Z) :=
  let (s, orders) := p in
  lines <- mapM (print_one_order c) orders ;;
  costs <- mapM (order_cost c) orders ;;
  let total_qty := sum (map (fun r : order => snd r) orders) in
  let delivery := Dict.get_default delivery_costs s 0 in
  item_total <- euros (sum costs) ;;
  delivery_shown <- euros delivery ;;
  Ok (print_seller s :: lines ++ [print_seller_totals total_qty item_total delivery_shown],
      delivery).

Definition print_result (c : cart) (r : result) : exc (list event) :=
  let '(assignment, delivery_costs, total_cost) := r in
  blocks <- mapM (print_one_seller c delivery_costs) (Dict.items assignment) ;;
  total_delivery <- euros (sum (map snd blocks)) ;;
  total_shown <- euros total_cost ;;
  Ok (print_optimal_cart :: List.concat (map fst blocks)
        ++ [print_totals total_delivery total_shown]).

(* ================================================================== *)
(** ** [main] *)

(** Lines 171-175. *)
Definition total_available (c : cart) (id : string) : exc Z :=
  offers <- offers_of_item c id ;;
  avail <- mapM (fun o => e <- Dict.subscript (offer_catalog c) o ;; Ok (available e)) offers ;;
  Ok (sum avail).

(** The loop of lines 170-179: the events printed, and whether the loop ran
    to its end ([false]: it left [main] through the [return] of line 179). *)
Fixpoint check_availability (c : cart) (ids : list string) : exc (list event * bool) :=
  match ids with
  | [] => Ok ([], true)
  | id :: rest =>
      avail <- total_available c id ;;
      u <- Dict.subscript (item_id_to_url c) id ;;
      need <- Dict.subscript (items_needed c) id ;;
      if avail <? need then
        Ok ([print_need_available u need avail; print_not_enough_stock], false)
      else
        r <- check_availability c rest ;;
        Ok (print_need_available u need avail :: fst r, snd r)
  end.

Definition main (solver : LpProblem -> solution) (data : list Json.item) : exc (list event) :=
  let c := load_cart data in
  chk <- check_availability c (Dict.keys (items_needed c)) ;;
  let (printed, enough) := chk in
  if negb enough then Ok (print_checking_availability :: printed)
  else
    r <- solve_shopping_problem solver c ;;
    let (solving, res) := r in
    match res with
    | Some res =>
        report <- print_result c res ;;
        Ok (print_checking_availability :: printed ++ solving ++ report)
    | None => Ok (print_checking_availability :: printed ++ solving)
    end.

(* ================================================================== *)
(** ** Semantics of the model: integer assignments and feasibility *)

Definition eval (a : LpVar -> Z) (e : LpAffineExpression) : Z :=
  fold_right (fun t acc => snd t * a (fst t) + acc) (constant e) (terms e).

Definition holds (a : LpVar -> Z) (k : LpConstraint) : bool :=
  match sense k with
  | LpConstraintLE => eval a (lhs k) <=? eval a (rhs k)
  | LpConstraintEQ => eval a (lhs k) =? eval a (rhs k)
  | LpConstraintGE => eval a (rhs k) <=? eval a (lhs k)
  end.

Definition above (low : option Z) (n : Z) : bool :=
  match low with Some l => l <=? n | None => true end.

Definition below (up : option Z) (n : Z) : bool :=
  match up with Some u => n <=? u | None => true end.

(** The value of a variable respects its bounds; a binary one is 0 or 1. *)
Definition in_domain (a : LpVar -> Z) (v : LpVariable) : bool :=
  above (lowBound v) (a (var v)) && below (upBound v) (a (var v)) &&
  match cat v with
  | LpBinary => (0 <=? a (var v)) && (a (var v) <=? 1)
  | LpInteger => true
  end.

(** [a] is a feasible integer assignment of [prob]. *)
Definition feasible (prob : LpProblem) (a : LpVar -> Z) : bool :=
  forallb (holds a) (constraints prob) && forallb (in_domain a) (variables prob).

(** The solver returned exactly the integer assignment [a]: every variable of
    the model has a value, and that value is the integer [a] gives it. *)
Definition returns_assignment (sol : solution) (prob : LpProblem) (a : LpVar -> Z) : Prop :=
  forall v, In v (variables prob) ->
    exists r, varValue sol (var v) = Some r /\ (r == inject_Z (a (var v)))%Q.

(** The exact value of the objective at the values the solver returned (a
    variable without a value counts as zero). *)
Definition objective_value (prob : LpProblem) (sol : solution) : Q :=
  fold_right
    (fun t acc => (inject_Z (snd t) * or_zero (varValue sol (fst t)) + acc)%Q)
    (inject_Z (constant (objective prob))) (terms (objective prob)).

(* ================================================================== *)
(** ** The document as a flat list of the offers that are kept *)

(** (item_index, offer_index, offer) *)
Abbreviation flat_offer := (nat * nat * Json.offer)%type.

(** The test of line 30, negated. *)
Definition keep (p : nat * Json.offer) : bool := negb (Json.available (snd p) <=? 0).

Definition kept_from (i : nat) (l : list (nat * Json.offer)) : list flat_offer :=
  map (fun p => (i, fst p, snd p)) (filter keep l).

Definition kept_of_item (p : nat * Json.item) : list flat_offer :=
  kept_from (fst p) (enumerate (Json.sellers (snd p))).

Definition kept_offers (data : list Json.item) : list flat_offer :=
  flat_map kept_of_item (enumerate data).

Definition id_of (t : flat_offer) : string :=
  offer_id_of (Json.name (snd t)) (fst (fst t)) (snd (fst t)).

Definition entry_of (t : flat_offer) : offer_entry :=
  {| item_id := item_id_of (fst (fst t));
     cost := Json.cost (snd t);
     available := Json.available (snd t);
     seller := Json.name (snd t) |}.

(** [c] is the cart of the items [its] and of the kept offers [ks]. *)
Definition represents (c : cart) (its : list (nat * Json.item)) (ks : list flat_offer) : Prop :=
  items_needed c = map (fun p => (item_id_of (fst p), Json.amount (snd p))) its /\
  item_id_to_url c = map (fun p => (item_id_of (fst p), Json.url (snd p))) its /\
  offer_catalog c = map (fun t => (id_of t, entry_of t)) ks /\
  offer_ids c = map id_of ks /\
  offer_to_seller c = map (fun t => (id_of t, Json.name (snd t))) ks /\
  (forall s, Dict.get (seller_to_offers c) s =
     match filter (fun t => String.eqb (Json.name (snd t)) s) ks with
     | [] => None
     | l => Some (map id_of l)
     end).

(** The seller of an offer id, by [offer_to_seller]. *)
Definition sold_by (c : cart) (s o : string) : bool :=
  match Dict.get (offer_to_seller c) o with
  | Some s' => String.eqb s' s
  | None => false
  end.

(** The item of an offer id, by [offer_catalog]. *)
Definition offer_of_item (c : cart) (id o : string) : bool :=
  match Dict.get (offer_catalog c) o with
  | Some e => String.eqb (item_id e) id
  | None => false
  end.

(** The invariant of a Catalog: the offer identifiers are pairwise distinct
    and are the keys of [offer_catalog]; every entry has a positive
    available quantity, the identifier of a known item and its seller in
    [offer_to_seller] and among the sellers; [seller_to_offers] groups
    [offer_ids] by seller; the item identifiers are pairwise distinct and
    each has its URL. *)
Record well_formed (c : cart) : Prop := {
  wf_offer_ids : NoDup (offer_ids c);
  wf_catalog_keys : Dict.keys (offer_catalog c) = offer_ids c;
  wf_entry : forall o e, Dict.get (offer_catalog c) o = Some e ->
      0 < available e /\
      In (item_id e) (Dict.keys (items_needed c)) /\
      Dict.get (offer_to_seller c) o = Some (seller e) /\
      In (seller e) (sellers_of c);
  wf_sellers : forall s,
      Dict.get_default (seller_to_offers c) s [] = filter (sold_by c s) (offer_ids c);
  wf_items : NoDup (Dict.keys (items_needed c));
  wf_urls : Dict.keys (item_id_to_url c) = Dict.keys (items_needed c)
}.

(* ================================================================== *)
(** ** Re-summing a purchase plan *)

Definition all_orders (assignment : Dict.t (list order)) : list order :=
  List.concat (map snd (Dict.items assignment)).

Definition order_item (r : order) : string := fst (fst r).
Definition order_offer (r : order) : string := snd (fst r).
Definition order_qty (r : order) : Z := snd r.

(** Units of item [id] in the plan. *)
Definition bought_of_item (assignment : Dict.t (list order)) (id : string) : Z :=
  sum (map order_qty (filter (fun r => String.eqb (order_item r) id) (all_orders assignment))).


(** Units bought from seller [s] in the plan. *)
Definition bought_from_seller (assignment : Dict.t (list order)) (s : string) : Z :=
  sum (map order_qty (Dict.get_default assignment s [])).

(** The total demand of the cart. *)
Definition total_demand (c : cart) : Z := sum (map snd (Dict.items (items_needed c))).

(* ================================================================== *)
(** ** Characters of an identifier *)

Fixpoint occurs (a : ascii) (s : string) : bool :=
  match s with
  | EmptyString => false
  | String b s' => Ascii.eqb a b || occurs a s'
  end.

(* ================================================================== *)
(** ** The model in closed form

    What [build_model] returns on a well-formed cart ([build_model_Ok]
    below), written without subscripts that can fail. *)

Definition buy_variable (o : string) : LpVariable :=
  {| var := buy o; lowBound := Some 0; upBound := None; cat := LpInteger |}.

Definition qty_variable (s : string) : LpVariable :=
  {| var := qty_seller s; lowBound := Some 0; upBound := None; cat := LpInteger |}.

Definition binary_variable (v : LpVar) : LpVariable :=
  {| var := v; lowBound := Some 0; upBound := Some 1; cat := LpBinary |}.

Definition cost_of (c : cart) (o : string) : Z :=
  match Dict.get (offer_catalog c) o with Some e => cost e | None => 0 end.

Definition available_of (c : cart) (o : string) : Z :=
  match Dict.get (offer_catalog c) o with Some e => available e | None => 0 end.

Definition needed (c : cart) (id : string) : Z :=
  Dict.get_default (items_needed c) id 0.

(** The offers of an item and of a seller. *)
Definition item_offers (c : cart) (id : string) : list string :=
  filter (offer_of_item c id) (offer_ids c).

Definition seller_offers (c : cart) (s : string) : list string :=
  filter (sold_by c s) (offer_ids c).

Definition buys (l : list string) : LpAffineExpression :=
  lpSum (map (fun o => of_var (buy_variable o)) l).

Definition demand_of (c : cart) (id : string) : LpConstraint :=
  eq_c (buys (item_offers c id)) (of_const (needed c id)).

Definition stock_of (c : cart) (o : string) : LpConstraint :=
  le_c (of_var (buy_variable o)) (of_const (available_of c o)).

Definition linkage_of (c : cart) (s o : string) : LpConstraint :=
  le_c (of_var (buy_variable o))
       (scale (available_of c o) (of_var (binary_variable (use_seller s)))).

Definition quantity_of (c : cart) (s : string) : LpConstraint :=
  eq_c (of_var (qty_variable s)) (buys (seller_offers c s)).

Definition tiers_of (s : string) : list LpConstraint :=
  let a := of_var (binary_variable (small_del s)) in
  let b := of_var (binary_variable (med_del s)) in
  let d := of_var (binary_variable (big_del s)) in
  let ys := of_var (binary_variable (use_seller s)) in
  let qs := of_var (qty_variable s) in
  [ eq_c (add (add a b) d) ys;
    le_c qs (add (of_const 4) (scale BIG_M (sub (of_const 1) a)));
    ge_c qs (scale 5 b);
    le_c qs (add (of_const 20) (scale BIG_M (sub (of_const 1) b)));
    ge_c qs (scale 21 d) ].

Definition delivery_of (s : string) : LpAffineExpression :=
  add (add (scale SMALL_DEL (of_var (binary_variable (small_del s))))
           (scale MED_DEL (of_var (binary_variable (med_del s)))))
      (scale BIG_DEL (of_var (binary_variable (big_del s)))).

Definition model_of (c : cart) : LpProblem :=
  {| objective :=
       add (lpSum (map (fun o => scale (cost_of c o) (of_var (buy_variable o))) (offer_ids c)))
           (lpSum (map delivery_of (sellers_of c)));
     constraints :=
       map (demand_of c) (Dict.keys (items_needed c)) ++
       map (stock_of c) (offer_ids c) ++
       List.concat (map (fun s => quantity_of c s :: map (linkage_of c s) (seller_offers c s))
                        (sellers_of c)) ++
       List.concat (map tiers_of (sellers_of c));
     variables := all_variables (declare_vars c) |}.

(* ================================================================== *)
(** ** The extractor in closed form

    What [extract] returns on a well-formed cart ([extract_Ok] below). *)

Definition seller_of (c : cart) (o : string) : string :=
  Dict.get_default (offer_to_seller c) o "".

Definition item_of (c : cart) (o : string) : string :=
  match Dict.get (offer_catalog c) o with Some e => item_id e | None => "" end.

(** The quantity recorded for an offer, if one is recorded. *)
Definition recorded (sol : solution) (o : string) : option Z :=
  match varValue sol (buy o) with
  | Some qty => if truthy_and_positive qty then Some (py_int qty) else None
  | None => None
  end.

(** The recorded purchases in the order of [offer_ids], each with its seller. *)
Definition purchases (c : cart) (sol : solution) : list (string * order) :=
  flat_map (fun o => match recorded sol o with
                     | Some n => [(seller_of c o, (item_of c o, o, n))]
                     | None => []
                     end) (offer_ids c).

Definition group (l : list (string * order)) (d : Dict.t (list order)) : Dict.t (list order) :=
  fold_left (fun d p => Dict.append d (fst p) (snd p)) l d.

Definition plan_of (c : cart) (sol : solution) : Dict.t (list order) :=
  group (purchases c sol) Dict.empty.

Definition fee_of (sol : solution) (s : string) : Z :=
  if py_round (or_zero (varValue sol (small_del s))) =? 1 then SMALL_DEL
  else if py_round (or_zero (varValue sol (med_del s))) =? 1 then MED_DEL
  else if py_round (or_zero (varValue sol (big_del s))) =? 1 then BIG_DEL
  else 0.

Definition fees_of (c : cart) (sol : solution) : Dict.t Z :=
  fold_left (fun d s => Dict.set d s (fee_of sol s)) (sellers_of c) Dict.empty.

Definition priced (c : cart) (r : order) : Z := cost_of c (order_offer r) * order_qty r.

Definition total_of (c : cart) (sol : solution) : Z :=
  sum (map (fun p : string * list order =>
              sum (map (priced c) (snd p)) + Dict.get_default (fees_of c sol) (fst p) 0)
           (Dict.items (plan_of c sol))).

(* ================================================================== *)
(** ** A small cart, used to exercise the statements below *)

(** One item is needed five times (seller X has four, seller Y a hundred, a
    third offer is out of stock), another twice (seller X has two). *)
Definition sample_cart : list Json.item :=
  [ {| Json.amount := 5; Json.url := "u0";
       Json.sellers :=
         [ {| Json.name := "X"; Json.cost := 10; Json.available := 4 |};
           {| Json.name := "W"; Json.cost := 1; Json.available := 0 |};
           {| Json.name := "Y"; Json.cost := 12; Json.available := 100 |} ] |};
    {| Json.amount := 2; Json.url := "u1";
       Json.sellers :=
         [ {| Json.name := "X"; Json.cost := 7; Json.available := 2 |} ] |} ].

(** Four and two units from X (medium tier), one from Y (small tier). *)
Definition sample_assignment (v : LpVar) : Z :=
  match v with
  | buy o =>
      if String.eqb o "X_0_0" then 4
      else if String.eqb o "Y_0_2" then 1
      else if String.eqb o "X_1_0" then 2 else 0
  | use_seller s => if String.eqb s "X" || String.eqb s "Y" then 1 else 0
  | qty_seller s => if String.eqb s "X" then 6 else if String.eqb s "Y" then 1 else 0
  | small_del s => if String.eqb s "Y" then 1 else 0
  | med_del s => if String.eqb s "X" then 1 else 0
  | big_del s => 0
  end.

(** A solver that answers [Optimal] with the given integers, whatever the model. *)
Definition answers (a : LpVar -> Z) (prob : LpProblem) : solution :=
  {| status := LpStatusOptimal; varValue := fun v => Some (inject_Z (a v)) |}.

(* ================================================================== *)
(** ** A bulk order: one item, one seller that has all of it *)

Definition bulk_cart (n : Z) : list Json.item :=
  [ {| Json.amount := n; Json.url := "u0";
       Json.sellers := [ {| Json.name := "X"; Json.cost := 1; Json.available := n |} ] |} ].

(** Everything is bought from X, in the large tier. *)
Definition bulk_assignment (n : Z) (v : LpVar) : Z :=
  match v with
  | buy _ => n
  | use_seller _ => 1
  | qty_seller _ => n
  | small_del _ => 0
  | med_del _ => 0
  | big_del _ => 1
  end.

(* ================================================================== *)
(** ** Two more solver answers *)

(** A solver that answers with the given status and values, whatever the model. *)
Definition replies (st : LpStatus) (values : LpVar -> option Q) (prob : LpProblem) : solution :=
  {| status := st; varValue := values |}.

(** One item needed once, offered by X and by Y. *)
Definition idle_cart : list Json.item :=
  [ {| Json.amount := 1; Json.url := "u0";
       Json.sellers :=
         [ {| Json.name := "X"; Json.cost := 10; Json.available := 5 |};
           {| Json.name := "Y"; Json.cost := 20; Json.available := 5 |} ] |} ].

(** The unit is bought from X; Y sells nothing and still has its small tier
    selected. *)
Definition idle_assignment (v : LpVar) : Z :=
  match v with
  | buy o => if String.eqb o "X_0_0" then 1 else 0
  | use_seller _ => 1
  | qty_seller s => if String.eqb s "X" then 1 else 0
  | small_del _ => 1
  | med_del _ => 0
  | big_del _ => 0
  end.

(** One item needed three times, offered by X. *)
Definition three_cart : list Json.item :=
  [ {| Json.amount := 3; Json.url := "u0";
       Json.sellers := [ {| Json.name := "X"; Json.cost := 10; Json.available := 10 |} ] |} ].

(** The values of the three-unit purchase, the quantity bought being [v]. *)
Definition three_values (v : Q) (x : LpVar) : option Q :=
  match x with
  | buy _ => Some v
  | use_seller _ => Some 1%Q
  | qty_seller _ => Some 3%Q
  | small_del _ => Some 1%Q
  | med_del _ => Some 0%Q
  | big_del _ => Some 0%Q
  end.

(* ================================================================== *)
(** ** The availability check, in terms of the document *)

(** The available quantity of an item, summed over its offers in the
    catalog (those with a positive available quantity). *)
Definition stock_of_item (it : Json.item) : Z :=
  sum (map Json.available
           (filter (fun o => negb (Json.available o <=? 0)) (Json.sellers it))).

Definition insufficient (it : Json.item) : bool := stock_of_item it <? Json.amount it.

(** The line printed for an item by line 176. *)
Definition availability_line (it : Json.item) : event :=
  print_need_available (Json.url it) (Json.amount it) (stock_of_item it).

(** What the loop of lines 170-179 prints, and whether it runs to its end. *)
Fixpoint check_trace (its : list Json.item) : list event * bool :=
  match its with
  | [] => ([], true)
  | it :: rest =>
      if insufficient it
      then ([availability_line it; print_not_enough_stock], false)
      else (availability_line it :: fst (check_trace rest), snd (check_trace rest))
  end.

(* ================================================================== *)
(** ** A cart that cannot be served *)

(** The first item can be served; the second is needed five times and only
    three are in stock (its third offer has a negative quantity); the third
    item is never looked at. *)
Definition short_cart : list Json.item :=
  [ {| Json.amount := 1; Json.url := "u0";
       Json.sellers := [ {| Json.name := "X"; Json.cost := 10; Json.available := 2 |} ] |};
    {| Json.amount := 5; Json.url := "u1";
       Json.sellers :=
         [ {| Json.name := "X"; Json.cost := 7; Json.available := 2 |};
           {| Json.name := "Y"; Json.cost := 8; Json.available := 1 |};
           {| Json.name := "W"; Json.cost := 8; Json.available := -4 |} ] |};
    {| Json.amount := 9; Json.url := "u2"; Json.sellers := [] |} ].

(** A solver that gives up: no status but the given one, no value. *)
Definition gives_up (st : LpStatus) (prob : LpProblem) : solution :=
  {| status := st; varValue := fun _ => None |}.

(* ================================================================== *)
(** ** A value just below an integer *)

(** One item needed once, offered by X. *)
Definition unit_cart : list Json.item :=
  [ {| Json.amount := 1; Json.url := "u0";
       Json.sellers := [ {| Json.name := "X"; Json.cost := 1000; Json.available := 10 |} ] |} ].

(** 1 - 2^-20 = 0.99999904632568359375, a float within the integrality
    tolerance of 1e-6 that MIP solvers work to. *)
Definition almost_one : Q := 1048575 # 1048576.

(** The values of the one-unit purchase, the quantity bought being [v]. *)
Definition unit_values (v : Q) (x : LpVar) : option Q :=
  match x with
  | buy _ => Some v
  | use_seller _ => Some 1%Q
  | qty_seller _ => Some 1%Q
  | small_del _ => Some 1%Q
  | med_del _ => Some 0%Q
  | big_del _ => Some 0%Q
  end.

(* ================================================================== *)
(** ** The report in closed form, every amount in cents *)

(** The first key that a subscript misses, going through a list. *)
Fixpoint first_some {A} (h : A -> option string) (l : list A) : option string :=
  match l with
  | [] => None
  | a :: l' => match h a with Some k => Some k | None => first_some h l' end
  end.

(** The offer identifier of an order, when [offer_catalog] does not have it. *)
Definition missing_offer (c : cart) (r : order) : option string :=
  match Dict.get (offer_catalog c) (order_offer r) with
  | Some _ => None
  | None => Some (order_offer r)
  end.

(** Line 148 for one order. *)
Definition order_line (c : cart) (r : order) : event :=
  print_order (order_qty r) (cost_of c (order_offer r))
              (Dict.get_default (item_id_to_url c) (order_item r) "Unknown URL").

(** Lines 140-153 for one seller of the assignment. *)
Definition seller_block (c : cart) (delivery_costs : Dict.t Z)
    (p : string * list order) : list event :=
  print_seller (fst p) :: map (order_line c) (snd p) ++
  [print_seller_totals (sum (map order_qty (snd p))) (sum (map (priced c) (snd p)))
                       (Dict.get_default delivery_costs (fst p) 0)].

Definition report_of (c : cart) (r : result) : list event :=
  let '(assignment, delivery_costs, total_cost) := r in
  print_optimal_cart ::
  List.concat (map (seller_block c delivery_costs) (Dict.items assignment)) ++
  [print_totals (sum (map (fun p : string * list order =>
                             Dict.get_default delivery_costs (fst p) 0)
                          (Dict.items assignment)))
                total_cost].

(** What a line of the report says of money: the items total and the
    delivery fee of a seller block, nothing for the other lines. *)
Definition items_total_of (e : event) : Z :=
  match e with print_seller_totals _ item_total _ => item_total | _ => 0 end.

Definition delivery_of_line (e : event) : Z :=
  match e with print_seller_totals _ _ delivery => delivery | _ => 0 end.

Definition is_solver_call (e : event) : bool :=
  match e with solver_called _ => true | _ => false end.

(* ================================================================== *)
(** ** An assignment that serves each item from its first offers

    Used to show that a model has a feasible assignment: each item takes from
    its offers, in the order of [offer_ids], as much as each has until its
    amount is reached.  The program builds no such assignment; the solver
    is free to return any other. *)

Fixpoint greedy_fill (c : cart) (n : Z) (l : list string) : Dict.t Z :=
  match l with
  | [] => []
  | o :: l' =>
      let t := Z.min n (available_of c o) in
      (o, t) :: greedy_fill c (n - t) l'
  end.

Definition greedy_buy (c : cart) (o : string) : Z :=
  let id := item_of c o in
  Dict.get_default (greedy_fill c (needed c id) (item_offers c id)) o 0.

Definition greedy_quantity (c : cart) (s : string) : Z :=
  sum (map (greedy_buy c) (seller_offers c s)).

Definition greedy_assignment (c : cart) (v : LpVar) : Z :=
  match v with
  | buy o => greedy_buy c o
  | qty_seller s => greedy_quantity c s
  | use_seller s => if 0 <? greedy_quantity c s then 1 else 0
  | small_del s =>
      if (0 <? greedy_quantity c s) && (greedy_quantity c s <=? 4) then 1 else 0
  | med_del s =>
      if (5 <=? greedy_quantity c s) && (greedy_quantity c s <=? 20) then 1 else 0
  | big_del s => if 21 <=? greedy_quantity c s then 1 else 0
  end.

(* ================================================================== *)
(** ** The amounts of money of a report

    [report_of] above has every amount in cents, as it is handed to
    [x / 100] and [:.2f]; it is what is printed when each amount comes back
    from the two as it went in, which is so below [2 ** 52] cents. *)

Definition money (e : event) : list Z :=
  match e with
  | print_order _ cost _ => [cost]
  | print_seller_totals _ item_total delivery => [item_total; delivery]
  | print_totals total_delivery_cost total_cost => [total_delivery_cost; total_cost]
  | _ => []
  end.

(** Every amount that printing the result [r] formats, in cents. *)
Definition amounts_fed (c : cart) (r : result) : list Z :=
  flat_map money (report_of c r).

(** No [KeyError]: a value or another exception. *)
Definition no_key_error {A} (m : exc A) : Prop :=
  match m with
  | KeyError _ => False
  | _ => True
  end.

(* ================================================================== *)
(** ** A solver answer within the integrality tolerance *)

(** One item needed once, offered by S2 in a large quantity. *)
Definition wide_cart : list Json.item :=
  [ {| Json.amount := 1; Json.url := "u0";
       Json.sellers :=
         [ {| Json.name := "S2"; Json.cost := 500; Json.available := 10000000 |} ] |} ].

(** The unit is bought with [use_seller] and the small indicator at
    2^-23 = 0.00000011920928955078125: every constraint of the model holds
    ([1 <= 10000000 * 2^-23]) and every value is within 1e-6 of an integer. *)
Definition wide_values (x : LpVar) : option Q :=
  match x with
  | buy _ => Some 1%Q
  | use_seller _ => Some (1 # 8388608)%Q
  | qty_seller _ => Some 1%Q
  | small_del _ => Some (1 # 8388608)%Q
  | med_del _ => Some 0%Q
  | big_del _ => Some 0%Q
  end.

(** One item needed once, offered by X at 2^53 + 1 cents. *)
Definition dear_cart : list Json.item :=
  [ {| Json.amount := 1; Json.url := "u0";
       Json.sellers :=
         [ {| Json.name := "X"; Json.cost := 9007199254740993; Json.available := 10 |} ] |} ].

(** The value of an expression and the truth of a constraint at rational
    values of the variables, as the solver sees them. *)
Definition evalQ (a : LpVar -> Q) (e : LpAffineExpression) : Q :=
  fold_right (fun t acc => (inject_Z (snd t) * a (fst t) + acc)%Q)
             (inject_Z (constant e)) (terms e).

Definition holdsQ (a : LpVar -> Q) (k : LpConstraint) : bool :=
  match sense k with
  | LpConstraintLE => Qle_bool (evalQ a (lhs k)) (evalQ a (rhs k))
  | LpConstraintEQ => Qeq_bool (evalQ a (lhs k)) (evalQ a (rhs k))
  | LpConstraintGE => Qle_bool (evalQ a (rhs k)) (evalQ a (lhs k))
  end.

(* ================================================================== *)
(** * Proofs *)

(** ** The exception monad *)

Lemma mapM_Ok {A B} (f : A -> exc B) (g : A -> B) (l : list A) :
  (forall a, In a l -> f a = Ok (g a)) -> mapM f l = Ok (map g l).
Proof.
  induction l as [|a l IH]; simpl; intros H; [reflexivity|].
  rewrite (H a) by auto. simpl. rewrite IH by auto. reflexivity.
Qed.

Lemma filterM_Ok {A} (f : A -> exc bool) (g : A -> bool) (l : list A) :
  (forall a, In a l -> f a = Ok (g a)) -> filterM f l = Ok (filter g l).
Proof.
  induction l as [|a l IH]; simpl; intros H; [reflexivity|].
  rewrite (H a) by auto. simpl. rewrite IH by auto. reflexivity.
Qed.

Lemma foldM_Ok {A S} (f : S -> A -> exc S) (g : S -> A -> S) (l : list A) (s : S) :
  (forall s a, In a l -> f s a = Ok (g s a)) -> foldM f l s = Ok (fold_left g l s).
Proof.
  revert s; induction l as [|a l IH]; simpl; intros s H; [reflexivity|].
  rewrite H by auto. simpl. apply IH. auto.
Qed.

(** ** Sums *)

Lemma sum_acc (l : list Z) (n : Z) : fold_left Z.add l n = n + fold_left Z.add l 0.
Proof.
  revert n; induction l as [|a l IH]; simpl; intros n; [lia|].
  rewrite (IH (n + a)), (IH a). lia.
Qed.

Lemma sum_nil : sum [] = 0.
Proof. reflexivity. Qed.

Lemma sum_cons (a : Z) (l : list Z) : sum (a :: l) = a + sum l.
Proof. unfold sum; simpl. apply sum_acc. Qed.

Lemma sum_app (l1 l2 : list Z) : sum (l1 ++ l2) = sum l1 + sum l2.
Proof.
  induction l1 as [|a l1 IH]; simpl; [reflexivity|].
  rewrite !sum_cons, IH. lia.
Qed.

Lemma sum_nonneg (l : list Z) : (forall n, In n l -> 0 <= n) -> 0 <= sum l.
Proof.
  induction l as [|a l IH]; intros H; [reflexivity|].
  rewrite sum_cons. specialize (H a (or_introl eq_refl)) as Ha.
  assert (0 <= sum l) by (apply IH; intros; apply H; right; assumption). lia.
Qed.

(** ** Dictionaries *)

Section DictFacts.
Context {V : Type}.
Implicit Types (d : Dict.t V) (k : string) (v : V).

Lemma get_set_same d k v : Dict.get (Dict.set d k v) k = Some v.
Proof.
  induction d as [|[k' v'] d IH]; simpl.
  - rewrite String.eqb_refl. reflexivity.
  - destruct (String.eqb k k') eqn:E; simpl; rewrite E; auto.
Qed.

Lemma get_set_other d k k' v : k' <> k -> Dict.get (Dict.set d k v) k' = Dict.get d k'.
Proof.
  intros Hne. induction d as [|[k0 v0] d IH]; simpl.
  - apply String.eqb_neq in Hne. rewrite Hne. reflexivity.
  - destruct (String.eqb k k0) eqn:E; simpl.
    + apply String.eqb_eq in E; subst k0.
      apply String.eqb_neq in Hne. rewrite Hne. reflexivity.
    + rewrite IH. reflexivity.
Qed.

Lemma get_None d k : Dict.get d k = None <-> ~ In k (Dict.keys d).
Proof.
  induction d as [|[k' v'] d IH]; simpl.
  - tauto.
  - destruct (String.eqb k k') eqn:E.
    + apply String.eqb_eq in E; subst. split; [discriminate | tauto].
    + apply String.eqb_neq in E. rewrite IH. split; [|tauto].
      intros H [H'|H']; [congruence | tauto].
Qed.

Lemma get_Some_In d k v : Dict.get d k = Some v -> In (k, v) d.
Proof.
  induction d as [|[k' v'] d IH]; simpl; [discriminate|].
  destruct (String.eqb k k') eqn:E.
  - apply String.eqb_eq in E; subst. intros [= ->]. auto.
  - auto.
Qed.

Lemma get_Some_key d k v : Dict.get d k = Some v -> In k (Dict.keys d).
Proof.
  intros H. apply get_Some_In in H. apply (in_map fst) in H. exact H.
Qed.

Lemma In_keys_get d k : In k (Dict.keys d) -> exists v, Dict.get d k = Some v.
Proof.
  intros H. destruct (Dict.get d k) eqn:E; [eauto|].
  apply get_None in E. contradiction.
Qed.

Lemma In_get d k v : NoDup (Dict.keys d) -> In (k, v) d -> Dict.get d k = Some v.
Proof.
  induction d as [|[k' v'] d IH]; simpl; [contradiction|].
  intros Hnd [H|H].
  - injection H as -> ->. rewrite String.eqb_refl. reflexivity.
  - inversion Hnd as [|? ? Hnotin Hnd']; subst.
    destruct (String.eqb k k') eqn:E; [|auto].
    apply String.eqb_eq in E; subst. exfalso. apply Hnotin.
    apply (in_map fst) in H. exact H.
Qed.

(** Setting a key the dictionary does not have puts it last. *)
Lemma set_fresh d k v : ~ In k (Dict.keys d) -> Dict.set d k v = d ++ [(k, v)].
Proof.
  induction d as [|[k' v'] d IH]; simpl; intros H; [reflexivity|].
  destruct (String.eqb k k') eqn:E.
  - apply String.eqb_eq in E; subst. tauto.
  - rewrite IH by tauto. reflexivity.
Qed.

Lemma keys_set d k v :
  Dict.keys (Dict.set d k v) =
  if in_dec string_dec k (Dict.keys d) then Dict.keys d else Dict.keys d ++ [k].
Proof.
  induction d as [|[k' v'] d IH]; simpl; [reflexivity|].
  destruct (String.eqb k k') eqn:E; simpl.
  - apply String.eqb_eq in E; subst.
    destruct (string_dec k' k'); [reflexivity | congruence].
  - apply String.eqb_neq in E. rewrite IH.
    destruct (string_dec k' k); [congruence|].
    destruct (in_dec string_dec k (Dict.keys d)); reflexivity.
Qed.

Lemma In_keys_set d k v k' :
  In k' (Dict.keys (Dict.set d k v)) <-> k' = k \/ In k' (Dict.keys d).
Proof.
  rewrite keys_set. destruct (in_dec string_dec k (Dict.keys d)) as [Hin|Hin].
  - split; [auto | intros [->|H]; auto].
  - rewrite in_app_iff. simpl. split; intros H; intuition auto.
Qed.

Lemma NoDup_keys_set d k v : NoDup (Dict.keys d) -> NoDup (Dict.keys (Dict.set d k v)).
Proof.
  intros H. rewrite keys_set. destruct (in_dec string_dec k (Dict.keys d)); [assumption|].
  clear - H n. induction (Dict.keys d) as [|a l IH]; simpl in *.
  - constructor; [tauto | constructor].
  - inversion H; subst. constructor.
    + rewrite in_app_iff. simpl. intros [?|[?|[]]]; [tauto | subst; tauto].
    + apply IH; tauto.
Qed.

Lemma get_default_set d k v k' dflt :
  Dict.get_default (Dict.set d k v) k' dflt =
  if String.eqb k' k then v else Dict.get_default d k' dflt.
Proof.
  unfold Dict.get_default. destruct (String.eqb k' k) eqn:E.
  - apply String.eqb_eq in E; subst. rewrite get_set_same. reflexivity.
  - apply String.eqb_neq in E. rewrite get_set_other by assumption. reflexivity.
Qed.

End DictFacts.

Lemma get_map_fresh {A V} (f : A -> string) (g : A -> V) (l : list A) (a : A) :
  NoDup (map f l) -> In a l -> Dict.get (map (fun t => (f t, g t)) l) (f a) = Some (g a).
Proof.
  intros Hnd Hin. apply In_get.
  - unfold Dict.keys. rewrite map_map. simpl. exact Hnd.
  - apply (in_map (fun t => (f t, g t))) in Hin. exact Hin.
Qed.

Lemma get_map_inv {A V} (f : A -> string) (g : A -> V) (l : list A) (k : string) (v : V) :
  Dict.get (map (fun t => (f t, g t)) l) k = Some v ->
  exists a, In a l /\ f a = k /\ g a = v.
Proof.
  intros H. apply get_Some_In in H. apply in_map_iff in H.
  destruct H as [a [Ha Hin]]. injection Ha as <- <-. eauto.
Qed.

(** ** Variable dictionaries *)

Lemma fold_set_get {V} (f : string -> V) (l : list string) (k : string) :
  forall d,
    Dict.get (fold_left (fun d i => Dict.set d i (f i)) l d) k =
    if in_dec string_dec k l then Some (f k) else Dict.get d k.
Proof.
  induction l as [|a l IH]; intros d; simpl; [reflexivity|].
  rewrite IH. destruct (in_dec string_dec k l) as [Hin|Hin].
  - destruct (string_dec a k); reflexivity.
  - destruct (string_dec a k) as [->|Hne].
    + apply get_set_same.
    + apply get_set_other. congruence.
Qed.

Lemma LpVariable_dicts_get (name : string -> LpVar) (l : list string) low up c k :
  Dict.get (LpVariable_dicts name l low up c) k =
  if in_dec string_dec k l
  then Some {| var := name k; lowBound := low; upBound := up; cat := c |}
  else None.
Proof.
  unfold LpVariable_dicts.
  rewrite (fold_set_get (fun i => {| var := name i; lowBound := low; upBound := up; cat := c |})).
  destruct (in_dec string_dec k l); reflexivity.
Qed.

Lemma LpVariable_dicts_subscript (name : string -> LpVar) (l : list string) low up c k :
  In k l ->
  Dict.subscript (LpVariable_dicts name l low up c) k =
  Ok {| var := name k; lowBound := low; upBound := up; cat := c |}.
Proof.
  intros H. unfold Dict.subscript. rewrite LpVariable_dicts_get.
  destruct (in_dec string_dec k l); [reflexivity | contradiction].
Qed.

Lemma LpVariable_dicts_values (name : string -> LpVar) (l : list string) low up c k :
  In k l ->
  In {| var := name k; lowBound := low; upBound := up; cat := c |}
     (map snd (Dict.items (LpVariable_dicts name l low up c))).
Proof.
  intros H. pose proof (LpVariable_dicts_get name l low up c k) as G.
  destruct (in_dec string_dec k l); [|contradiction].
  apply get_Some_In in G. apply (in_map snd) in G. exact G.
Qed.

(** ** Identifiers: [str] is injective and prints no underscore *)

Lemma occurs_append a s1 s2 :
  occurs a (s1 ++ s2)%string = occurs a s1 || occurs a s2.
Proof.
  induction s1 as [|b s1 IH]; simpl; [reflexivity|].
  rewrite IH. apply orb_assoc.
Qed.

Lemma append_assoc (s1 s2 s3 : string) :
  (s1 ++ (s2 ++ s3))%string = ((s1 ++ s2) ++ s3)%string.
Proof.
  induction s1 as [|a s1 IH]; simpl; [reflexivity|]. rewrite IH. reflexivity.
Qed.

Lemma string_of_uint_no_underscore (d : Decimal.uint) :
  occurs "_" (NilEmpty.string_of_uint d) = false.
Proof.
  induction d; simpl; auto.
Qed.

Lemma str_no_underscore (n : nat) : occurs "_" (str n) = false.
Proof. apply string_of_uint_no_underscore. Qed.

Lemma str_inj (n m : nat) : str n = str m -> n = m.
Proof.
  unfold str. intros H.
  apply Unsigned.to_uint_inj.
  assert (E : Some (Nat.to_uint n) = Some (Nat.to_uint m)).
  { rewrite <- !NilEmpty.usu. rewrite H. reflexivity. }
  injection E as E. exact E.
Qed.

(** The last underscore of a string splits it in one way only. *)
Lemma split_last_underscore (a b d e : string) :
  occurs "_" d = false -> occurs "_" e = false ->
  (a ++ "_" ++ d)%string = (b ++ "_" ++ e)%string -> a = b /\ d = e.
Proof.
  intros Hd He. revert b.
  induction a as [|c a IH]; intros [|c' b] H; simpl in H.
  - injection H as H. auto.
  - injection H as Hc H. subst d.
    rewrite occurs_append in Hd. simpl in Hd.
    rewrite orb_true_r in Hd. discriminate.
  - injection H as Hc H. subst e.
    rewrite occurs_append in He. simpl in He.
    rewrite orb_true_r in He. discriminate.
  - injection H as Hc H. subst c'.
    destruct (IH _ H) as [-> ->]. auto.
Qed.

Lemma offer_id_of_inj (s s' : string) (i j i' j' : nat) :
  offer_id_of s i j = offer_id_of s' i' j' -> s = s' /\ i = i' /\ j = j'.
Proof.
  unfold offer_id_of. intros H.
  rewrite (append_assoc s "_" (str i ++ "_" ++ str j)) in H.
  rewrite (append_assoc (s ++ "_") (str i) ("_" ++ str j)) in H.
  rewrite (append_assoc s' "_" (str i' ++ "_" ++ str j')) in H.
  rewrite (append_assoc (s' ++ "_") (str i') ("_" ++ str j')) in H.
  apply split_last_underscore in H; try apply str_no_underscore.
  destruct H as [H Hj].
  rewrite <- !append_assoc in H.
  apply split_last_underscore in H; try apply str_no_underscore.
  destruct H as [Hs Hi].
  apply str_inj in Hi, Hj. auto.
Qed.

Lemma item_id_of_inj (i i' : nat) : item_id_of i = item_id_of i' -> i = i'.
Proof.
  unfold item_id_of. simpl. intros H. injection H as H. apply str_inj. exact H.
Qed.

Lemma id_of_inj (t t' : flat_offer) : id_of t = id_of t' -> fst t = fst t'.
Proof.
  destruct t as [[i j] o], t' as [[i' j'] o']. unfold id_of; simpl.
  intros H. apply offer_id_of_inj in H. destruct H as [_ [-> ->]]. reflexivity.
Qed.

(** ** [load_cart] builds the cart of the kept offers *)

Lemma load_offer_skip (i : nat) (c : cart) (p : nat * Json.offer) :
  keep p = false -> load_offer i c p = c.
Proof.
  destruct p as [j o]. unfold keep, load_offer; simpl.
  destruct (Json.available o <=? 0); [reflexivity | discriminate].
Qed.

Lemma load_offer_represents (i : nat) (c : cart) (p : nat * Json.offer) its ks :
  keep p = true ->
  ~ In (id_of (i, fst p, snd p)) (map id_of ks) ->
  represents c its ks ->
  represents (load_offer i c p) its (ks ++ [(i, fst p, snd p)]).
Proof.
  destruct p as [j o]. unfold keep; simpl. intros Hk Hfresh.
  intros (Hn & Hu & Hc & Hi & Hs & Hso).
  unfold load_offer. destruct (Json.available o <=? 0); [discriminate|].
  unfold represents; simpl. rewrite !map_app. simpl.
  repeat split; try assumption.
  - rewrite Hc. apply set_fresh. unfold Dict.keys.
    rewrite map_map. simpl. exact Hfresh.
  - rewrite Hi. reflexivity.
  - rewrite Hs. apply set_fresh. unfold Dict.keys.
    rewrite map_map. simpl. exact Hfresh.
  - intros s. unfold Dict.append. rewrite filter_app. simpl.
    destruct (String.eqb (Json.name o) s) eqn:E.
    + apply String.eqb_eq in E; subst s.
      rewrite get_set_same. unfold Dict.get_default. rewrite Hso.
      destruct (filter _ ks) as [|t l]; simpl; [reflexivity|].
      rewrite map_app. reflexivity.
    + apply String.eqb_neq in E.
      rewrite get_set_other by congruence. rewrite Hso, app_nil_r. reflexivity.
Qed.

Lemma load_offers_represents (i : nat) (l : list (nat * Json.offer)) :
  forall c its ks,
    NoDup (map id_of (ks ++ kept_from i l)) ->
    represents c its ks ->
    represents (fold_left (load_offer i) l c) its (ks ++ kept_from i l).
Proof.
  induction l as [|p l IH]; intros c its ks Hnd Hr; simpl.
  - unfold kept_from; simpl. rewrite app_nil_r. exact Hr.
  - unfold kept_from in *. simpl in *. destruct (keep p) eqn:Hk.
    + simpl in *.
      replace (ks ++ (i, fst p, snd p) :: map (fun p0 => (i, fst p0, snd p0)) (filter keep l))
        with ((ks ++ [(i, fst p, snd p)]) ++
              map (fun p0 => (i, fst p0, snd p0)) (filter keep l)) in *
        by (rewrite <- app_assoc; reflexivity).
      apply IH; [exact Hnd|].
      apply load_offer_represents; [exact Hk | | exact Hr].
      rewrite !map_app in Hnd. apply NoDup_app_remove_r in Hnd.
      simpl in Hnd. apply NoDup_remove_2 in Hnd. rewrite app_nil_r in Hnd. exact Hnd.
    + rewrite load_offer_skip by exact Hk. apply IH; assumption.
Qed.

Lemma load_item_represents (c : cart) (p : nat * Json.item) its ks :
  ~ In (item_id_of (fst p)) (map (fun r => item_id_of (fst r)) its) ->
  NoDup (map id_of (ks ++ kept_of_item p)) ->
  represents c its ks ->
  represents (load_item c p) (its ++ [p]) (ks ++ kept_of_item p).
Proof.
  destruct p as [i it]. simpl. intros Hfresh Hnd (Hn & Hu & Hc & Hi & Hs & Hso).
  unfold load_item, kept_of_item; simpl.
  apply load_offers_represents; [exact Hnd|].
  unfold represents; simpl. rewrite !map_app. simpl.
  repeat split; try assumption.
  - rewrite Hn. apply set_fresh. unfold Dict.keys. rewrite map_map. exact Hfresh.
  - rewrite Hu. apply set_fresh. unfold Dict.keys. rewrite map_map. exact Hfresh.
Qed.

Lemma load_items_represents (l : list (nat * Json.item)) :
  forall c its ks,
    NoDup (map (fun r => item_id_of (fst r)) (its ++ l)) ->
    NoDup (map id_of (ks ++ flat_map kept_of_item l)) ->
    represents c its ks ->
    represents (fold_left load_item l c) (its ++ l) (ks ++ flat_map kept_of_item l).
Proof.
  induction l as [|p l IH]; intros c its ks Hi Hk Hr; simpl.
  - rewrite !app_nil_r. exact Hr.
  - simpl in Hk. rewrite app_assoc in Hk.
    replace (its ++ p :: l) with ((its ++ [p]) ++ l) in *
      by (rewrite <- app_assoc; reflexivity).
    rewrite app_assoc. apply IH; [exact Hi | exact Hk |].
    apply load_item_represents; [ | | exact Hr].
    + rewrite !map_app in Hi. apply NoDup_app_remove_r in Hi.
      simpl in Hi. apply NoDup_remove_2 in Hi. rewrite app_nil_r in Hi. exact Hi.
    + rewrite map_app in Hk. apply NoDup_app_remove_r in Hk. exact Hk.
Qed.

(** ** The identifiers [load_cart] makes are pairwise distinct *)

Lemma NoDup_map_filter {K T} (key : T -> K) (sel : T -> bool) (ts : list T)
    (distinct : NoDup (map key ts)) : NoDup (map key (filter sel ts)).
Proof.
  induction ts as [|t ts IH]; simpl in *; [constructor|].
  inversion distinct as [|? ? Hnotin Hnd]; subst.
  destruct (sel t); simpl; [constructor|]; auto.
  intros Hin. apply Hnotin. apply in_map_iff in Hin.
  destruct Hin as [b [Hb Hin]]. apply filter_In in Hin.
  apply in_map_iff. exists b. tauto.
Qed.

Lemma NoDup_map_finer {A B C} (f : A -> B) (g : A -> C) (l : list A) :
  (forall a b, f a = f b -> g a = g b) -> NoDup (map g l) -> NoDup (map f l).
Proof.
  intros Hfg. induction l as [|a l IH]; simpl; intros H; [constructor|].
  inversion H as [|? ? Hnotin Hnd]; subst. constructor; auto.
  intros Hin. apply Hnotin. apply in_map_iff in Hin.
  destruct Hin as [b [Hb Hin]]. apply in_map_iff. exists b.
  split; [symmetry; apply Hfg; symmetry; exact Hb | exact Hin].
Qed.

Lemma enumerate_from_ge {A} (l : list A) :
  forall n p, In p (enumerate_from n l) -> (n <= fst p)%nat.
Proof.
  induction l as [|a l IH]; simpl; intros n p H; [contradiction|].
  destruct H as [<-|H]; [simpl; lia|]. apply IH in H. lia.
Qed.

Lemma enumerate_from_NoDup {A} (l : list A) :
  forall n, NoDup (map fst (enumerate_from n l)).
Proof.
  induction l as [|a l IH]; simpl; intros n; constructor; [|apply IH].
  intros H. apply in_map_iff in H. destruct H as [p [Hp Hin]].
  apply enumerate_from_ge in Hin. lia.
Qed.

Lemma kept_from_item (i : nat) (l : list (nat * Json.offer)) (t : flat_offer) :
  In t (kept_from i l) -> fst (fst t) = i /\ In (snd (fst t), snd t) l /\ 0 < Json.available (snd t).
Proof.
  unfold kept_from. intros H. apply in_map_iff in H.
  destruct H as [[j o] [<- Hin]]. apply filter_In in Hin. simpl.
  destruct Hin as [Hin Hk]. unfold keep in Hk. simpl in Hk.
  repeat split; [exact Hin|].
  destruct (Json.available o <=? 0) eqn:E; [discriminate|]. lia.
Qed.

Lemma kept_from_NoDup (i : nat) (l : list (nat * Json.offer)) :
  NoDup (map fst l) -> NoDup (map fst (kept_from i l)).
Proof.
  intros H. unfold kept_from. rewrite map_map. simpl.
  apply NoDup_map_finer with (g := fst).
  - intros a b E. injection E as E. exact E.
  - apply NoDup_map_filter. exact H.
Qed.

Lemma kept_offers_from_ge (l : list Json.item) :
  forall n t, In t (flat_map kept_of_item (enumerate_from n l)) -> (n <= fst (fst t))%nat.
Proof.
  intros n t H. apply in_flat_map in H. destruct H as [p [Hp Ht]].
  apply enumerate_from_ge in Hp. apply kept_from_item in Ht.
  destruct Ht as [-> _]. exact Hp.
Qed.

Lemma kept_offers_from_NoDup (l : list Json.item) :
  forall n, NoDup (map fst (flat_map kept_of_item (enumerate_from n l))).
Proof.
  induction l as [|it l IH]; simpl; intros n; [constructor|].
  rewrite map_app. apply NoDup_app.
  - apply kept_from_NoDup. apply enumerate_from_NoDup.
  - apply IH.
  - intros ij H1 H2. apply in_map_iff in H1, H2.
    destruct H1 as [t1 [<- H1]], H2 as [t2 [E H2]].
    apply kept_from_item in H1. simpl in H1. destruct H1 as [H1 _].
    apply kept_offers_from_ge in H2. rewrite E in H2. lia.
Qed.

Lemma kept_offers_ids_NoDup (data : list Json.item) :
  NoDup (map id_of (kept_offers data)).
Proof.
  apply NoDup_map_finer with (g := fst).
  - apply id_of_inj.
  - apply kept_offers_from_NoDup.
Qed.

Lemma item_ids_NoDup (data : list Json.item) :
  NoDup (map (fun r : nat * Json.item => item_id_of (fst r)) (enumerate data)).
Proof.
  apply NoDup_map_finer with (g := fst).
  - intros a b. apply item_id_of_inj.
  - apply enumerate_from_NoDup.
Qed.

Lemma load_cart_represents (data : list Json.item) :
  represents (load_cart data) (enumerate data) (kept_offers data).
Proof.
  unfold load_cart.
  apply (load_items_represents (enumerate data) empty_cart [] []).
  - apply item_ids_NoDup.
  - apply kept_offers_ids_NoDup.
  - unfold represents; simpl. repeat split; reflexivity.
Qed.

(** ** The cart [load_cart] returns is well formed *)

Lemma filter_map_comm {A B} (f : A -> B) (p : B -> bool) (l : list A) :
  filter p (map f l) = map f (filter (fun a => p (f a)) l).
Proof.
  induction l as [|a l IH]; simpl; [reflexivity|].
  destruct (p (f a)); simpl; rewrite IH; reflexivity.
Qed.

Lemma kept_offers_inv (data : list Json.item) (t : flat_offer) :
  In t (kept_offers data) ->
  exists it, In (fst (fst t), it) (enumerate data) /\
             In (snd (fst t), snd t) (enumerate (Json.sellers it)) /\
             0 < Json.available (snd t).
Proof.
  unfold kept_offers. intros H. apply in_flat_map in H.
  destruct H as [[i it] [Hp Ht]]. apply kept_from_item in Ht. simpl in Ht.
  destruct Ht as [-> [Hin Hpos]]. eauto.
Qed.

Lemma represents_get_default_sellers (c : cart) its ks (s : string) :
  represents c its ks ->
  Dict.get_default (seller_to_offers c) s [] =
  map id_of (filter (fun t => String.eqb (Json.name (snd t)) s) ks).
Proof.
  intros (_ & _ & _ & _ & _ & Hso). unfold Dict.get_default. rewrite Hso.
  destruct (filter _ ks); reflexivity.
Qed.

Lemma represents_seller_key (c : cart) its ks (t : flat_offer) :
  represents c its ks -> In t ks -> In (Json.name (snd t)) (sellers_of c).
Proof.
  intros (_ & _ & _ & _ & _ & Hso) Hin.
  assert (F : In t (filter (fun t' => String.eqb (Json.name (snd t')) (Json.name (snd t))) ks)).
  { apply filter_In. split; [exact Hin | apply String.eqb_refl]. }
  specialize (Hso (Json.name (snd t))).
  destruct (filter _ ks) as [|t0 l]; [contradiction|].
  apply get_Some_key in Hso. exact Hso.
Qed.

Lemma represents_well_formed (c : cart) its ks :
  represents c its ks ->
  NoDup (map id_of ks) ->
  NoDup (map (fun r : nat * Json.item => item_id_of (fst r)) its) ->
  (forall t, In t ks -> 0 < Json.available (snd t) /\ exists it, In (fst (fst t), it) its) ->
  well_formed c.
Proof.
  intros Hr Hnd Hni Hks. pose proof Hr as (Hn & Hu & Hc & Hi & Hs & Hso).
  assert (Hsold : forall s t, In t ks ->
            sold_by c s (id_of t) = String.eqb (Json.name (snd t)) s).
  { intros s t Ht. unfold sold_by. rewrite Hs.
    rewrite (get_map_fresh id_of (fun t => Json.name (snd t)) ks t Hnd Ht). reflexivity. }
  constructor.
  - rewrite Hi. exact Hnd.
  - rewrite Hc, Hi. unfold Dict.keys. rewrite map_map. reflexivity.
  - intros o e He. rewrite Hc in He. apply get_map_inv in He.
    destruct He as [t [Ht [<- <-]]]. destruct (Hks t Ht) as [Hpos [it Hit]].
    simpl. repeat split.
    + exact Hpos.
    + rewrite Hn. unfold Dict.keys. rewrite map_map. simpl.
      apply in_map_iff. exists (fst (fst t), it). auto.
    + rewrite Hs. apply (get_map_fresh id_of (fun t => Json.name (snd t))); assumption.
    + eapply represents_seller_key; eassumption.
  - intros s. rewrite (represents_get_default_sellers c its ks s Hr).
    rewrite Hi, filter_map_comm. f_equal. apply filter_ext_in.
    intros t Ht. symmetry. apply Hsold. exact Ht.
  - rewrite Hn. unfold Dict.keys. rewrite map_map. exact Hni.
  - rewrite Hu, Hn. unfold Dict.keys. rewrite !map_map. reflexivity.
Qed.

Lemma load_cart_well_formed (data : list Json.item) : well_formed (load_cart data).
Proof.
  apply (represents_well_formed _ (enumerate data) (kept_offers data)).
  - apply load_cart_represents.
  - apply kept_offers_ids_NoDup.
  - apply item_ids_NoDup.
  - intros t Ht. apply kept_offers_inv in Ht. destruct Ht as [it [H1 [_ H2]]]. eauto.
Qed.

(** ** On a well-formed cart the builder raises nothing and returns [model_of] *)

Section Builder.
Variable c : cart.
Hypothesis wf : well_formed c.

Lemma entry_of_offer (o : string) :
  In o (offer_ids c) -> exists e, Dict.get (offer_catalog c) o = Some e.
Proof.
  intros H. apply In_keys_get. rewrite (wf_catalog_keys c wf). exact H.
Qed.

Lemma x_subscript (o : string) :
  In o (offer_ids c) -> Dict.subscript (x (declare_vars c)) o = Ok (buy_variable o).
Proof. intros H. apply LpVariable_dicts_subscript. exact H. Qed.

Lemma seller_offers_get (s : string) :
  Dict.get_default (seller_to_offers c) s [] = seller_offers c s.
Proof. apply (wf_sellers c wf). Qed.

Lemma mapM_buys (l : list string) :
  incl l (offer_ids c) ->
  mapM (fun o => xo <- Dict.subscript (x (declare_vars c)) o ;; Ok (of_var xo)) l =
  Ok (map (fun o => of_var (buy_variable o)) l).
Proof.
  intros H. apply mapM_Ok. intros o Ho. rewrite x_subscript by auto. reflexivity.
Qed.

Lemma offers_of_item_Ok (id : string) : offers_of_item c id = Ok (item_offers c id).
Proof.
  unfold offers_of_item, item_offers. apply filterM_Ok. intros o Ho.
  destruct (entry_of_offer o Ho) as [e He].
  unfold Dict.subscript, offer_of_item. rewrite He. reflexivity.
Qed.

Lemma cost_term_Ok (o : string) :
  In o (offer_ids c) ->
  cost_term c (declare_vars c) o = Ok (scale (cost_of c o) (of_var (buy_variable o))).
Proof.
  intros Ho. unfold cost_term. rewrite x_subscript by assumption. simpl.
  destruct (entry_of_offer o Ho) as [e He].
  unfold Dict.subscript, cost_of. rewrite He. reflexivity.
Qed.

Lemma delivery_term_Ok (s : string) :
  In s (sellers_of c) -> delivery_term (declare_vars c) s = Ok (delivery_of s).
Proof.
  intros Hs. unfold delivery_term. simpl.
  rewrite !LpVariable_dicts_subscript by assumption. reflexivity.
Qed.

Lemma demand_constraint_Ok (id : string) :
  In id (Dict.keys (items_needed c)) ->
  demand_constraint c (declare_vars c) id = Ok (demand_of c id).
Proof.
  intros Hid. unfold demand_constraint. rewrite offers_of_item_Ok. simpl.
  rewrite mapM_buys by (intros o Ho; apply filter_In in Ho; tauto). simpl.
  apply In_keys_get in Hid. destruct Hid as [n Hn].
  unfold Dict.subscript, demand_of, needed, Dict.get_default. rewrite Hn. reflexivity.
Qed.

Lemma stock_constraint_Ok (o : string) :
  In o (offer_ids c) -> stock_constraint c (declare_vars c) o = Ok (stock_of c o).
Proof.
  intros Ho. unfold stock_constraint. rewrite x_subscript by assumption. simpl.
  destruct (entry_of_offer o Ho) as [e He].
  unfold Dict.subscript, stock_of, available_of. rewrite He. reflexivity.
Qed.

Lemma linkage_constraint_Ok (s o : string) :
  In s (sellers_of c) -> In o (offer_ids c) ->
  linkage_constraint c (declare_vars c) s o = Ok (linkage_of c s o).
Proof.
  intros Hs Ho. unfold linkage_constraint. rewrite x_subscript by assumption. simpl.
  destruct (entry_of_offer o Ho) as [e He].
  unfold Dict.subscript at 1. rewrite He. simpl.
  rewrite LpVariable_dicts_subscript by assumption. simpl.
  unfold linkage_of, available_of. rewrite He. reflexivity.
Qed.

Lemma seller_constraints_Ok (s : string) :
  In s (sellers_of c) ->
  seller_constraints c (declare_vars c) s =
  Ok (quantity_of c s :: map (linkage_of c s) (seller_offers c s)).
Proof.
  intros Hs. unfold seller_constraints. rewrite seller_offers_get. simpl.
  rewrite LpVariable_dicts_subscript by assumption. simpl.
  assert (Hincl : incl (seller_offers c s) (offer_ids c))
    by (intros o Ho; apply filter_In in Ho; tauto).
  rewrite mapM_buys by assumption. simpl.
  rewrite (mapM_Ok _ (linkage_of c s)).
  - reflexivity.
  - intros o Ho. apply linkage_constraint_Ok; auto.
Qed.

Lemma tier_constraints_Ok (s : string) :
  In s (sellers_of c) -> tier_constraints (declare_vars c) s = Ok (tiers_of s).
Proof.
  intros Hs. unfold tier_constraints. simpl.
  rewrite !LpVariable_dicts_subscript by assumption. reflexivity.
Qed.

Lemma build_model_Ok : build_model c = Ok (model_of c).
Proof.
  unfold build_model.
  rewrite (mapM_Ok _ _ _ cost_term_Ok). simpl.
  rewrite (mapM_Ok _ _ _ delivery_term_Ok). simpl.
  rewrite (mapM_Ok _ _ _ demand_constraint_Ok). simpl.
  rewrite (mapM_Ok _ _ _ stock_constraint_Ok). simpl.
  rewrite (mapM_Ok _ _ _ seller_constraints_Ok). simpl.
  rewrite (mapM_Ok _ _ _ tier_constraints_Ok). simpl.
  reflexivity.
Qed.

End Builder.

(** ** Evaluating expressions *)

Section Eval.
Variable a : LpVar -> Z.

Lemma eval_terms (e : LpAffineExpression) :
  eval a e = sum (map (fun t => snd t * a (fst t)) (terms e)) + constant e.
Proof.
  unfold eval. induction (terms e) as [|t l IH]; simpl.
  - lia.
  - rewrite sum_cons, IH. lia.
Qed.

Lemma eval_of_var (v : LpVariable) : eval a (of_var v) = a (var v).
Proof.
  unfold eval. cbn [of_var terms constant fold_right fst snd]. lia.
Qed.

Lemma eval_of_const (k : Z) : eval a (of_const k) = k.
Proof. reflexivity. Qed.

Lemma eval_add (e1 e2 : LpAffineExpression) : eval a (add e1 e2) = eval a e1 + eval a e2.
Proof.
  rewrite !eval_terms. simpl. rewrite map_app, sum_app. lia.
Qed.

Lemma eval_scale (k : Z) (e : LpAffineExpression) : eval a (scale k e) = k * eval a e.
Proof.
  rewrite !eval_terms. simpl. rewrite map_map. simpl.
  assert (S : sum (map (fun t => k * snd t * a (fst t)) (terms e)) =
              k * sum (map (fun t => snd t * a (fst t)) (terms e))).
  { induction (terms e) as [|t l IH]; simpl.
    - rewrite !sum_nil. lia.
    - rewrite !sum_cons, IH. lia. }
  rewrite S. lia.
Qed.

Lemma eval_sub (e1 e2 : LpAffineExpression) : eval a (sub e1 e2) = eval a e1 - eval a e2.
Proof. unfold sub. rewrite eval_add, eval_scale. lia. Qed.

Lemma eval_fold_add (l : list LpAffineExpression) :
  forall e0, eval a (fold_left add l e0) = eval a e0 + sum (map (eval a) l).
Proof.
  induction l as [|e l IH]; simpl; intros e0.
  - rewrite ?sum_nil. lia.
  - rewrite IH, eval_add, sum_cons. lia.
Qed.

Lemma eval_lpSum (l : list LpAffineExpression) : eval a (lpSum l) = sum (map (eval a) l).
Proof. unfold lpSum. rewrite eval_fold_add, eval_of_const. lia. Qed.

Lemma eval_buys (l : list string) : eval a (buys l) = sum (map (fun o => a (buy o)) l).
Proof.
  unfold buys. rewrite eval_lpSum, map_map. f_equal.
  apply map_ext. intros o. apply eval_of_var.
Qed.

End Eval.

Create Rewrite HintDb eval.
#[local] Hint Rewrite eval_add eval_scale eval_sub eval_of_var eval_of_const eval_buys : eval.

(** ** What a feasible assignment satisfies *)

Lemma feasible_holds (prob : LpProblem) (a : LpVar -> Z) (k : LpConstraint) :
  feasible prob a = true -> In k (constraints prob) -> holds a k = true.
Proof.
  unfold feasible. intros H Hin. apply andb_prop in H. destruct H as [H _].
  rewrite forallb_forall in H. auto.
Qed.

Lemma feasible_in_domain (prob : LpProblem) (a : LpVar -> Z) (v : LpVariable) :
  feasible prob a = true -> In v (variables prob) -> in_domain a v = true.
Proof.
  unfold feasible. intros H Hin. apply andb_prop in H. destruct H as [_ H].
  rewrite forallb_forall in H. auto.
Qed.

Lemma holds_le (a : LpVar -> Z) (l r : LpAffineExpression) :
  holds a (le_c l r) = true <-> eval a l <= eval a r.
Proof. unfold holds; simpl. apply Z.leb_le. Qed.

Lemma holds_eq (a : LpVar -> Z) (l r : LpAffineExpression) :
  holds a (eq_c l r) = true <-> eval a l = eval a r.
Proof. unfold holds; simpl. apply Z.eqb_eq. Qed.

Lemma holds_ge (a : LpVar -> Z) (l r : LpAffineExpression) :
  holds a (ge_c l r) = true <-> eval a r <= eval a l.
Proof. unfold holds; simpl. apply Z.leb_le. Qed.

Section Feasible.
Variable c : cart.
Variable a : LpVar -> Z.
Hypothesis feas : feasible (model_of c) a = true.

Lemma In_demand (id : string) :
  In id (Dict.keys (items_needed c)) -> In (demand_of c id) (constraints (model_of c)).
Proof.
  intros H. simpl. apply in_or_app. left. apply in_map. exact H.
Qed.

Lemma In_stock (o : string) :
  In o (offer_ids c) -> In (stock_of c o) (constraints (model_of c)).
Proof.
  intros H. simpl. apply in_or_app. right. apply in_or_app. left.
  apply in_map. exact H.
Qed.

Lemma In_seller_part (s : string) (k : LpConstraint) :
  In s (sellers_of c) ->
  In k (quantity_of c s :: map (linkage_of c s) (seller_offers c s)) ->
  In k (constraints (model_of c)).
Proof.
  intros Hs Hk. simpl. apply in_or_app. right. apply in_or_app. right.
  apply in_or_app. left. apply in_concat.
  exists (quantity_of c s :: map (linkage_of c s) (seller_offers c s)).
  split; [|exact Hk].
  apply (in_map (fun s => quantity_of c s :: map (linkage_of c s) (seller_offers c s))).
  exact Hs.
Qed.

Lemma In_tier_part (s : string) (k : LpConstraint) :
  In s (sellers_of c) -> In k (tiers_of s) -> In k (constraints (model_of c)).
Proof.
  intros Hs Hk. simpl. apply in_or_app. right. apply in_or_app. right.
  apply in_or_app. right. apply in_concat.
  exists (tiers_of s). split; [apply in_map; exact Hs | exact Hk].
Qed.

Lemma feasible_demand (id : string) :
  In id (Dict.keys (items_needed c)) ->
  sum (map (fun o => a (buy o)) (item_offers c id)) = needed c id.
Proof.
  intros H. pose proof (feasible_holds _ _ _ feas (In_demand id H)) as Hk.
  unfold demand_of in Hk. apply holds_eq in Hk.
  rewrite eval_buys, eval_of_const in Hk. exact Hk.
Qed.

Lemma feasible_stock (o : string) :
  In o (offer_ids c) -> a (buy o) <= available_of c o.
Proof.
  intros H. pose proof (feasible_holds _ _ _ feas (In_stock o H)) as Hk.
  unfold stock_of in Hk. apply holds_le in Hk.
  rewrite eval_of_var, eval_of_const in Hk. exact Hk.
Qed.

Lemma feasible_quantity (s : string) :
  In s (sellers_of c) ->
  a (qty_seller s) = sum (map (fun o => a (buy o)) (seller_offers c s)).
Proof.
  intros H.
  pose proof (feasible_holds _ _ _ feas (In_seller_part s _ H (or_introl eq_refl))) as Hk.
  unfold quantity_of in Hk. apply holds_eq in Hk.
  rewrite eval_buys, eval_of_var in Hk. exact Hk.
Qed.

Lemma feasible_linkage (s o : string) :
  In s (sellers_of c) -> In o (seller_offers c s) ->
  a (buy o) <= available_of c o * a (use_seller s).
Proof.
  intros Hs Ho.
  assert (Hin : In (linkage_of c s o)
                   (quantity_of c s :: map (linkage_of c s) (seller_offers c s)))
    by (right; apply in_map; exact Ho).
  pose proof (feasible_holds _ _ _ feas (In_seller_part s _ Hs Hin)) as Hk.
  unfold linkage_of in Hk. apply holds_le in Hk.
  rewrite eval_scale, !eval_of_var in Hk. exact Hk.
Qed.

Lemma feasible_tiers (s : string) :
  In s (sellers_of c) ->
  a (small_del s) + a (med_del s) + a (big_del s) = a (use_seller s) /\
  a (qty_seller s) <= 4 + BIG_M * (1 - a (small_del s)) /\
  5 * a (med_del s) <= a (qty_seller s) /\
  a (qty_seller s) <= 20 + BIG_M * (1 - a (med_del s)) /\
  21 * a (big_del s) <= a (qty_seller s).
Proof.
  intros Hs.
  assert (T : forall k, In k (tiers_of s) -> holds a k = true)
    by (intros k Hk; apply (feasible_holds _ _ _ feas), (In_tier_part s k Hs Hk)).
  unfold tiers_of in T. simpl in T.
  pose proof (T _ (or_introl eq_refl)) as T1.
  pose proof (T _ (or_intror (or_introl eq_refl))) as T2.
  pose proof (T _ (or_intror (or_intror (or_introl eq_refl)))) as T3.
  pose proof (T _ (or_intror (or_intror (or_intror (or_introl eq_refl))))) as T4.
  pose proof (T _ (or_intror (or_intror (or_intror (or_intror (or_introl eq_refl)))))) as T5.
  apply holds_eq in T1. apply holds_le in T2, T4. apply holds_ge in T3, T5.
  autorewrite with eval in T1, T2, T3, T4, T5.
  cbn [var binary_variable qty_variable] in T1, T2, T3, T4, T5.
  unfold BIG_M in *. lia.
Qed.

Lemma feasible_buy_nonneg (o : string) : In o (offer_ids c) -> 0 <= a (buy o).
Proof.
  intros H.
  assert (Hv : In (buy_variable o) (variables (model_of c))).
  { simpl. unfold all_variables. apply in_or_app. left.
    apply LpVariable_dicts_values. exact H. }
  pose proof (feasible_in_domain _ _ _ feas Hv) as D.
  unfold in_domain in D. simpl in D. lia.
Qed.

Lemma feasible_binaries (s : string) :
  In s (sellers_of c) ->
  0 <= a (use_seller s) <= 1 /\ 0 <= a (small_del s) <= 1 /\
  0 <= a (med_del s) <= 1 /\ 0 <= a (big_del s) <= 1 /\ 0 <= a (qty_seller s).
Proof.
  intros H.
  assert (Hy : In (binary_variable (use_seller s)) (variables (model_of c))).
  { simpl. unfold all_variables. apply in_or_app. right. apply in_or_app. left.
    apply (LpVariable_dicts_values use_seller). exact H. }
  assert (Hq : In (qty_variable s) (variables (model_of c))).
  { simpl. unfold all_variables. do 2 (apply in_or_app; right). apply in_or_app. left.
    apply (LpVariable_dicts_values qty_seller). exact H. }
  assert (H1 : In (binary_variable (small_del s)) (variables (model_of c))).
  { simpl. unfold all_variables. do 3 (apply in_or_app; right). apply in_or_app. left.
    apply (LpVariable_dicts_values small_del). exact H. }
  assert (H2 : In (binary_variable (med_del s)) (variables (model_of c))).
  { simpl. unfold all_variables. do 4 (apply in_or_app; right). apply in_or_app. left.
    apply (LpVariable_dicts_values med_del). exact H. }
  assert (H3 : In (binary_variable (big_del s)) (variables (model_of c))).
  { simpl. unfold all_variables. do 5 (apply in_or_app; right).
    apply (LpVariable_dicts_values big_del). exact H. }
  apply (feasible_in_domain _ _ _ feas) in Hy, Hq, H1, H2, H3.
  unfold in_domain in *. simpl in *. lia.
Qed.

End Feasible.

(** ** Grouping purchases by seller *)

Lemma append_get_default (d : Dict.t (list order)) (s s' : string) (r : order) :
  Dict.get_default (Dict.append d s r) s' [] =
  if String.eqb s' s then Dict.get_default d s [] ++ [r] else Dict.get_default d s' [].
Proof. unfold Dict.append. apply get_default_set. Qed.

Lemma append_cons (k : string) (v : list order) (d : Dict.t (list order)) (s : string) (r : order) :
  Dict.append ((k, v) :: d) s r =
  if String.eqb s k then (k, v ++ [r]) :: d else (k, v) :: Dict.append d s r.
Proof.
  unfold Dict.append, Dict.get_default. simpl.
  destruct (String.eqb s k); reflexivity.
Qed.

Lemma all_orders_cons (k : string) (v : list order) (d : Dict.t (list order)) :
  all_orders ((k, v) :: d) = v ++ all_orders d.
Proof. reflexivity. Qed.

Lemma all_orders_append_sum (h : order -> Z) (d : Dict.t (list order)) (s : string) (r : order) :
  sum (map h (all_orders (Dict.append d s r))) = sum (map h (all_orders d)) + h r.
Proof.
  induction d as [|[k v] d IH].
  - unfold all_orders; simpl. rewrite sum_cons, !sum_nil. lia.
  - rewrite append_cons. destruct (String.eqb s k).
    + rewrite !all_orders_cons, !map_app, !sum_app. simpl.
      rewrite sum_cons, sum_nil. lia.
    + rewrite !all_orders_cons, !map_app, !sum_app, IH. lia.
Qed.

Lemma all_orders_append_In (d : Dict.t (list order)) (s : string) (r r' : order) :
  In r' (all_orders (Dict.append d s r)) <-> r' = r \/ In r' (all_orders d).
Proof.
  induction d as [|[k v] d IH].
  - unfold all_orders; simpl. intuition auto.
  - rewrite append_cons. destruct (String.eqb s k).
    + rewrite !all_orders_cons, !in_app_iff. simpl. intuition auto.
    + rewrite !all_orders_cons, !in_app_iff, IH. intuition auto.
Qed.

Lemma group_sum (h : order -> Z) (l : list (string * order)) :
  forall d, sum (map h (all_orders (group l d))) =
            sum (map h (all_orders d)) + sum (map (fun p => h (snd p)) l).
Proof.
  unfold group. induction l as [|p l IH]; intros d; simpl.
  - rewrite sum_nil. lia.
  - rewrite IH, all_orders_append_sum, sum_cons. lia.
Qed.

Lemma group_In (l : list (string * order)) (r : order) :
  forall d, In r (all_orders (group l d)) <-> In r (all_orders d) \/ In r (map snd l).
Proof.
  unfold group. induction l as [|p l IH]; intros d; simpl.
  - tauto.
  - rewrite IH, all_orders_append_In. intuition auto.
Qed.

Lemma group_get_default (l : list (string * order)) (s : string) :
  forall d, Dict.get_default (group l d) s [] =
            Dict.get_default d s [] ++ map snd (filter (fun p => String.eqb s (fst p)) l).
Proof.
  unfold group. induction l as [|p l IH]; intros d; simpl.
  - rewrite app_nil_r. reflexivity.
  - rewrite IH, append_get_default.
    destruct (String.eqb s (fst p)) eqn:E; simpl.
    + apply String.eqb_eq in E; subst s. rewrite <- app_assoc. reflexivity.
    + reflexivity.
Qed.

Lemma group_keys (l : list (string * order)) (s : string) :
  forall d, In s (Dict.keys (group l d)) <-> In s (Dict.keys d) \/ In s (map fst l).
Proof.
  unfold group. induction l as [|p l IH]; intros d; simpl.
  - tauto.
  - rewrite IH. unfold Dict.append. rewrite In_keys_set. intuition auto.
Qed.

Lemma group_keys_NoDup (l : list (string * order)) :
  forall d, NoDup (Dict.keys d) -> NoDup (Dict.keys (group l d)).
Proof.
  unfold group. induction l as [|p l IH]; intros d H; simpl; [exact H|].
  apply IH. apply NoDup_keys_set. exact H.
Qed.

(** Sums over a filtered list. *)
Lemma sum_filter {A} (g : A -> Z) (p : A -> bool) (l : list A) :
  sum (map g (filter p l)) = sum (map (fun r => if p r then g r else 0) l).
Proof.
  induction l as [|a l IH]; simpl; [reflexivity|].
  destruct (p a); simpl; rewrite ?sum_cons, IH; lia.
Qed.

Lemma sum_map_ext_in {A} (f g : A -> Z) (l : list A) :
  (forall a, In a l -> f a = g a) -> sum (map f l) = sum (map g l).
Proof.
  intros H. f_equal. apply map_ext_in. exact H.
Qed.

Lemma sum_flat_map {A B} (f : A -> list B) (g : B -> Z) (l : list A) :
  sum (map g (flat_map f l)) = sum (map (fun a => sum (map g (f a))) l).
Proof.
  induction l as [|a l IH]; simpl; [reflexivity|].
  rewrite map_app, sum_app, sum_cons, IH. reflexivity.
Qed.

(** The units bought at the one place where a key occurs. *)
Lemma sum_single (f : string -> Z) (l : list string) (o : string) :
  NoDup l ->
  sum (map (fun o' => if String.eqb o' o then f o' else 0) l) =
  if in_dec string_dec o l then f o else 0.
Proof.
  induction l as [|a l IH]; intros H; simpl; [reflexivity|].
  inversion H as [|? ? Hnotin Hnd]; subst. rewrite sum_cons, IH by assumption.
  destruct (string_dec a o) as [->|Hne].
  - rewrite String.eqb_refl. destruct (in_dec string_dec o l); [contradiction | lia].
  - destruct (String.eqb_spec a o) as [E|_]; [contradiction|].
    destruct (in_dec string_dec o l); lia.
Qed.

(** ** On a well-formed cart the extractor raises nothing *)

Section Extractor.
Variable c : cart.
Hypothesis wf : well_formed c.
Variable sol : solution.

Lemma seller_of_entry (o : string) (e : offer_entry) :
  Dict.get (offer_catalog c) o = Some e -> seller_of c o = seller e.
Proof.
  intros He. destruct (wf_entry c wf o e He) as (_ & _ & Hs & _).
  unfold seller_of, Dict.get_default. rewrite Hs. reflexivity.
Qed.

Lemma sold_by_seller_of (s o : string) :
  In o (offer_ids c) -> sold_by c s o = String.eqb (seller_of c o) s.
Proof.
  intros Ho. destruct (entry_of_offer c wf o Ho) as [e He].
  destruct (wf_entry c wf o e He) as (_ & _ & Hs & _).
  unfold sold_by, seller_of, Dict.get_default. rewrite Hs. reflexivity.
Qed.

Lemma offer_of_item_item_of (id o : string) :
  In o (offer_ids c) -> offer_of_item c id o = String.eqb (item_of c o) id.
Proof.
  intros Ho. destruct (entry_of_offer c wf o Ho) as [e He].
  unfold offer_of_item, item_of. rewrite He. reflexivity.
Qed.

Lemma seller_of_known (o : string) : In o (offer_ids c) -> In (seller_of c o) (sellers_of c).
Proof.
  intros Ho. destruct (entry_of_offer c wf o Ho) as [e He].
  rewrite (seller_of_entry o e He). apply (wf_entry c wf o e He).
Qed.

Lemma record_offer_Ok (assignment : Dict.t (list order)) (o : string) :
  In o (offer_ids c) ->
  record_offer c (declare_vars c) sol assignment o =
  Ok (match recorded sol o with
      | Some n => Dict.append assignment (seller_of c o) (item_of c o, o, n)
      | None => assignment
      end).
Proof.
  intros Ho. unfold record_offer, recorded.
  rewrite x_subscript by assumption. simpl.
  destruct (varValue sol (buy o)) as [qty|]; [|reflexivity].
  destruct (truthy_and_positive qty); [|reflexivity].
  destruct (entry_of_offer c wf o Ho) as [e He].
  destruct (wf_entry c wf o e He) as (_ & _ & Hs & _).
  unfold Dict.subscript, seller_of, item_of, Dict.get_default. rewrite Hs, He. reflexivity.
Qed.

Lemma fold_record_group (l : list string) :
  forall d,
    fold_left (fun asg o => match recorded sol o with
                            | Some n => Dict.append asg (seller_of c o) (item_of c o, o, n)
                            | None => asg
                            end) l d =
    group (flat_map (fun o => match recorded sol o with
                              | Some n => [(seller_of c o, (item_of c o, o, n))]
                              | None => []
                              end) l) d.
Proof.
  unfold group. induction l as [|o l IH]; intros d; simpl; [reflexivity|].
  rewrite fold_left_app, IH. destruct (recorded sol o); reflexivity.
Qed.

Lemma extract_assignment_Ok : extract_assignment c (declare_vars c) sol = Ok (plan_of c sol).
Proof.
  unfold extract_assignment.
  rewrite (foldM_Ok _ _ _ _ (fun s a H => record_offer_Ok s a H)).
  rewrite fold_record_group. reflexivity.
Qed.

Lemma record_delivery_Ok (d : Dict.t Z) (s : string) :
  In s (sellers_of c) ->
  record_delivery (declare_vars c) sol d s = Ok (Dict.set d s (fee_of sol s)).
Proof.
  intros Hs. unfold record_delivery. simpl.
  rewrite !LpVariable_dicts_subscript by assumption. reflexivity.
Qed.

Lemma extract_delivery_Ok : extract_delivery c (declare_vars c) sol = Ok (fees_of c sol).
Proof.
  unfold extract_delivery.
  rewrite (foldM_Ok _ _ _ _ (fun s a H => record_delivery_Ok s a H)). reflexivity.
Qed.

Lemma purchases_inv (s : string) (r : order) :
  In (s, r) (purchases c sol) ->
  In (order_offer r) (offer_ids c) /\ s = seller_of c (order_offer r) /\
  order_item r = item_of c (order_offer r) /\
  recorded sol (order_offer r) = Some (order_qty r).
Proof.
  unfold purchases. intros H. apply in_flat_map in H. destruct H as [o [Ho H]].
  destruct (recorded sol o) as [n|] eqn:E; [|contradiction].
  destruct H as [H|[]]. injection H as <- <-. simpl. auto.
Qed.

Lemma plan_orders (r : order) :
  In r (all_orders (plan_of c sol)) <-> In r (map snd (purchases c sol)).
Proof.
  unfold plan_of. rewrite group_In. unfold all_orders; simpl. tauto.
Qed.

Lemma plan_order_known (r : order) :
  In r (all_orders (plan_of c sol)) -> In (order_offer r) (offer_ids c).
Proof.
  intros H. apply plan_orders in H. apply in_map_iff in H.
  destruct H as [[s r'] [<- H]]. apply purchases_inv in H. tauto.
Qed.

Lemma order_cost_Ok (r : order) :
  In (order_offer r) (offer_ids c) -> order_cost c r = Ok (priced c r).
Proof.
  destruct r as [[id o] n]. unfold order_offer; simpl. intros Ho.
  destruct (entry_of_offer c wf o Ho) as [e He].
  unfold order_cost, priced, cost_of, Dict.subscript, order_offer, order_qty; simpl.
  rewrite He. reflexivity.
Qed.

Lemma seller_cost_Ok (d : Dict.t Z) (p : string * list order) :
  In p (Dict.items (plan_of c sol)) ->
  seller_cost c d p = Ok (sum (map (priced c) (snd p)) + Dict.get_default d (fst p) 0).
Proof.
  destruct p as [s orders]. intros Hp. unfold seller_cost.
  rewrite (mapM_Ok _ (priced c)); [reflexivity|].
  intros r Hr. apply order_cost_Ok, plan_order_known.
  unfold all_orders. apply in_concat. exists orders. split; [|exact Hr].
  apply (in_map snd) in Hp. exact Hp.
Qed.

Lemma extract_Ok :
  extract c (declare_vars c) sol = Ok (plan_of c sol, fees_of c sol, total_of c sol).
Proof.
  unfold extract. rewrite extract_assignment_Ok, extract_delivery_Ok. simpl.
  rewrite (mapM_Ok _ _ _ (seller_cost_Ok (fees_of c sol))). reflexivity.
Qed.

End Extractor.

Lemma solve_shopping_problem_Ok (c : cart) (solver : LpProblem -> solution) :
  well_formed c ->
  solve_shopping_problem solver c =
  if is_optimal (status (solver (model_of c)))
  then Ok ([print_solving; solver_called (model_of c)],
           Some (plan_of c (solver (model_of c)), fees_of c (solver (model_of c)),
                 total_of c (solver (model_of c))))
  else Ok ([print_solving; solver_called (model_of c); print_no_optimal_solution], None).
Proof.
  intros wf. unfold solve_shopping_problem. rewrite (build_model_Ok c wf). simpl.
  destruct (is_optimal (status (solver (model_of c)))); simpl; [|reflexivity].
  rewrite (extract_Ok c wf). reflexivity.
Qed.


(** ** Solver values that are integers *)

Lemma integral_num (r : Q) (n : Z) : (r == inject_Z n)%Q -> Qnum r = n * Z.pos (Qden r).
Proof.
  unfold Qeq. simpl. lia.
Qed.

Lemma py_int_integral (r : Q) (n : Z) : (r == inject_Z n)%Q -> py_int r = n.
Proof.
  intros H. unfold py_int. rewrite (integral_num r n H).
  apply Z.quot_mul. discriminate.
Qed.

Lemma py_round_integral (r : Q) (n : Z) : (r == inject_Z n)%Q -> py_round r = n.
Proof.
  intros H. unfold py_round. rewrite (integral_num r n H).
  rewrite Z.div_mul by discriminate. rewrite Z.mod_mul by discriminate.
  simpl. reflexivity.
Qed.

Lemma truthy_and_positive_pos (r : Q) : truthy_and_positive r = (0 <? Qnum r).
Proof.
  unfold truthy_and_positive, Qeq_bool, Qle_bool. simpl.
  rewrite !Z.mul_1_r.
  destruct (Z.eqb_spec (Qnum r) 0), (Z.leb_spec (Qnum r) 0), (Z.ltb_spec 0 (Qnum r));
    simpl; try reflexivity; lia.
Qed.

Lemma truthy_and_positive_integral (r : Q) (n : Z) :
  (r == inject_Z n)%Q -> truthy_and_positive r = (0 <? n).
Proof.
  intros H. rewrite truthy_and_positive_pos, (integral_num r n H).
  destruct (Z.ltb_spec 0 n), (Z.ltb_spec 0 (n * Z.pos (Qden r))); try reflexivity; nia.
Qed.

Lemma py_int_nonneg (r : Q) : truthy_and_positive r = true -> 0 <= py_int r.
Proof.
  rewrite truthy_and_positive_pos. intros H. apply Z.ltb_lt in H.
  unfold py_int. apply Z.quot_pos; lia.
Qed.

Section Exact.
Variable c : cart.
Hypothesis wf : well_formed c.
Variable a : LpVar -> Z.
Hypothesis feas : feasible (model_of c) a = true.
Variable sol : solution.
Hypothesis exact : returns_assignment sol (model_of c) a.

Lemma recorded_exact (o : string) :
  In o (offer_ids c) ->
  recorded sol o = if 0 <? a (buy o) then Some (a (buy o)) else None.
Proof.
  intros Ho.
  assert (Hv : In (buy_variable o) (variables (model_of c))).
  { simpl. unfold all_variables. apply in_or_app. left.
    apply LpVariable_dicts_values. exact Ho. }
  destruct (exact _ Hv) as [r [Hr Heq]]. simpl in Hr, Heq.
  unfold recorded. rewrite Hr.
  rewrite (truthy_and_positive_integral r _ Heq), (py_int_integral r _ Heq). reflexivity.
Qed.

(** What the plan holds for an offer is what the solver assigned to it. *)
Lemma recorded_qty (o : string) (h : Z -> Z) :
  In o (offer_ids c) -> h 0 = 0 ->
  match recorded sol o with Some n => h n | None => 0 end = h (a (buy o)).
Proof.
  intros Ho H0. rewrite recorded_exact by assumption.
  pose proof (feasible_buy_nonneg c a feas o Ho) as Hpos.
  destruct (Z.ltb_spec 0 (a (buy o))); [reflexivity|].
  replace (a (buy o)) with 0 by lia. symmetry. exact H0.
Qed.

Lemma binary_value (v : LpVar) :
  In (binary_variable v) (variables (model_of c)) ->
  py_round (or_zero (varValue sol v)) = a v.
Proof.
  intros Hv. destruct (exact _ Hv) as [r [Hr Heq]]. simpl in Hr, Heq.
  rewrite Hr. simpl. apply py_round_integral. exact Heq.
Qed.

Lemma fee_of_exact (s : string) :
  In s (sellers_of c) ->
  fee_of sol s =
  if a (small_del s) =? 1 then SMALL_DEL
  else if a (med_del s) =? 1 then MED_DEL
  else if a (big_del s) =? 1 then BIG_DEL
  else 0.
Proof.
  intros Hs. unfold fee_of. rewrite !binary_value; [reflexivity | | |].
  - simpl. unfold all_variables. do 5 (apply in_or_app; right).
    apply (LpVariable_dicts_values big_del). exact Hs.
  - simpl. unfold all_variables. do 4 (apply in_or_app; right). apply in_or_app. left.
    apply (LpVariable_dicts_values med_del). exact Hs.
  - simpl. unfold all_variables. do 3 (apply in_or_app; right). apply in_or_app. left.
    apply (LpVariable_dicts_values small_del). exact Hs.
Qed.

(** The sum of any measure of the plan's orders, offer by offer. *)
Lemma plan_sum (h : order -> Z) :
  sum (map h (all_orders (plan_of c sol))) =
  sum (map (fun o => match recorded sol o with
                     | Some n => h (item_of c o, o, n)
                     | None => 0
                     end) (offer_ids c)).
Proof.
  unfold plan_of. rewrite group_sum.
  replace (sum (map h (all_orders Dict.empty))) with 0 by reflexivity.
  unfold purchases. rewrite (sum_flat_map _ (fun p => h (snd p))).
  rewrite Z.add_0_l. apply sum_map_ext_in. intros o _.
  destruct (recorded sol o); simpl; rewrite ?sum_cons, ?sum_nil; lia.
Qed.

Lemma bought_of_item_exact (id : string) :
  bought_of_item (plan_of c sol) id = sum (map (fun o => a (buy o)) (item_offers c id)).
Proof.
  unfold bought_of_item. rewrite sum_filter, plan_sum.
  unfold item_offers. rewrite sum_filter. apply sum_map_ext_in. intros o Ho.
  unfold order_item, order_qty; simpl.
  rewrite (offer_of_item_item_of c wf id o Ho).
  rewrite (recorded_qty o (fun n => if String.eqb (item_of c o) id then n else 0) Ho).
  - reflexivity.
  - destruct (String.eqb (item_of c o) id); reflexivity.
Qed.


Lemma bought_from_seller_exact (s : string) :
  bought_from_seller (plan_of c sol) s = sum (map (fun o => a (buy o)) (seller_offers c s)).
Proof.
  unfold bought_from_seller, plan_of. rewrite group_get_default.
  unfold Dict.get_default at 1; simpl.
  rewrite map_map.
  rewrite (sum_filter (fun p : string * order => order_qty (snd p))).
  unfold purchases. rewrite sum_flat_map.
  unfold seller_offers. rewrite sum_filter. apply sum_map_ext_in. intros o Ho.
  rewrite (sold_by_seller_of c wf s o Ho).
  rewrite <- (recorded_qty o (fun n => if String.eqb (seller_of c o) s then n else 0) Ho).
  - destruct (recorded sol o) as [n|]; simpl; rewrite ?sum_nil; [|reflexivity].
    rewrite sum_cons, sum_nil. rewrite (String.eqb_sym s).
    destruct (String.eqb (seller_of c o) s); unfold order_qty; simpl; lia.
  - destruct (String.eqb (seller_of c o) s); reflexivity.
Qed.

End Exact.

(** ** The properties of the specification *)

Lemma enumerate_functional {A} (l : list A) (n : nat) (x y : A) :
  In (n, x) (enumerate l) -> In (n, y) (enumerate l) -> x = y.
Proof.
  unfold enumerate. generalize 0%nat as k.
  induction l as [|a l IH]; simpl; intros k Hx Hy; [contradiction|].
  destruct Hx as [Hx|Hx], Hy as [Hy|Hy].
  - congruence.
  - injection Hx as -> _. apply enumerate_from_ge in Hy. simpl in Hy. lia.
  - injection Hy as -> _. apply enumerate_from_ge in Hx. simpl in Hx. lia.
  - eapply IH; eassumption.
Qed.

Lemma answers_returns (a : LpVar -> Z) (prob : LpProblem) :
  returns_assignment (answers a prob) prob a.
Proof.
  intros v _. exists (inject_Z (a (var v))). split; reflexivity.
Qed.

(** C9. Whatever the document, [load_cart] never puts an offer whose
    available quantity is zero or negative into the catalog (its identifier
    is in none of the offer structures), it puts every other offer in, and
    every entry of the catalog has a positive available quantity and the
    identifier of an item of the same cart. *)
Theorem load_cart_catalog_invariant (data : list Json.item) :
  let c := load_cart data in
  (forall i it j o,
      In (i, it) (enumerate data) -> In (j, o) (enumerate (Json.sellers it)) ->
      let id := offer_id_of (Json.name o) i j in
      if Json.available o <=? 0
      then ~ In id (offer_ids c) /\ Dict.get (offer_catalog c) id = None /\
           Dict.get (offer_to_seller c) id = None /\
           ~ In id (Dict.get_default (seller_to_offers c) (Json.name o) [])
      else In id (offer_ids c) /\
           Dict.get (offer_catalog c) id =
             Some {| item_id := item_id_of i; cost := Json.cost o;
                     available := Json.available o; seller := Json.name o |}) /\
  (forall id e, Dict.get (offer_catalog c) id = Some e ->
      0 < available e /\ In (item_id e) (Dict.keys (items_needed c))) /\
  (forall id, In id (offer_ids c) <-> In id (Dict.keys (offer_catalog c))).
Proof.
  intros c. pose proof (load_cart_represents data) as Hr.
  pose proof (load_cart_well_formed data) as wf. fold c in Hr, wf.
  pose proof Hr as (Hn & Hu & Hc & Hi & Hs & Hso).
  split; [|split].
  - intros i it j o Hit Ho id.
    destruct (Json.available o <=? 0) eqn:E.
    + assert (Hout : ~ In id (offer_ids c)).
      { rewrite Hi. intros Hin. apply in_map_iff in Hin.
        destruct Hin as [t [Ht Hin]].
        apply (id_of_inj t (i, j, o)) in Ht. simpl in Ht.
        apply kept_offers_inv in Hin. destruct Hin as [it' [H1 [H2 H3]]].
        rewrite Ht in H1, H2. simpl in H1, H2.
        pose proof (enumerate_functional _ _ _ _ H1 Hit) as ->.
        pose proof (enumerate_functional _ _ _ _ H2 Ho) as Eo.
        rewrite Eo in H3. apply Z.leb_le in E. lia. }
      split; [exact Hout|]. split; [|split].
      * apply get_None. rewrite (wf_catalog_keys c wf). exact Hout.
      * apply get_None. rewrite Hs. unfold Dict.keys. rewrite map_map. simpl.
        intros Hk. apply Hout. rewrite Hi.
        apply in_map_iff in Hk. destruct Hk as [t [Ht Hk]].
        apply in_map_iff. exists t. auto.
      * rewrite (wf_sellers c wf). intros Hin. apply filter_In in Hin. tauto.
    + assert (Hin : In (i, j, o) (kept_offers data)).
      { unfold kept_offers. apply in_flat_map. exists (i, it). split; [exact Hit|].
        unfold kept_of_item, kept_from. simpl.
        apply (in_map (fun p : nat * Json.offer => (i, fst p, snd p)) _ (j, o)).
        apply filter_In. split; [exact Ho|]. unfold keep. simpl. rewrite E. reflexivity. }
      split.
      * rewrite Hi. apply (in_map id_of) in Hin. exact Hin.
      * rewrite Hc.
        apply (get_map_fresh id_of entry_of (kept_offers data) (i, j, o)
                 (kept_offers_ids_NoDup data) Hin).
  - intros id e He. destruct (wf_entry c wf id e He) as (H1 & H2 & _). auto.
  - intros id. rewrite (wf_catalog_keys c wf). tauto.
Qed.

Lemma needed_get (c : cart) (id : string) (n : Z) :
  Dict.get (items_needed c) id = Some n -> needed c id = n.
Proof. intros H. unfold needed, Dict.get_default. rewrite H. reflexivity. Qed.

Lemma available_of_get (c : cart) (o : string) (e : offer_entry) :
  Dict.get (offer_catalog c) o = Some e -> available_of c o = available e.
Proof. intros H. unfold available_of. rewrite H. reflexivity. Qed.

Lemma solve_optimal (c : cart) (solver : LpProblem -> solution) :
  well_formed c -> status (solver (model_of c)) = LpStatusOptimal ->
  solve_shopping_problem solver c =
  Ok ([print_solving; solver_called (model_of c)],
      Some (plan_of c (solver (model_of c)), fees_of c (solver (model_of c)),
            total_of c (solver (model_of c)))).
Proof.
  intros wf Hs. rewrite (solve_shopping_problem_Ok c solver wf), Hs. reflexivity.
Qed.

(** C1. For every document, the model built from its cart contains, for every
    item, the equality constraint "the sum of buy[o] over the offers of the
    item = the required quantity", so every feasible assignment buys exactly
    that quantity; and when the solver answers Optimal with a feasible
    integer assignment, [solve_shopping_problem] returns a plan whose
    quantities, summed per item, are the required quantities. *)
Theorem demand_met_exactly (data : list Json.item) :
  let c := load_cart data in
  exists prob, build_model c = Ok prob /\
    (forall id n, Dict.get (items_needed c) id = Some n ->
       In (eq_c (buys (item_offers c id)) (of_const n)) (constraints prob) /\
       forall a, feasible prob a = true ->
         sum (map (fun o => a (buy o)) (item_offers c id)) = n) /\
    (forall solver a,
       status (solver prob) = LpStatusOptimal ->
       feasible prob a = true ->
       returns_assignment (solver prob) prob a ->
       exists events assignment delivery_costs total_cost,
         solve_shopping_problem solver c =
           Ok (events, Some (assignment, delivery_costs, total_cost)) /\
         forall id n, Dict.get (items_needed c) id = Some n ->
           bought_of_item assignment id = n).
Proof.
  intros c. pose proof (load_cart_well_formed data) as wf. fold c in wf.
  exists (model_of c). split; [apply build_model_Ok; exact wf|]. split.
  - intros id n Hn. pose proof (get_Some_key _ _ _ Hn) as Hid. split.
    + rewrite <- (needed_get c id n Hn). apply (In_demand c id Hid).
    + intros a feas. rewrite (feasible_demand c a feas id Hid).
      apply needed_get. exact Hn.
  - intros solver a Hopt feas Hret.
    exists [print_solving; solver_called (model_of c)],
           (plan_of c (solver (model_of c))), (fees_of c (solver (model_of c))),
           (total_of c (solver (model_of c))).
    split; [apply solve_optimal; assumption|].
    intros id n Hn. rewrite (bought_of_item_exact c wf a feas _ Hret).
    rewrite (feasible_demand c a feas id (get_Some_key _ _ _ Hn)).
    apply needed_get. exact Hn.
Qed.

Lemma sample_feasible :
  feasible (model_of (load_cart sample_cart)) sample_assignment = true.
Proof. vm_compute. reflexivity. Qed.

Lemma build_model_unique (c : cart) (prob : LpProblem) :
  well_formed c -> build_model c = Ok prob -> prob = model_of c.
Proof.
  intros wf H. rewrite (build_model_Ok c wf) in H. injection H as <-. reflexivity.
Qed.

(** On the sample cart, with the solver answering the sample assignment, the
    plan holds five units of the first item and two of the second. *)
Lemma demand_met_exactly_witness :
  exists events assignment delivery_costs total_cost,
    solve_shopping_problem (answers sample_assignment) (load_cart sample_cart) =
      Ok (events, Some (assignment, delivery_costs, total_cost)) /\
    bought_of_item assignment "item_0" = 5 /\
    bought_of_item assignment "item_1" = 2.
Proof.
  destruct (demand_met_exactly sample_cart) as [prob [Hb [_ H]]].
  apply (build_model_unique _ _ (load_cart_well_formed sample_cart)) in Hb. subst prob.
  destruct (H (answers sample_assignment) sample_assignment eq_refl sample_feasible
              (answers_returns _ _)) as [ev [asg [dc [tot [Hs Hq]]]]].
  exists ev, asg, dc, tot. split; [exact Hs|].
  split; apply Hq; reflexivity.
Defined.

(** C1, as stated, fails: "any returned plan" includes the plan returned when
    the solver answers Optimal with 0.99999904632568359375 for the one unit
    to buy.  The item is needed once and the plan holds no unit of it. *)
Lemma plan_short_of_demand :
  let c := load_cart unit_cart in
  Dict.get (items_needed c) "item_0" = Some 1 /\
  exists events assignment delivery_costs total_cost,
    solve_shopping_problem (replies LpStatusOptimal (unit_values almost_one)) c =
      Ok (events, Some (assignment, delivery_costs, total_cost)) /\
    bought_of_item assignment "item_0" = 0.
Proof.
  intros c. split; [reflexivity|].
  exists [print_solving; solver_called (model_of c)],
         [("X", [("item_0", "X_0_0", 0)])], [("X", 132)], 132.
  split; [|reflexivity].
  rewrite (solve_optimal c (replies LpStatusOptimal (unit_values almost_one))
             (load_cart_well_formed unit_cart) eq_refl).
  vm_compute. reflexivity.
Qed.



Lemma sum_ge_member {A} (f : A -> Z) (l : list A) (x : A) :
  (forall y, In y l -> 0 <= f y) -> In x l -> f x <= sum (map f l).
Proof.
  induction l as [|y l IH]; simpl; intros Hpos Hin; [contradiction|].
  rewrite sum_cons.
  assert (0 <= sum (map f l)).
  { apply sum_nonneg. intros n Hn. apply in_map_iff in Hn.
    destruct Hn as [z [<- Hz]]. apply Hpos. right. exact Hz. }
  destruct Hin as [->|Hin].
  - lia.
  - specialize (IH (fun z Hz => Hpos z (or_intror Hz)) Hin).
    specialize (Hpos y (or_introl eq_refl)). lia.
Qed.

Lemma fees_of_get (c : cart) (sol : solution) (s : string) :
  In s (sellers_of c) -> Dict.get (fees_of c sol) s = Some (fee_of sol s).
Proof.
  intros Hs. unfold fees_of. rewrite fold_set_get.
  destruct (in_dec string_dec s (sellers_of c)); [reflexivity | contradiction].
Qed.

(** A seller of the plan sold at least one unit at one of its offers. *)
Lemma plan_key_purchase (c : cart) (sol : solution) (s : string) :
  In s (Dict.keys (plan_of c sol)) ->
  exists o n, In o (offer_ids c) /\ s = seller_of c o /\ recorded sol o = Some n.
Proof.
  unfold plan_of. rewrite group_keys. intros [H|H]; [contradiction|].
  apply in_map_iff in H. destruct H as [[s' r] [Hs H]]. simpl in Hs. subst s'.
  apply purchases_inv in H. destruct H as (Ho & Hs & _ & Hr). eauto.
Qed.

(** C3. For every document and every seller of its cart, the model contains
    the constraint tier_small + tier_medium + tier_large = use_seller, and in
    every feasible integer assignment the small tier forces at most 4 units,
    the medium tier between 5 and 20, the large tier at least 21; and when
    the solver answers Optimal with a feasible integer assignment, every
    seller of the returned plan has exactly one tier indicator at 1, is
    charged the fee of that tier, and the units bought from it lie within
    the bounds of that tier (1-4, 5-20, 21 or more). *)
Theorem tier_matches_quantity (data : list Json.item) :
  let c := load_cart data in
  exists prob, build_model c = Ok prob /\
    (forall s, In s (sellers_of c) ->
       In (eq_c (add (add (of_var (binary_variable (small_del s)))
                          (of_var (binary_variable (med_del s))))
                     (of_var (binary_variable (big_del s))))
                (of_var (binary_variable (use_seller s))))
          (constraints prob) /\
       forall a, feasible prob a = true ->
         a (small_del s) + a (med_del s) + a (big_del s) = a (use_seller s) /\
         (a (small_del s) = 1 -> a (qty_seller s) <= 4) /\
         (a (med_del s) = 1 -> 5 <= a (qty_seller s) <= 20) /\
         (a (big_del s) = 1 -> 21 <= a (qty_seller s))) /\
    (forall solver a,
       status (solver prob) = LpStatusOptimal ->
       feasible prob a = true ->
       returns_assignment (solver prob) prob a ->
       exists events assignment delivery_costs total_cost,
         solve_shopping_problem solver c =
           Ok (events, Some (assignment, delivery_costs, total_cost)) /\
         forall s, In s (Dict.keys assignment) ->
           In s (sellers_of c) /\
           ((a (small_del s) = 1 /\ a (med_del s) = 0 /\ a (big_del s) = 0 /\
             Dict.get delivery_costs s = Some SMALL_DEL /\
             1 <= bought_from_seller assignment s <= 4) \/
            (a (small_del s) = 0 /\ a (med_del s) = 1 /\ a (big_del s) = 0 /\
             Dict.get delivery_costs s = Some MED_DEL /\
             5 <= bought_from_seller assignment s <= 20) \/
            (a (small_del s) = 0 /\ a (med_del s) = 0 /\ a (big_del s) = 1 /\
             Dict.get delivery_costs s = Some BIG_DEL /\
             21 <= bought_from_seller assignment s))).
Proof.
  intros c. pose proof (load_cart_well_formed data) as wf. fold c in wf.
  exists (model_of c). split; [apply build_model_Ok; exact wf|]. split.
  - intros s Hs. split.
    + apply (In_tier_part c s _ Hs). left. reflexivity.
    + intros a feas.
      pose proof (feasible_tiers c a feas s Hs) as (T1 & T2 & T3 & T4 & T5).
      pose proof (feasible_binaries c a feas s Hs) as (B0 & B1 & B2 & B3 & B4).
      unfold BIG_M in *.
      split; [lia|]. split; [intros E; lia|]. split; intros E; lia.
  - intros solver a Hopt feas Hret.
    exists [print_solving; solver_called (model_of c)],
           (plan_of c (solver (model_of c))), (fees_of c (solver (model_of c))),
           (total_of c (solver (model_of c))).
    split; [apply solve_optimal; assumption|].
    intros s Hs. apply plan_key_purchase in Hs.
    destruct Hs as (o & n & Ho & Hso & Hrec).
    assert (Hsel : In s (sellers_of c)) by (subst s; apply seller_of_known; assumption).
    split; [exact Hsel|].
    rewrite (recorded_exact c a _ Hret o Ho) in Hrec.
    destruct (Z.ltb_spec 0 (a (buy o))) as [Hbuy|]; [|discriminate].
    assert (Hoff : In o (seller_offers c s)).
    { apply filter_In. split; [exact Ho|].
      rewrite (sold_by_seller_of c wf s o Ho), <- Hso. apply String.eqb_refl. }
    pose proof (feasible_linkage c a feas s o Hsel Hoff) as Hlink.
    pose proof (feasible_tiers c a feas s Hsel) as (T1 & T2 & T3 & T4 & T5).
    pose proof (feasible_binaries c a feas s Hsel) as (B0 & B1 & B2 & B3 & B4).
    pose proof (feasible_quantity c a feas s Hsel) as Hq.
    rewrite (bought_from_seller_exact c wf a feas _ Hret s), <- Hq.
    assert (Hone : a (buy o) <= a (qty_seller s)).
    { rewrite Hq. apply (sum_ge_member (fun o' => a (buy o'))); [|exact Hoff].
      intros o' Ho'. apply filter_In in Ho'.
      apply (feasible_buy_nonneg c a feas). tauto. }
    assert (Huse : a (use_seller s) = 1).
    { assert (U : a (use_seller s) = 0 \/ a (use_seller s) = 1) by lia.
      destruct U as [U|U]; [|exact U]. rewrite U in Hlink. lia. }
    rewrite (fees_of_get c _ s Hsel), (fee_of_exact c a _ Hret s Hsel).
    unfold BIG_M in *.
    assert (Z : a (small_del s) = 1 \/ a (med_del s) = 1 \/ a (big_del s) = 1) by lia.
    destruct Z as [Z|[Z|Z]].
    + left. rewrite Z. simpl.
      split; [lia|]. split; [lia|]. split; [lia|]. split; [reflexivity | lia].
    + right; left. assert (Z1 : a (small_del s) = 0) by lia.
      rewrite Z1, Z. simpl.
      split; [lia|]. split; [lia|]. split; [lia|]. split; [reflexivity | lia].
    + right; right. assert (Z1 : a (small_del s) = 0) by lia.
      assert (Z2 : a (med_del s) = 0) by lia.
      rewrite Z1, Z2, Z. simpl.
      split; [lia|]. split; [lia|]. split; [lia|]. split; [reflexivity | lia].
Qed.

(** On the sample cart seller X, with six units, is charged the medium fee
    and seller Y, with one unit, the small fee. *)
Lemma tier_matches_quantity_witness :
  exists events assignment delivery_costs total_cost,
    solve_shopping_problem (answers sample_assignment) (load_cart sample_cart) =
      Ok (events, Some (assignment, delivery_costs, total_cost)) /\
    Dict.get delivery_costs "X" = Some MED_DEL /\
    5 <= bought_from_seller assignment "X" <= 20 /\
    Dict.get delivery_costs "Y" = Some SMALL_DEL /\
    1 <= bought_from_seller assignment "Y" <= 4.
Proof.
  destruct (tier_matches_quantity sample_cart) as [prob [Hb [_ H]]].
  apply (build_model_unique _ _ (load_cart_well_formed sample_cart)) in Hb. subst prob.
  destruct (H (answers sample_assignment) sample_assignment eq_refl sample_feasible
              (answers_returns _ _)) as [ev [asg [dc [tot [Hs Hq]]]]].
  exists ev, asg, dc, tot. split; [exact Hs|].
  assert (E : asg = plan_of (load_cart sample_cart)
                      (answers sample_assignment (model_of (load_cart sample_cart)))).
  { rewrite (solve_optimal (load_cart sample_cart) (answers sample_assignment)
               (load_cart_well_formed sample_cart) eq_refl) in Hs.
    injection Hs as _ <- _ _. reflexivity. }
  assert (HX : In "X" (Dict.keys asg)) by (rewrite E; vm_compute; auto).
  assert (HY : In "Y" (Dict.keys asg)) by (rewrite E; vm_compute; auto).
  destruct (Hq "X" HX) as [_ [X|[X|X]]]; destruct (Hq "Y" HY) as [_ [Y|[Y|Y]]];
    try (destruct X as [X _]; vm_compute in X; discriminate);
    try (destruct X as [_ [X _]]; vm_compute in X; discriminate);
    try (destruct Y as [Y _]; vm_compute in Y; discriminate);
    try (destruct Y as [_ [Y _]]; vm_compute in Y; discriminate).
  destruct X as (_ & _ & _ & X1 & X2), Y as (_ & _ & _ & Y1 & Y2). auto.
Defined.

(** C3, as stated, fails: "every seller appearing in a plan" includes the
    seller of the plan returned when the solver answers Optimal with values
    that meet every constraint and are within 1e-6 of integers, the unit
    being bought from S2 with use_seller and the small indicator at 2^-23.
    S2 is in the plan with one unit, none of its three indicators rounds to
    1, and it is charged no fee. *)
Lemma seller_without_tier :
  let c := load_cart wide_cart in
  let sol := replies LpStatusOptimal wide_values (model_of c) in
  forallb (holdsQ (fun v => or_zero (varValue sol v))) (constraints (model_of c)) = true /\
  py_round (or_zero (varValue sol (small_del "S2"))) = 0 /\
  py_round (or_zero (varValue sol (med_del "S2"))) = 0 /\
  py_round (or_zero (varValue sol (big_del "S2"))) = 0 /\
  exists events assignment delivery_costs total_cost,
    solve_shopping_problem (replies LpStatusOptimal wide_values) c =
      Ok (events, Some (assignment, delivery_costs, total_cost)) /\
    In "S2" (Dict.keys assignment) /\
    bought_from_seller assignment "S2" = 1 /\
    Dict.get delivery_costs "S2" = Some 0.
Proof.
  intros c sol. split; [vm_compute; reflexivity|].
  split; [reflexivity|]. split; [reflexivity|]. split; [reflexivity|].
  exists [print_solving; solver_called (model_of c)],
         [("S2", [("item_0", "S2_0_0", 1)])], [("S2", 0)], 500.
  split; [|split; [left; reflexivity | split; reflexivity]].
  rewrite (solve_optimal c (replies LpStatusOptimal wide_values)
             (load_cart_well_formed wide_cart) eq_refl).
  vm_compute. reflexivity.
Qed.

(** ** The quantity bought from a seller is at most the total demand *)

Lemma sum_filter_le {A} (f : A -> Z) (p : A -> bool) (l : list A) :
  (forall x, In x l -> 0 <= f x) -> sum (map f (filter p l)) <= sum (map f l).
Proof.
  induction l as [|x l IH]; simpl; intros Hpos; [lia|].
  specialize (IH (fun z Hz => Hpos z (or_intror Hz))).
  specialize (Hpos x (or_introl eq_refl)).
  destruct (p x); simpl; rewrite ?sum_cons; lia.
Qed.

Lemma sum_map_add {A} (f g : A -> Z) (l : list A) :
  sum (map (fun x => f x + g x) l) = sum (map f l) + sum (map g l).
Proof.
  induction l as [|x l IH]; simpl; [reflexivity|].
  rewrite !sum_cons, IH. lia.
Qed.

Lemma sum_map_zero {A} (l : list A) : sum (map (fun _ => 0) l) = 0.
Proof.
  induction l as [|x l IH]; simpl; [reflexivity|]. rewrite sum_cons, IH. reflexivity.
Qed.

(** Summing a list class by class, the classes being the keys of [ids]. *)
Lemma sum_by_class (f : string -> Z) (key : string -> string) (ids l : list string) :
  NoDup ids -> (forall o, In o l -> In (key o) ids) ->
  sum (map f l) =
  sum (map (fun id => sum (map f (filter (fun o => String.eqb (key o) id) l))) ids).
Proof.
  intros Hnd. induction l as [|o l IH]; intros Hkey.
  - simpl. rewrite sum_map_zero. reflexivity.
  - rewrite map_cons, sum_cons, (IH (fun z Hz => Hkey z (or_intror Hz))).
    assert (E : forall id,
      sum (map f (filter (fun o' => String.eqb (key o') id) (o :: l))) =
      (if String.eqb id (key o) then f o else 0) +
      sum (map f (filter (fun o' => String.eqb (key o') id) l))).
    { intros id. simpl. rewrite (String.eqb_sym id).
      destruct (String.eqb (key o) id); simpl; rewrite ?sum_cons; lia. }
    rewrite (sum_map_ext_in _ _ ids (fun id _ => E id)), sum_map_add.
    rewrite (sum_single (fun _ => f o) ids (key o) Hnd).
    destruct (in_dec string_dec (key o) ids) as [_|Hout]; [reflexivity|].
    exfalso. apply Hout, Hkey. left. reflexivity.
Qed.

Lemma total_demand_needed (c : cart) :
  NoDup (Dict.keys (items_needed c)) ->
  total_demand c = sum (map (needed c) (Dict.keys (items_needed c))).
Proof.
  intros Hnd. unfold total_demand, Dict.keys, Dict.items. rewrite map_map.
  apply sum_map_ext_in. intros [k v] Hin. simpl.
  unfold needed, Dict.get_default. rewrite (In_get _ k v Hnd Hin). reflexivity.
Qed.

Lemma quantity_le_total_demand (c : cart) (a : LpVar -> Z) (s : string) :
  well_formed c -> feasible (model_of c) a = true -> In s (sellers_of c) ->
  0 <= a (qty_seller s) <= total_demand c.
Proof.
  intros wf feas Hs.
  pose proof (feasible_binaries c a feas s Hs) as (_ & _ & _ & _ & Hq0).
  split; [exact Hq0|].
  rewrite (feasible_quantity c a feas s Hs). unfold seller_offers.
  etransitivity.
  { apply sum_filter_le. intros o Ho. apply (feasible_buy_nonneg c a feas o Ho). }
  rewrite (sum_by_class (fun o => a (buy o)) (item_of c)
             (Dict.keys (items_needed c)) (offer_ids c) (wf_items c wf)).
  - rewrite (total_demand_needed c (wf_items c wf)).
    apply Z.eq_le_incl. apply sum_map_ext_in. intros id Hid.
    rewrite <- (feasible_demand c a feas id Hid). unfold item_offers.
    f_equal. f_equal. apply filter_ext_in. intros o Ho.
    symmetry. apply (offer_of_item_item_of c wf id o Ho).
  - intros o Ho. destruct (entry_of_offer c wf o Ho) as [e He].
    unfold item_of. rewrite He. apply (wf_entry c wf o e He).
Qed.

(** C2, as the code has it.  The constant that relaxes the two upper bounds
    is the fixed number BIG_M = 100000, the same for every cart and not
    derived from the demand.  The quantity bought from a seller is, in every
    feasible assignment, between 0 and the total demand of the cart; so for
    every cart whose total demand is below 100000 the constant strictly
    exceeds every feasible qty_seller[s], and a bound relaxed by it (the
    indicator being 0) cannot bind. *)
Theorem big_m_exceeds_quantity_below_it (data : list Json.item) :
  let c := load_cart data in
  BIG_M = 100000 /\
  exists prob, build_model c = Ok prob /\
    (forall s, In s (sellers_of c) ->
       In (le_c (of_var (qty_variable s))
                (add (of_const 4)
                     (scale BIG_M (sub (of_const 1) (of_var (binary_variable (small_del s)))))))
          (constraints prob) /\
       In (le_c (of_var (qty_variable s))
                (add (of_const 20)
                     (scale BIG_M (sub (of_const 1) (of_var (binary_variable (med_del s)))))))
          (constraints prob)) /\
    (forall a s, feasible prob a = true -> In s (sellers_of c) ->
       0 <= a (qty_seller s) <= total_demand c /\
       (total_demand c < BIG_M ->
          a (qty_seller s) < BIG_M /\
          a (qty_seller s) < 4 + BIG_M * (1 - 0) /\
          a (qty_seller s) < 20 + BIG_M * (1 - 0))).
Proof.
  intros c. pose proof (load_cart_well_formed data) as wf. fold c in wf.
  split; [reflexivity|].
  exists (model_of c). split; [apply build_model_Ok; exact wf|]. split.
  - intros s Hs. split; apply (In_tier_part c s _ Hs); simpl; auto.
  - intros a s feas Hs.
    pose proof (quantity_le_total_demand c a s wf feas Hs) as Hq.
    split; [exact Hq|]. unfold BIG_M. intros Hd. lia.
Qed.

(** On the sample cart (total demand 7) the six units of seller X are below
    the constant. *)
Lemma big_m_exceeds_quantity_below_it_witness :
  sample_assignment (qty_seller "X") < BIG_M /\
  sample_assignment (qty_seller "X") <= total_demand (load_cart sample_cart).
Proof.
  destruct (big_m_exceeds_quantity_below_it sample_cart) as [_ [prob [Hb [_ H]]]].
  apply (build_model_unique _ _ (load_cart_well_formed sample_cart)) in Hb. subst prob.
  assert (HX : In "X" (sellers_of (load_cart sample_cart))) by (vm_compute; auto).
  destruct (H sample_assignment "X" sample_feasible HX) as [[_ H1] H2].
  split; [|exact H1]. apply H2. reflexivity.
Defined.

(** C2, as stated, fails: a cart whose single item is needed 100004 times
    and offered by one seller has a feasible assignment buying all of it
    from that seller, and that quantity is not below the constant. *)
Lemma big_m_not_above_quantity :
  let c := load_cart (bulk_cart 100004) in
  build_model c = Ok (model_of c) /\
  In "X" (sellers_of c) /\
  total_demand c = 100004 /\
  feasible (model_of c) (bulk_assignment 100004) = true /\
  ~ bulk_assignment 100004 (qty_seller "X") < BIG_M.
Proof.
  intros c. split; [apply build_model_Ok, load_cart_well_formed|].
  split; [vm_compute; auto|]. split; [reflexivity|].
  split; [vm_compute; reflexivity|]. vm_compute. discriminate.
Qed.

(** X2. With one unit more the relaxed bound binds: the stock suffices, the
    availability check of [main] passes, and no assignment is feasible. *)
Lemma bulk_order_infeasible :
  let c := load_cart (bulk_cart 100005) in
  check_availability c (Dict.keys (items_needed c)) =
    Ok ([print_need_available "u0" 100005 100005], true) /\
  build_model c = Ok (model_of c) /\
  forall a, feasible (model_of c) a = false.
Proof.
  intros c. split; [reflexivity|].
  pose proof (load_cart_well_formed (bulk_cart 100005)) as wf. fold c in wf.
  split; [apply build_model_Ok; exact wf|].
  intros a. destruct (feasible (model_of c) a) eqn:feas; [|reflexivity]. exfalso.
  assert (HX : In "X" (sellers_of c)) by (vm_compute; auto).
  assert (H0 : In "item_0" (Dict.keys (items_needed c))) by (vm_compute; auto).
  pose proof (feasible_demand c a feas "item_0" H0) as D.
  pose proof (feasible_quantity c a feas "X" HX) as Q.
  pose proof (feasible_tiers c a feas "X" HX) as (_ & T2 & _).
  pose proof (feasible_binaries c a feas "X" HX) as (_ & B1 & _).
  change (item_offers c "item_0") with ["X_0_0"] in D.
  change (seller_offers c "X") with ["X_0_0"] in Q.
  change (needed c "item_0") with 100005 in D.
  simpl in D, Q. rewrite sum_cons, sum_nil in D, Q.
  unfold BIG_M in T2. lia.
Qed.

(** ** The total cost *)

Lemma sum_concat {A} (g : A -> Z) (ls : list (list A)) :
  sum (map g (List.concat ls)) = sum (map (fun l => sum (map g l)) ls).
Proof.
  induction ls as [|l ls IH]; simpl; [reflexivity|].
  rewrite map_app, sum_app, sum_cons, IH. reflexivity.
Qed.

Lemma total_of_split (c : cart) (sol : solution) :
  total_of c sol =
  sum (map (priced c) (all_orders (plan_of c sol))) +
  sum (map (fun s => Dict.get_default (fees_of c sol) s 0) (Dict.keys (plan_of c sol))).
Proof.
  unfold total_of. rewrite sum_map_add. f_equal.
  - unfold all_orders. rewrite sum_concat, map_map. reflexivity.
  - unfold Dict.keys, Dict.items. rewrite map_map. reflexivity.
Qed.

(** C4, as the code has it.  For every solve that ends with status Optimal
    the total cost is recomputed from the (item, offer, quantity) records of
    the plan and from the fees of the sellers that have records in it, and
    that figure is returned; the only events are the "Solving..." message
    and the call of the solver: the objective of the solver is never
    compared with the figure and no mismatch is reported. *)
Theorem total_cost_recomputed (data : list Json.item) (solver : LpProblem -> solution) :
  let c := load_cart data in
  exists prob, build_model c = Ok prob /\
    (status (solver prob) = LpStatusOptimal ->
     exists assignment delivery_costs total_cost,
       solve_shopping_problem solver c =
         Ok ([print_solving; solver_called prob],
             Some (assignment, delivery_costs, total_cost)) /\
       total_cost =
         sum (map (fun r => cost_of c (order_offer r) * order_qty r) (all_orders assignment)) +
         sum (map (fun s => Dict.get_default delivery_costs s 0) (Dict.keys assignment))).
Proof.
  intros c. pose proof (load_cart_well_formed data) as wf. fold c in wf.
  exists (model_of c). split; [apply build_model_Ok; exact wf|].
  intros Hopt.
  exists (plan_of c (solver (model_of c))), (fees_of c (solver (model_of c))),
         (total_of c (solver (model_of c))).
  split; [apply solve_optimal; assumption|].
  apply total_of_split.
Qed.

(** On the sample cart the total is 4*10 + 1*12 + 2*7 plus the medium fee of
    X and the small fee of Y. *)
Lemma total_cost_recomputed_witness :
  exists assignment delivery_costs,
    solve_shopping_problem (answers sample_assignment) (load_cart sample_cart) =
      Ok ([print_solving; solver_called (model_of (load_cart sample_cart))],
          Some (assignment, delivery_costs, 66 + (MED_DEL + SMALL_DEL))).
Proof.
  destruct (total_cost_recomputed sample_cart (answers sample_assignment))
    as [prob [Hb H]].
  apply (build_model_unique _ _ (load_cart_well_formed sample_cart)) in Hb. subst prob.
  destruct (H eq_refl) as [asg [dc [tot [Hs Ht]]]].
  exists asg, dc. rewrite Hs. repeat f_equal.
  rewrite (solve_optimal (load_cart sample_cart) (answers sample_assignment)
             (load_cart_well_formed sample_cart) eq_refl) in Hs.
  injection Hs as <- <- <-. reflexivity.
Defined.

(** C4, as stated, fails: on a cart with two sellers, let the solver answer
    Optimal with an assignment in which seller Y sells nothing and has its
    small tier selected.  The objective is 274 at these values, the total
    recomputed and returned is 142, and nothing is reported. *)
Lemma cost_mismatch_accepted :
  let c := load_cart idle_cart in
  let sol := answers idle_assignment (model_of c) in
  feasible (model_of c) idle_assignment = true /\
  (objective_value (model_of c) sol == 274)%Q /\
  solve_shopping_problem (answers idle_assignment) c =
    Ok ([print_solving; solver_called (model_of c)],
        Some ([("X", [("item_0", "X_0_0", 1)])], [("X", 132); ("Y", 132)], 142)).
Proof.
  intros c sol. split; [vm_compute; reflexivity|]. split; [vm_compute; reflexivity|].
  rewrite (solve_optimal c (answers idle_assignment)
             (load_cart_well_formed idle_cart) eq_refl).
  vm_compute. reflexivity.
Qed.

(** ** Quantities are taken from the solver without a check *)

Lemma recorded_in_plan (c : cart) (sol : solution) (o : string) (n : Z) :
  In o (offer_ids c) -> recorded sol o = Some n ->
  In (item_of c o, o, n) (Dict.get_default (plan_of c sol) (seller_of c o) []).
Proof.
  intros Ho Hr. unfold plan_of. rewrite group_get_default.
  unfold Dict.get_default at 1; simpl.
  apply in_map_iff. exists (seller_of c o, (item_of c o, o, n)). split; [reflexivity|].
  apply filter_In. split; [|apply String.eqb_refl].
  unfold purchases. apply in_flat_map. exists o. split; [exact Ho|].
  rewrite Hr. left. reflexivity.
Qed.

(** C5, as the code has it.  A solve that ends with status Optimal always
    returns a plan: the values of the solver are turned into quantities
    without any tolerance being asserted, and no value is treated as a
    failure of the solver.  A value that is exactly a positive integer is
    recorded as that integer, under the seller and the item of its offer. *)
Theorem quantity_taken_unchecked (data : list Json.item) (solver : LpProblem -> solution) :
  let c := load_cart data in
  exists prob, build_model c = Ok prob /\
    (status (solver prob) = LpStatusOptimal ->
     exists events assignment delivery_costs total_cost,
       solve_shopping_problem solver c =
         Ok (events, Some (assignment, delivery_costs, total_cost)) /\
       forall o e r n,
         Dict.get (offer_catalog c) o = Some e ->
         varValue (solver prob) (buy o) = Some r ->
         (r == inject_Z n)%Q -> 0 < n ->
         In (item_id e, o, n) (Dict.get_default assignment (seller e) [])).
Proof.
  intros c. pose proof (load_cart_well_formed data) as wf. fold c in wf.
  exists (model_of c). split; [apply build_model_Ok; exact wf|].
  intros Hopt.
  exists [print_solving; solver_called (model_of c)],
         (plan_of c (solver (model_of c))), (fees_of c (solver (model_of c))),
         (total_of c (solver (model_of c))).
  split; [apply solve_optimal; assumption|].
  intros o e r n He Hr Heq Hn.
  assert (Ho : In o (offer_ids c)).
  { rewrite <- (wf_catalog_keys c wf). eapply get_Some_key; eassumption. }
  rewrite <- (seller_of_entry c wf o e He).
  replace (item_id e) with (item_of c o) by (unfold item_of; rewrite He; reflexivity).
  apply recorded_in_plan; [exact Ho|].
  unfold recorded. rewrite Hr, (truthy_and_positive_integral r n Heq).
  rewrite (py_int_integral r n Heq).
  destruct (Z.ltb_spec 0 n); [reflexivity | lia].
Qed.

(** On the three-unit cart, the solver answering exactly 3, the plan records
    three units. *)
Lemma quantity_taken_unchecked_witness :
  exists events assignment delivery_costs total_cost,
    solve_shopping_problem (replies LpStatusOptimal (three_values 3)) (load_cart three_cart) =
      Ok (events, Some (assignment, delivery_costs, total_cost)) /\
    In ("item_0", "X_0_0", 3) (Dict.get_default assignment "X" []).
Proof.
  destruct (quantity_taken_unchecked three_cart (replies LpStatusOptimal (three_values 3)))
    as [prob [Hb H]].
  destruct (H eq_refl) as [ev [asg [dc [tot [Hs Hq]]]]].
  exists ev, asg, dc, tot. split; [exact Hs|].
  apply (Hq "X_0_0" {| item_id := "item_0"; cost := 10; available := 10; seller := "X" |}
            3%Q 3).
  - reflexivity.
  - reflexivity.
  - reflexivity.
  - lia.
Defined.

(** C5, as stated, fails: the solver answering 2.75 units, a quarter away
    from the nearest integer 3, the run does not fail; a plan is returned,
    and the quantity in it is 2. *)
Lemma quantity_not_rounded_nor_checked :
  let c := load_cart three_cart in
  py_round (11 # 4) = 3 /\
  solve_shopping_problem (replies LpStatusOptimal (three_values (11 # 4))) c =
    Ok ([print_solving; solver_called (model_of c)],
        Some ([("X", [("item_0", "X_0_0", 2)])], [("X", 132)], 152)).
Proof.
  intros c. split; [reflexivity|].
  rewrite (solve_optimal c (replies LpStatusOptimal (three_values (11 # 4)))
             (load_cart_well_formed three_cart) eq_refl).
  vm_compute. reflexivity.
Qed.

(** ** The availability check of [main] *)

Lemma filter_none {A} (p : A -> bool) (l : list A) :
  (forall x, In x l -> p x = false) -> filter p l = [].
Proof.
  induction l as [|x l IH]; simpl; intros H; [reflexivity|].
  rewrite (H x) by auto. apply IH. auto.
Qed.

Lemma filter_all {A} (p : A -> bool) (l : list A) :
  (forall x, In x l -> p x = true) -> filter p l = l.
Proof.
  induction l as [|x l IH]; simpl; intros H; [reflexivity|].
  rewrite (H x) by auto. f_equal. apply IH. auto.
Qed.

(** The kept offers of one item, found back in the flat list by its index. *)
Lemma kept_of_index (l : list Json.item) (i : nat) (it : Json.item) :
  forall n, In (i, it) (enumerate_from n l) ->
    filter (fun t : flat_offer => Nat.eqb (fst (fst t)) i)
           (flat_map kept_of_item (enumerate_from n l)) =
    kept_of_item (i, it).
Proof.
  induction l as [|a l IH]; simpl; intros n H; [contradiction|].
  rewrite filter_app. destruct H as [H|H].
  - injection H as -> ->.
    rewrite filter_all, filter_none, app_nil_r; [reflexivity | |].
    + intros t Ht. apply kept_offers_from_ge in Ht.
      apply Nat.eqb_neq. lia.
    + intros t Ht. apply kept_from_item in Ht. destruct Ht as [-> _].
      apply Nat.eqb_refl.
  - pose proof (enumerate_from_ge _ _ _ H) as Hge. simpl in Hge.
    rewrite filter_none, (IH _ H); [reflexivity|].
    intros t Ht. apply kept_from_item in Ht. destruct Ht as [Hi _]. simpl in Hi.
    apply Nat.eqb_neq. lia.
Qed.

Lemma kept_stock (l : list Json.offer) (i : nat) :
  forall n, sum (map (fun t : flat_offer => Json.available (snd t))
                     (kept_from i (enumerate_from n l))) =
            sum (map Json.available (filter (fun o => negb (Json.available o <=? 0)) l)).
Proof.
  unfold kept_from. induction l as [|o l IH]; simpl; intros n; [reflexivity|].
  unfold keep at 1. simpl.
  destruct (Json.available o <=? 0); simpl; rewrite ?sum_cons, IH; reflexivity.
Qed.

Section Availability.
Variable data : list Json.item.
Local Abbreviation c := (load_cart data).

Lemma items_needed_keys :
  Dict.keys (items_needed c) = map (fun p : nat * Json.item => item_id_of (fst p)) (enumerate data).
Proof.
  destruct (load_cart_represents data) as (Hn & _).
  rewrite Hn. unfold Dict.keys. rewrite map_map. reflexivity.
Qed.

Lemma item_lookups (i : nat) (it : Json.item) :
  In (i, it) (enumerate data) ->
  Dict.get (items_needed c) (item_id_of i) = Some (Json.amount it) /\
  Dict.get (item_id_to_url c) (item_id_of i) = Some (Json.url it).
Proof.
  intros H. destruct (load_cart_represents data) as (Hn & Hu & _).
  rewrite Hn, Hu. split.
  - apply (get_map_fresh (fun p : nat * Json.item => item_id_of (fst p))
             (fun p => Json.amount (snd p)) (enumerate data) (i, it)
             (item_ids_NoDup data) H).
  - apply (get_map_fresh (fun p : nat * Json.item => item_id_of (fst p))
             (fun p => Json.url (snd p)) (enumerate data) (i, it)
             (item_ids_NoDup data) H).
Qed.

Lemma item_offers_of_index (i : nat) (it : Json.item) :
  In (i, it) (enumerate data) ->
  item_offers c (item_id_of i) = map id_of (kept_of_item (i, it)).
Proof.
  intros H. pose proof (load_cart_represents data) as (_ & _ & Hc & Hi & _).
  unfold item_offers. rewrite Hi, filter_map_comm.
  rewrite <- (kept_of_index data i it 0%nat H). fold (kept_offers data).
  f_equal. apply filter_ext_in. intros t Ht.
  unfold offer_of_item. rewrite Hc.
  rewrite (get_map_fresh id_of entry_of (kept_offers data) t
             (kept_offers_ids_NoDup data) Ht). simpl.
  destruct (Nat.eqb_spec (fst (fst t)) i) as [->|Hne].
  - apply String.eqb_refl.
  - apply String.eqb_neq. intros E. apply Hne, str_inj. exact E.
Qed.

Lemma total_available_Ok (i : nat) (it : Json.item) :
  In (i, it) (enumerate data) ->
  total_available c (item_id_of i) = Ok (stock_of_item it).
Proof.
  intros H. pose proof (load_cart_well_formed data) as wf.
  pose proof (load_cart_represents data) as (_ & _ & Hc & _).
  unfold total_available. rewrite (offers_of_item_Ok c wf). simpl.
  rewrite (item_offers_of_index i it H).
  rewrite (mapM_Ok _ (available_of c)).
  - simpl. f_equal. rewrite map_map. unfold stock_of_item.
    rewrite <- (kept_stock (Json.sellers it) i 0%nat).
    change (kept_from i (enumerate_from 0 (Json.sellers it))) with (kept_of_item (i, it)).
    apply sum_map_ext_in. intros t Ht.
    assert (Hk : In t (kept_offers data)).
    { unfold kept_offers. apply in_flat_map. exists (i, it). auto. }
    unfold available_of. rewrite Hc.
    rewrite (get_map_fresh id_of entry_of (kept_offers data) t
               (kept_offers_ids_NoDup data) Hk). reflexivity.
  - intros o Ho. apply in_map_iff in Ho. destruct Ho as [t [<- Ht]].
    assert (Hk : In t (kept_offers data)).
    { unfold kept_offers. apply in_flat_map. exists (i, it). auto. }
    unfold Dict.subscript, available_of. rewrite Hc.
    rewrite (get_map_fresh id_of entry_of (kept_offers data) t
               (kept_offers_ids_NoDup data) Hk). reflexivity.
Qed.

Lemma check_availability_trace (l : list (nat * Json.item)) :
  incl l (enumerate data) ->
  check_availability c (map (fun p : nat * Json.item => item_id_of (fst p)) l) =
  Ok (check_trace (map snd l)).
Proof.
  induction l as [|[i it] l IH]; intros Hincl; [reflexivity|].
  assert (Hin : In (i, it) (enumerate data)) by (apply Hincl; left; reflexivity).
  simpl. rewrite (total_available_Ok i it Hin). simpl.
  destruct (item_lookups i it Hin) as [Hn Hu].
  unfold Dict.subscript. rewrite Hu, Hn. simpl.
  unfold insufficient, availability_line.
  destruct (stock_of_item it <? Json.amount it); [reflexivity|].
  rewrite IH by (intros p Hp; apply Hincl; right; exact Hp). reflexivity.
Qed.

End Availability.

Lemma enumerate_from_snd {A} (l : list A) : forall n, map snd (enumerate_from n l) = l.
Proof.
  induction l as [|a l IH]; simpl; intros n; [reflexivity|]. rewrite IH. reflexivity.
Qed.

Lemma main_check (data : list Json.item) :
  check_availability (load_cart data) (Dict.keys (items_needed (load_cart data))) =
  Ok (check_trace data).
Proof.
  rewrite items_needed_keys, check_availability_trace by apply incl_refl.
  unfold enumerate. rewrite enumerate_from_snd. reflexivity.
Qed.

Lemma check_trace_insufficient (its : list Json.item) :
  existsb insufficient its = true ->
  exists pre it post,
    its = pre ++ it :: post /\
    forallb (fun it' => negb (insufficient it')) pre = true /\
    insufficient it = true /\
    check_trace its =
      (map availability_line pre ++ [availability_line it; print_not_enough_stock], false).
Proof.
  induction its as [|it its IH]; simpl; [discriminate|].
  destruct (insufficient it) eqn:E; simpl.
  - intros _. exists [], it, its. simpl. auto.
  - intros H. destruct (IH H) as (pre & it' & post & -> & Hpre & Hit & Htr).
    exists (it :: pre), it', post. simpl. rewrite E, Hpre, Htr. simpl. auto.
Qed.

Lemma check_trace_sufficient (its : list Json.item) :
  existsb insufficient its = false ->
  check_trace its = (map availability_line its, true).
Proof.
  induction its as [|it its IH]; simpl; [reflexivity|].
  destruct (insufficient it); simpl; [discriminate|].
  intros H. rewrite (IH H). reflexivity.
Qed.

Lemma main_insufficient (data : list Json.item) (solver : LpProblem -> solution)
    (printed : list event) :
  check_trace data = (printed, false) ->
  main solver data = Ok (print_checking_availability :: printed).
Proof.
  intros H. unfold main. rewrite main_check, H. reflexivity.
Qed.

Lemma main_sufficient (data : list Json.item) (solver : LpProblem -> solution) :
  existsb insufficient data = false ->
  main solver data =
  r <- solve_shopping_problem solver (load_cart data) ;;
  match snd r with
  | Some res =>
      report <- print_result (load_cart data) res ;;
      Ok (print_checking_availability :: map availability_line data ++ fst r ++ report)
  | None => Ok (print_checking_availability :: map availability_line data ++ fst r)
  end.
Proof.
  intros H. unfold main. rewrite main_check, (check_trace_sufficient data H). simpl.
  destruct (solve_shopping_problem solver (load_cart data)) as [[ev res]|k|]; reflexivity.
Qed.

Lemma no_solver_line_in_availability (its : list Json.item) (e : event) :
  In e (map availability_line its) -> exists u n k, e = print_need_available u n k.
Proof.
  intros H. apply in_map_iff in H. destruct H as [it [<- _]].
  unfold availability_line. eauto.
Qed.

(** C6. For every document in which some item has less stock in the catalog
    (the sum of the available quantities of its offers) than its required
    amount, [main] prints the availability line of each item up to the first
    such item, then "Not enough stock!", and returns.  These are all the
    events of the run and they are the same whatever the solver is: neither
    the "Solving..." message, which follows the construction of the model,
    nor a call of the solver is among them. *)
Theorem insufficient_stock_stops_before_solver (data : list Json.item) :
  existsb insufficient data = true ->
  exists pre it post events,
    data = pre ++ it :: post /\
    forallb (fun it' => negb (insufficient it')) pre = true /\
    stock_of_item it < Json.amount it /\
    (forall solver, main solver data = Ok events) /\
    events = print_checking_availability ::
             map availability_line pre ++ [availability_line it; print_not_enough_stock] /\
    ~ In print_solving events /\
    forall prob, ~ In (solver_called prob) events.
Proof.
  intros H. destruct (check_trace_insufficient data H) as (pre & it & post & E & Hpre & Hit & Htr).
  exists pre, it, post,
    (print_checking_availability ::
       map availability_line pre ++ [availability_line it; print_not_enough_stock]).
  split; [exact E|]. split; [exact Hpre|].
  split; [unfold insufficient in Hit; apply Z.ltb_lt; exact Hit|].
  split; [intros solver; apply main_insufficient; exact Htr|]. split; [reflexivity|].
  assert (G : forall e, In e (print_checking_availability ::
                 map availability_line pre ++ [availability_line it; print_not_enough_stock]) ->
              e = print_checking_availability \/ e = print_not_enough_stock \/
              exists u n k, e = print_need_available u n k).
  { intros e [<-|He]; [auto|]. apply in_app_or in He. destruct He as [He|He].
    - right; right. eapply no_solver_line_in_availability; eassumption.
    - destruct He as [<-|[<-|[]]]; [|auto].
      right; right. unfold availability_line. eauto. }
  split.
  - intros Hin. destruct (G _ Hin) as [E'|[E'|[u [n [k E']]]]]; discriminate.
  - intros prob Hin. destruct (G _ Hin) as [E'|[E'|[u [n [k E']]]]]; discriminate.
Qed.

(** On the short cart the second item needs 5 and has 3 in stock. *)
Lemma insufficient_stock_stops_before_solver_witness :
  existsb insufficient short_cart = true /\
  exists pre it post events,
    short_cart = pre ++ it :: post /\
    forallb (fun it' => negb (insufficient it')) pre = true /\
    stock_of_item it < Json.amount it /\
    (forall solver, main solver short_cart = Ok events) /\
    events = print_checking_availability ::
             map availability_line pre ++ [availability_line it; print_not_enough_stock] /\
    ~ In print_solving events /\
    forall prob, ~ In (solver_called prob) events.
Proof.
  split; [reflexivity|].
  exact (insufficient_stock_stops_before_solver short_cart eq_refl).
Defined.

Example short_cart_run :
  main (answers sample_assignment) short_cart =
    Ok [print_checking_availability; print_need_available "u0" 1 2;
        print_need_available "u1" 5 3; print_not_enough_stock].
Proof. apply main_insufficient. reflexivity. Qed.

(** C8, as the code has it.  For every solve whose status is not Optimal,
    [solve_shopping_problem] returns [None], never a partial result, after
    printing the one message "No optimal solution found.", whatever the
    status; [main] then prints nothing more.  Insufficient stock is told
    apart from this by its own message, printed by [main] before the solver
    is called; the message of a solve that is not optimal carries no reason. *)
Theorem non_optimal_returns_nothing (data : list Json.item) (solver : LpProblem -> solution) :
  let c := load_cart data in
  exists prob, build_model c = Ok prob /\
    (status (solver prob) <> LpStatusOptimal ->
     solve_shopping_problem solver c =
       Ok ([print_solving; solver_called prob; print_no_optimal_solution], None) /\
     (existsb insufficient data = false ->
      main solver data =
        Ok (print_checking_availability :: map availability_line data ++
            [print_solving; solver_called prob; print_no_optimal_solution])) /\
     (existsb insufficient data = true ->
      exists events, main solver data = Ok events /\
        In print_not_enough_stock events /\ ~ In print_no_optimal_solution events)).
Proof.
  intros c. pose proof (load_cart_well_formed data) as wf. fold c in wf.
  exists (model_of c). split; [apply build_model_Ok; exact wf|].
  intros Hs.
  assert (S : solve_shopping_problem solver c =
              Ok ([print_solving; solver_called (model_of c); print_no_optimal_solution], None)).
  { rewrite (solve_shopping_problem_Ok c solver wf).
    destruct (status (solver (model_of c))); try reflexivity. contradiction. }
  split; [exact S|]. split.
  - intros H. rewrite (main_sufficient data solver H). fold c. rewrite S. reflexivity.
  - intros H.
    destruct (check_trace_insufficient data H) as (pre & it & post & E & Hpre & Hit & Htr).
    exists (print_checking_availability ::
              map availability_line pre ++ [availability_line it; print_not_enough_stock]).
    split; [apply main_insufficient; exact Htr|]. split.
    + right. apply in_or_app. right. right. left. reflexivity.
    + intros [Hin|Hin]; [discriminate|]. apply in_app_or in Hin.
      destruct Hin as [Hin|Hin].
      * apply no_solver_line_in_availability in Hin.
        destruct Hin as [u [n [k Hin]]]. discriminate.
      * destruct Hin as [Hin|[Hin|[]]]; discriminate.
Qed.

(** On the three-unit cart, the solver reporting Infeasible, nothing is
    returned and the run ends with the one message. *)
Lemma non_optimal_returns_nothing_witness :
  solve_shopping_problem (gives_up LpStatusInfeasible) (load_cart three_cart) =
    Ok ([print_solving; solver_called (model_of (load_cart three_cart));
         print_no_optimal_solution], None).
Proof.
  destruct (non_optimal_returns_nothing three_cart (gives_up LpStatusInfeasible))
    as [prob [Hb H]].
  apply (build_model_unique _ _ (load_cart_well_formed three_cart)) in Hb. subst prob.
  apply H. discriminate.
Defined.

(** C8, as stated, fails: whether the solver reports that no feasible plan
    exists (Infeasible) or that it failed (Undefined, Not Solved), what is
    returned and everything that is printed are the same. *)
Lemma failure_reasons_not_distinguished :
  let c := load_cart three_cart in
  solve_shopping_problem (gives_up LpStatusInfeasible) c =
    solve_shopping_problem (gives_up LpStatusUndefined) c /\
  solve_shopping_problem (gives_up LpStatusInfeasible) c =
    solve_shopping_problem (gives_up LpStatusNotSolved) c /\
  main (gives_up LpStatusInfeasible) three_cart = main (gives_up LpStatusUndefined) three_cart /\
  main (gives_up LpStatusInfeasible) three_cart =
    Ok [print_checking_availability; print_need_available "u0" 3 10; print_solving;
        solver_called (model_of c); print_no_optimal_solution].
Proof.
  intros c. pose proof (load_cart_well_formed three_cart) as wf. fold c in wf.
  assert (S : forall st, st <> LpStatusOptimal ->
            solve_shopping_problem (gives_up st) c =
            Ok ([print_solving; solver_called (model_of c); print_no_optimal_solution], None)).
  { intros st Hst. rewrite (solve_shopping_problem_Ok c (gives_up st) wf). simpl.
    destruct st; try reflexivity. contradiction. }
  assert (M : forall st, st <> LpStatusOptimal ->
            main (gives_up st) three_cart =
            Ok [print_checking_availability; print_need_available "u0" 3 10; print_solving;
                solver_called (model_of c); print_no_optimal_solution]).
  { intros st Hst. rewrite (main_sufficient three_cart (gives_up st) eq_refl).
    fold c. rewrite (S st Hst). reflexivity. }
  split; [|split; [|split]].
  - rewrite !S by discriminate. reflexivity.
  - rewrite !S by discriminate. reflexivity.
  - rewrite !M by discriminate. reflexivity.
  - apply M. discriminate.
Qed.

(** ** Quantities of the plan *)

(** C10, at a failing input.  The solver answering 0.99999904632568359375
    for the one unit to buy, the test [qty and qty > 0] passes and [int]
    makes the quantity 0: the plan returned has seller X with a purchase of
    zero units, and the total is the small fee alone. *)
Theorem zero_quantity_recorded :
  let c := load_cart unit_cart in
  truthy_and_positive almost_one = true /\
  py_int almost_one = 0 /\
  py_round almost_one = 1 /\
  solve_shopping_problem (replies LpStatusOptimal (unit_values almost_one)) c =
    Ok ([print_solving; solver_called (model_of c)],
        Some ([("X", [("item_0", "X_0_0", 0)])], [("X", 132)], 132)).
Proof.
  intros c. split; [reflexivity|]. split; [reflexivity|]. split; [reflexivity|].
  rewrite (solve_optimal c (replies LpStatusOptimal (unit_values almost_one))
             (load_cart_well_formed unit_cart) eq_refl).
  vm_compute. reflexivity.
Qed.

Lemma recorded_inv (sol : solution) (o : string) (n : Z) :
  recorded sol o = Some n ->
  exists v, varValue sol (buy o) = Some v /\ truthy_and_positive v = true /\ n = py_int v.
Proof.
  unfold recorded. destruct (varValue sol (buy o)) as [v|]; [|discriminate].
  destruct (truthy_and_positive v) eqn:E; [|discriminate].
  intros [= <-]. eauto.
Qed.

Lemma py_int_pos (v : Q) : (1 <= v)%Q -> 0 < py_int v.
Proof.
  unfold Qle, py_int. simpl. intros H.
  assert (D : 0 < Z.pos (Qden v)) by reflexivity.
  apply Z.quot_str_pos. lia.
Qed.

(** X1. What holds of the plan whatever the values of the solver are: every
    seller of the plan has at least one purchase, every purchase is at an
    offer whose value is positive, its quantity is the integer part of that
    value, never negative and positive once the value reaches 1. *)
Theorem plan_purchases (data : list Json.item) (solver : LpProblem -> solution) :
  let c := load_cart data in
  exists prob, build_model c = Ok prob /\
    (status (solver prob) = LpStatusOptimal ->
     exists events assignment delivery_costs total_cost,
       solve_shopping_problem solver c =
         Ok (events, Some (assignment, delivery_costs, total_cost)) /\
       (forall s, In s (Dict.keys assignment) -> Dict.get_default assignment s [] <> []) /\
       (forall r, In r (all_orders assignment) ->
          exists v, varValue (solver prob) (buy (order_offer r)) = Some v /\
                    (0 < v)%Q /\ order_qty r = py_int v /\ 0 <= order_qty r /\
                    ((1 <= v)%Q -> 0 < order_qty r))).
Proof.
  intros c. pose proof (load_cart_well_formed data) as wf. fold c in wf.
  exists (model_of c). split; [apply build_model_Ok; exact wf|].
  intros Hopt.
  exists [print_solving; solver_called (model_of c)],
         (plan_of c (solver (model_of c))), (fees_of c (solver (model_of c))),
         (total_of c (solver (model_of c))).
  split; [apply solve_optimal; assumption|]. split.
  - intros s Hs. apply plan_key_purchase in Hs.
    destruct Hs as (o & n & Ho & -> & Hrec).
    pose proof (recorded_in_plan c _ o n Ho Hrec) as Hin.
    intros E. rewrite E in Hin. contradiction.
  - intros r Hr. apply plan_orders in Hr. apply in_map_iff in Hr.
    destruct Hr as [[s r'] [<- Hr]]. apply purchases_inv in Hr.
    destruct Hr as (_ & _ & _ & Hrec). simpl. apply recorded_inv in Hrec.
    destruct Hrec as (v & Hv & Hpos & Hq). exists v.
    split; [exact Hv|]. split.
    + rewrite truthy_and_positive_pos in Hpos. apply Z.ltb_lt in Hpos.
      unfold Qlt. simpl. lia.
    + split; [exact Hq|]. rewrite Hq. split.
      * apply py_int_nonneg. exact Hpos.
      * apply py_int_pos.
Qed.

(** ** Further facts about the catalog *)

(** X3. The identifiers of the offers are pairwise distinct, each has its entry
    in the catalog, and [seller_to_offers] lists, for each seller, its offer
    identifiers in the order of [offer_ids]. *)
Theorem offer_ids_distinct (data : list Json.item) :
  let c := load_cart data in
  NoDup (offer_ids c) /\
  (forall o, In o (offer_ids c) ->
     exists e, Dict.get (offer_catalog c) o = Some e /\
               Dict.get (offer_to_seller c) o = Some (seller e)) /\
  (forall s, Dict.get_default (seller_to_offers c) s [] =
             filter (fun o => String.eqb (seller_of c o) s) (offer_ids c)).
Proof.
  intros c. pose proof (load_cart_well_formed data) as wf. fold c in wf.
  split; [apply (wf_offer_ids c wf)|]. split.
  - intros o Ho. destruct (entry_of_offer c wf o Ho) as [e He].
    exists e. split; [exact He|]. apply (wf_entry c wf o e He).
  - intros s. rewrite (wf_sellers c wf). apply filter_ext_in.
    intros o Ho. apply (sold_by_seller_of c wf s o Ho).
Qed.

(** ** The total returned and the objective *)

Lemma fold_left_preserves {A S} (P : S -> Prop) (f : S -> A -> S) :
  (forall s a, P s -> P (f s a)) -> forall l s, P s -> P (fold_left f l s).
Proof.
  intros Hf l. induction l as [|a l IH]; simpl; intros s Hs; [exact Hs|].
  apply IH, Hf, Hs.
Qed.

Lemma load_cart_sellers_NoDup (data : list Json.item) :
  NoDup (sellers_of (load_cart data)).
Proof.
  unfold load_cart, sellers_of.
  apply (fold_left_preserves (fun c => NoDup (Dict.keys (seller_to_offers c)))).
  - intros c [i it] Hc. unfold load_item.
    apply (fold_left_preserves (fun c => NoDup (Dict.keys (seller_to_offers c)))).
    + intros c' [j o] Hc'. unfold load_offer.
      destruct (Json.available o <=? 0); [exact Hc'|]. simpl.
      apply NoDup_keys_set. exact Hc'.
    + exact Hc.
  - constructor.
Qed.

(** A sum over a list is the sum over a part of it that holds every element
    where the summand is not zero. *)
Lemma sum_over_part (g : string -> Z) (part whole : list string) :
  NoDup part -> NoDup whole -> incl part whole ->
  (forall s, In s whole -> ~ In s part -> g s = 0) ->
  sum (map g part) = sum (map g whole).
Proof.
  intros Hp Hw Hincl Hzero.
  rewrite (sum_by_class g (fun s => s) whole part Hw Hincl).
  apply sum_map_ext_in. intros s Hs.
  rewrite sum_filter, (sum_single g part s Hp).
  destruct (in_dec string_dec s part) as [_|Hout]; [reflexivity|].
  symmetry. apply Hzero; assumption.
Qed.

Lemma eval_objective (c : cart) (a : LpVar -> Z) :
  eval a (objective (model_of c)) =
  sum (map (fun o => cost_of c o * a (buy o)) (offer_ids c)) +
  sum (map (fun s => SMALL_DEL * a (small_del s) + MED_DEL * a (med_del s) +
                     BIG_DEL * a (big_del s)) (sellers_of c)).
Proof.
  simpl. rewrite eval_add, !eval_lpSum, !map_map. f_equal.
  - apply sum_map_ext_in. intros o _. rewrite eval_scale, eval_of_var. reflexivity.
  - apply sum_map_ext_in. intros s _. unfold delivery_of.
    rewrite !eval_add, !eval_scale, !eval_of_var. reflexivity.
Qed.

(** X4. When the solver answers Optimal with exactly a feasible integer
    assignment in which a seller that sells nothing is not used, the total
    that is returned is the objective at that assignment. *)
Theorem total_equals_objective (data : list Json.item) :
  let c := load_cart data in
  exists prob, build_model c = Ok prob /\
    forall solver a,
      status (solver prob) = LpStatusOptimal ->
      feasible prob a = true ->
      returns_assignment (solver prob) prob a ->
      (forall s, In s (sellers_of c) -> a (qty_seller s) = 0 -> a (use_seller s) = 0) ->
      exists events assignment delivery_costs total_cost,
        solve_shopping_problem solver c =
          Ok (events, Some (assignment, delivery_costs, total_cost)) /\
        total_cost = eval a (objective prob).
Proof.
  intros c. pose proof (load_cart_well_formed data) as wf. fold c in wf.
  exists (model_of c). split; [apply build_model_Ok; exact wf|].
  intros solver a Hopt feas Hret Hidle.
  set (sol := solver (model_of c)) in *.
  exists [print_solving; solver_called (model_of c)],
         (plan_of c sol), (fees_of c sol), (total_of c sol).
  split; [apply solve_optimal; assumption|].
  rewrite total_of_split, eval_objective. f_equal.
  - rewrite (plan_sum c sol (priced c)). apply sum_map_ext_in. intros o Ho.
    unfold priced, order_offer, order_qty. simpl.
    apply (recorded_qty c a feas sol Hret o (fun n => cost_of c o * n) Ho). lia.
  - assert (Hkeys : incl (Dict.keys (plan_of c sol)) (sellers_of c)).
    { intros s Hs. apply plan_key_purchase in Hs.
      destruct Hs as (o & n & Ho & -> & _). apply seller_of_known; assumption. }
    assert (Hfee : forall s, In s (sellers_of c) ->
              Dict.get_default (fees_of c sol) s 0 =
              SMALL_DEL * a (small_del s) + MED_DEL * a (med_del s) +
              BIG_DEL * a (big_del s)).
    { intros s Hs. unfold Dict.get_default.
      rewrite (fees_of_get c sol s Hs), (fee_of_exact c a sol Hret s Hs).
      pose proof (feasible_tiers c a feas s Hs) as (T1 & _).
      pose proof (feasible_binaries c a feas s Hs) as (B0 & B1 & B2 & B3 & _).
      destruct (Z.eqb_spec (a (small_del s)) 1) as [E1|E1];
        [unfold SMALL_DEL, MED_DEL, BIG_DEL; lia|].
      destruct (Z.eqb_spec (a (med_del s)) 1) as [E2|E2];
        [unfold SMALL_DEL, MED_DEL, BIG_DEL; lia|].
      destruct (Z.eqb_spec (a (big_del s)) 1) as [E3|E3];
        unfold SMALL_DEL, MED_DEL, BIG_DEL; lia. }
    rewrite (sum_map_ext_in _ _ _ (fun s Hs => Hfee s (Hkeys s Hs))).
    apply sum_over_part.
    + unfold plan_of. apply group_keys_NoDup. constructor.
    + apply load_cart_sellers_NoDup.
    + exact Hkeys.
    + intros s Hs Hout.
      assert (Hq : a (qty_seller s) = 0).
      { rewrite (feasible_quantity c a feas s Hs).
        rewrite <- (bought_from_seller_exact c wf a feas sol Hret s).
        unfold bought_from_seller, Dict.get_default.
        apply get_None in Hout. rewrite Hout. reflexivity. }
      pose proof (Hidle s Hs Hq) as Hy.
      pose proof (feasible_tiers c a feas s Hs) as (T1 & _).
      pose proof (feasible_binaries c a feas s Hs) as (B0 & B1 & B2 & B3 & _).
      unfold SMALL_DEL, MED_DEL, BIG_DEL. lia.
Qed.

(** On the sample cart the total returned, 435, is the objective at the
    sample assignment. *)
Lemma total_equals_objective_witness :
  exists events assignment delivery_costs,
    solve_shopping_problem (answers sample_assignment) (load_cart sample_cart) =
      Ok (events, Some (assignment, delivery_costs, 435)).
Proof.
  destruct (total_equals_objective sample_cart) as [prob [Hb H]].
  apply (build_model_unique _ _ (load_cart_well_formed sample_cart)) in Hb. subst prob.
  destruct (H (answers sample_assignment) sample_assignment eq_refl sample_feasible
              (answers_returns _ _)) as [ev [asg [dc [tot [Hs Ht]]]]].
  - intros s [<-|[<-|[]]]; vm_compute; discriminate.
  - exists ev, asg, dc. rewrite Hs, Ht. reflexivity.
Defined.

(** ** [print_result] *)

Lemma mapM_first {A B} (f : A -> exc B) (g : A -> B) (h : A -> option string) (l : list A) :
  (forall a, In a l -> f a = match h a with Some k => KeyError k | None => Ok (g a) end) ->
  mapM f l = match first_some h l with Some k => KeyError k | None => Ok (map g l) end.
Proof.
  induction l as [|a l IH]; simpl; intros H; [reflexivity|].
  rewrite (H a) by auto. destruct (h a) as [k|]; simpl; [reflexivity|].
  rewrite IH by auto. destruct (first_some h l); reflexivity.
Qed.

Lemma first_some_None {A} (h : A -> option string) (l : list A) :
  first_some h l = None <-> forall a, In a l -> h a = None.
Proof.
  induction l as [|a l IH]; simpl; [tauto|].
  destruct (h a) as [k|] eqn:E.
  - split; [discriminate|]. intros H. rewrite <- E. apply H. auto.
  - rewrite IH. split; [intros H b [<-|Hb]; auto | auto].
Qed.

Lemma first_some_Some {A} (h : A -> option string) (l : list A) (k : string) :
  first_some h l = Some k ->
  exists pre a post, l = pre ++ a :: post /\ h a = Some k /\ forall b, In b pre -> h b = None.
Proof.
  induction l as [|a l IH]; simpl; [discriminate|].
  destruct (h a) as [k'|] eqn:E.
  - intros [= <-]. exists [], a, l. simpl. tauto.
  - intros H. destruct (IH H) as (pre & b & post & -> & Hb & Hpre).
    exists (a :: pre), b, post. simpl.
    split; [reflexivity|]. split; [exact Hb|]. intros x [<-|Hx]; auto.
Qed.

Lemma first_some_app {A} (h : A -> option string) (l1 l2 : list A) :
  first_some h (l1 ++ l2) =
  match first_some h l1 with Some k => Some k | None => first_some h l2 end.
Proof.
  induction l1 as [|a l1 IH]; simpl; [reflexivity|].
  destruct (h a); [reflexivity | exact IH].
Qed.

Lemma first_some_concat {A} (h : A -> option string) (ls : list (list A)) :
  first_some h (List.concat ls) = first_some (first_some h) ls.
Proof.
  induction ls as [|l ls IH]; simpl; [reflexivity|].
  rewrite first_some_app, IH. reflexivity.
Qed.

(** *** Amounts below [2 ** 52] cents are printed as they are *)

Lemma py_round_near (n : Z) (d : positive) :
  2 * Z.abs (n - py_round (n # d) * Z.pos d) <= Z.pos d.
Proof.
  unfold py_round. cbn [Qnum Qden].
  pose proof (Z.div_mod n (Z.pos d) ltac:(lia)) as E.
  pose proof (Z.mod_pos_bound n (Z.pos d) ltac:(lia)) as B.
  destruct (Z.compare_spec (2 * (n mod Z.pos d)) (Z.pos d)) as [H|H|H];
    [destruct (Z.even (n / Z.pos d))| |]; nia.
Qed.

Lemma py_round_unique (n z : Z) (d : positive) :
  2 * Z.abs (n - z * Z.pos d) < Z.pos d -> py_round (n # d) = z.
Proof.
  intros H. unfold py_round. cbn [Qnum Qden].
  pose proof (Z.div_mod n (Z.pos d) ltac:(lia)) as E.
  pose proof (Z.mod_pos_bound n (Z.pos d) ltac:(lia)) as B.
  assert (C : n / Z.pos d = z \/ n / Z.pos d = z - 1) by nia.
  destruct (Z.compare_spec (2 * (n mod Z.pos d)) (Z.pos d)) as [H'|H'|H'];
    [destruct (Z.even (n / Z.pos d))| |]; nia.
Qed.

Lemma floor_log2_cents (x : Z) :
  0 < Z.abs x < 2 ^ 52 -> floor_log2 (Qabs (x # 100)) <= 45.
Proof.
  intros [Hpos Hlt]. unfold floor_log2. cbn [Qabs Qnum Qden].
  assert (Z.log2 (Z.abs x) < 52) by (apply Z.log2_lt_pow2; lia).
  change (Z.log2 (Z.pos 100)) with 6.
  destruct (Qle_bool _ _); lia.
Qed.

(** The unit in the last place of [x / 100] is [2 ** -7] at most, so the
    float is within [2 ** -8] of the quotient and its hundredths within
    [100 / 256] of [x]. *)
Lemma euros_exact (x : Z) : Z.abs x < 2 ^ 52 -> euros x = Ok x.
Proof.
  intros Hx. unfold euros, true_divide, binary64.
  destruct (Z.eq_dec x 0) as [->|Hne]; [reflexivity|].
  assert (Hz : Qeq_bool (x # 100) 0 = false).
  { destruct (Qeq_bool (x # 100) 0) eqn:E; [|reflexivity].
    apply Qeq_bool_eq in E. unfold Qeq in E. simpl in E. lia. }
  rewrite Hz.
  pose proof (floor_log2_cents x ltac:(lia)) as He.
  set (q := Z.max (floor_log2 (Qabs (x # 100)) - 52) (-1074)).
  assert (Hq : -1074 <= q <= -7) by (unfold q; lia).
  clearbody q. clear He.
  assert (Hp : exists p : positive, 2 ^ (- q) = Z.pos p /\ 128 <= Z.pos p).
  { assert (P : 2 ^ 7 <= 2 ^ (- q)) by (apply Z.pow_le_mono_r; lia).
    change (2 ^ 7) with 128 in P.
    destruct (2 ^ (- q)) as [|p|p] eqn:E; try lia. exists p. split; [reflexivity | lia]. }
  destruct Hp as [p [Ep Hp]].
  unfold scale2.
  destruct (Z.leb_spec 0 (- q)); [|lia].
  destruct (Z.leb_spec 0 q); [lia|].
  rewrite Ep.
  set (m := py_round ((x # 100) * inject_Z (Z.pos p))).
  assert (Hm : 2 * Z.abs (x * Z.pos p - m * 100) <= 100).
  { pose proof (py_round_near (x * Z.pos p) 100) as N.
    unfold m. unfold Qmult, inject_Z. cbn [Qnum Qden].
    rewrite Pos.mul_1_r. exact N. }
  clearbody m.
  assert (Ev : (inject_Z m / inject_Z (Z.pos p))%Q = (m * 1 # p)) by reflexivity.
  rewrite Ev.
  assert (Ho : Qle_bool (inject_Z (2 ^ 1024)) (Qabs (m * 1 # p)) = false).
  { destruct (Qle_bool _ _) eqn:E; [|reflexivity].
    apply Qle_bool_imp_le in E. unfold Qle in E. cbn [Qabs Qnum Qden inject_Z] in E.
    assert (2 ^ 52 <= 2 ^ 1024) by (apply Z.pow_le_mono_r; lia).
    nia. }
  rewrite Ho. unfold bind, format_2f. f_equal.
  unfold Qmult. cbn [Qnum Qden]. rewrite Pos.mul_1_r.
  apply py_round_unique. nia.
Qed.

(** Above, the text can differ from the amount: 90071992547409.93 is
    printed as 90071992547409.94, and from 1e309 on nothing is printed. *)
Example euros_inexact :
  euros 9007199254740993 = Ok 9007199254740994 /\
  euros (10 ^ 311) = OverflowError.
Proof. split; vm_compute; reflexivity. Qed.

(** *** No printing raises [KeyError] *)

Lemma no_key_error_bind {A B} (m : exc A) (f : A -> exc B) :
  no_key_error m -> (forall a, m = Ok a -> no_key_error (f a)) -> no_key_error (bind m f).
Proof.
  destruct m as [a|k|]; simpl; intros Hm Hf; [apply Hf; reflexivity | contradiction | exact I].
Qed.

Lemma no_key_error_mapM {A B} (f : A -> exc B) (l : list A) :
  (forall a, In a l -> no_key_error (f a)) -> no_key_error (mapM f l).
Proof.
  induction l as [|a l IH]; intros H; [exact I|].
  cbn [mapM]. apply no_key_error_bind; [apply H; left; reflexivity|].
  intros b _. apply no_key_error_bind; [apply IH; intros; apply H; right; assumption|].
  intros bs _. exact I.
Qed.

Lemma euros_no_key_error (x : Z) : no_key_error (euros x).
Proof.
  unfold euros, true_divide. destruct (binary64 (x # 100)); exact I.
Qed.

(** *** The report *)

Lemma print_one_order_first (c : cart) (r : order) :
  Z.abs (cost_of c (order_offer r)) < 2 ^ 52 ->
  print_one_order c r =
  match missing_offer c r with Some k => KeyError k | None => Ok (order_line c r) end.
Proof.
  destruct r as [[id o] n].
  unfold print_one_order, missing_offer, order_line, cost_of, Dict.subscript,
    order_offer, order_item, order_qty. cbn [fst snd].
  destruct (Dict.get (offer_catalog c) o) as [e|]; intros H; [|reflexivity].
  cbn [bind]. rewrite (euros_exact _ H). reflexivity.
Qed.

Lemma order_cost_first (c : cart) (r : order) :
  order_cost c r =
  match missing_offer c r with Some k => KeyError k | None => Ok (priced c r) end.
Proof.
  destruct r as [[id o] n].
  unfold order_cost, missing_offer, priced, cost_of, Dict.subscript,
    order_offer, order_qty. simpl.
  destruct (Dict.get (offer_catalog c) o); reflexivity.
Qed.

Lemma print_one_seller_first (c : cart) (dc : Dict.t Z) (p : string * list order) :
  (forall x, In x (flat_map money (seller_block c dc p)) -> Z.abs x < 2 ^ 52) ->
  print_one_seller c dc p =
  match first_some (missing_offer c) (snd p) with
  | Some k => KeyError k
  | None => Ok (seller_block c dc p, Dict.get_default dc (fst p) 0)
  end.
Proof.
  destruct p as [s orders]. intros Hr.
  assert (Ho : forall r, In r orders -> Z.abs (cost_of c (order_offer r)) < 2 ^ 52).
  { intros r Hin. apply Hr. apply in_flat_map. exists (order_line c r). split.
    - unfold seller_block. right. apply in_or_app. left. apply in_map. exact Hin.
    - left. reflexivity. }
  assert (Ht : Z.abs (sum (map (priced c) orders)) < 2 ^ 52 /\
               Z.abs (Dict.get_default dc s 0) < 2 ^ 52).
  { split; apply Hr; apply in_flat_map;
      exists (print_seller_totals (sum (map order_qty orders))
                (sum (map (priced c) orders)) (Dict.get_default dc s 0));
      (split; [unfold seller_block; right; apply in_or_app; right; left; reflexivity|]).
    - left. reflexivity.
    - right. left. reflexivity. }
  destruct Ht as [Ht Hd].
  unfold print_one_seller. cbn [fst snd].
  rewrite (mapM_first _ (order_line c) (missing_offer c) orders
             (fun r Hin => print_one_order_first c r (Ho r Hin))).
  destruct (first_some (missing_offer c) orders) eqn:E; cbn [bind]; [reflexivity|].
  rewrite (mapM_first _ (priced c) (missing_offer c) orders
             (fun r _ => order_cost_first c r)), E. cbn [bind].
  rewrite (euros_exact _ Ht), (euros_exact _ Hd). reflexivity.
Qed.

Lemma print_result_first (c : cart) (asg : Dict.t (list order)) (dc : Dict.t Z) (total : Z) :
  (forall x, In x (amounts_fed c (asg, dc, total)) -> Z.abs x < 2 ^ 52) ->
  print_result c (asg, dc, total) =
  match first_some (missing_offer c) (all_orders asg) with
  | Some k => KeyError k
  | None => Ok (report_of c (asg, dc, total))
  end.
Proof.
  intros Hr. unfold amounts_fed, report_of in Hr.
  assert (Hb : forall p, In p (Dict.items asg) ->
            forall x, In x (flat_map money (seller_block c dc p)) -> Z.abs x < 2 ^ 52).
  { intros p Hp x Hx. apply Hr. apply in_flat_map in Hx. destruct Hx as [e [He Hx]].
    apply in_flat_map. exists e. split; [|exact Hx].
    right. apply in_or_app. left. apply in_concat.
    exists (seller_block c dc p). split; [apply in_map; exact Hp | exact He]. }
  assert (Ht : Z.abs (sum (map (fun p : string * list order =>
                                  Dict.get_default dc (fst p) 0) (Dict.items asg))) < 2 ^ 52 /\
               Z.abs total < 2 ^ 52).
  { split; apply Hr; apply in_flat_map;
      exists (print_totals (sum (map (fun p : string * list order =>
                                        Dict.get_default dc (fst p) 0) (Dict.items asg))) total);
      (split; [right; apply in_or_app; right; left; reflexivity|]).
    - left. reflexivity.
    - right. left. reflexivity. }
  destruct Ht as [Hd Ht].
  unfold print_result, all_orders. rewrite first_some_concat.
  rewrite (mapM_first _ (fun p => (seller_block c dc p, Dict.get_default dc (fst p) 0))
             (fun p : string * list order => first_some (missing_offer c) (snd p))
             (Dict.items asg) (fun p Hp => print_one_seller_first c dc p (Hb p Hp))).
  unfold Dict.items in *.
  assert (E : first_some (first_some (missing_offer c)) (map snd asg) =
              first_some (fun p : string * list order => first_some (missing_offer c) (snd p)) asg).
  { clear. induction asg as [|p l IH]; simpl; [reflexivity|]. rewrite IH. reflexivity. }
  rewrite E. destruct (first_some _ asg); [reflexivity|].
  cbn [bind]. rewrite !map_map. cbn [fst snd].
  rewrite (euros_exact _ Hd), (euros_exact _ Ht). reflexivity.
Qed.

Lemma missing_offer_None (c : cart) (r : order) :
  missing_offer c r = None <-> In (order_offer r) (Dict.keys (offer_catalog c)).
Proof.
  unfold missing_offer. destruct (Dict.get (offer_catalog c) (order_offer r)) eqn:E.
  - split; [intros _; eapply get_Some_key; eassumption | reflexivity].
  - split; [discriminate|]. intros H. apply get_None in E. contradiction.
Qed.

Lemma print_result_no_key_error (c : cart) (asg : Dict.t (list order)) (dc : Dict.t Z)
    (total : Z) :
  (forall r, In r (all_orders asg) -> In (order_offer r) (Dict.keys (offer_catalog c))) ->
  no_key_error (print_result c (asg, dc, total)).
Proof.
  intros Hall. unfold print_result.
  apply no_key_error_bind.
  - apply no_key_error_mapM. intros [s orders] Hp.
    assert (Hk : forall r, In r orders -> missing_offer c r = None).
    { intros r Hr. apply missing_offer_None, Hall. unfold all_orders.
      apply in_concat. exists orders. split; [|exact Hr].
      apply (in_map snd) in Hp. exact Hp. }
    unfold print_one_seller. apply no_key_error_bind.
    + apply no_key_error_mapM. intros [[id o] n] Hr.
      specialize (Hk _ Hr). unfold missing_offer, order_offer in Hk. cbn [fst snd] in Hk.
      unfold print_one_order, Dict.subscript.
      destruct (Dict.get (offer_catalog c) o); [|discriminate]. cbn [bind].
      apply no_key_error_bind; [apply euros_no_key_error | intros; exact I].
    + intros lines _. rewrite (mapM_first _ (priced c) (missing_offer c) orders
                                 (fun r _ => order_cost_first c r)).
      replace (first_some (missing_offer c) orders) with (@None string)
        by (symmetry; apply first_some_None; exact Hk).
      cbn [bind]. apply no_key_error_bind; [apply euros_no_key_error|].
      intros a _. apply no_key_error_bind; [apply euros_no_key_error | intros; exact I].
  - intros blocks _. apply no_key_error_bind; [apply euros_no_key_error|].
    intros a _. apply no_key_error_bind; [apply euros_no_key_error | intros; exact I].
Qed.

Lemma order_line_in_report (c : cart) (asg : Dict.t (list order)) (dc : Dict.t Z)
    (total : Z) (r : order) :
  In r (all_orders asg) -> In (order_line c r) (report_of c (asg, dc, total)).
Proof.
  unfold all_orders, report_of. intros H. right. apply in_or_app. left.
  apply in_concat in H. destruct H as [orders [Ho Hr]].
  apply in_map_iff in Ho. destruct Ho as [p [<- Hp]].
  apply in_concat. exists (seller_block c dc p). split.
  - apply in_map. exact Hp.
  - unfold seller_block. right. apply in_or_app. left. apply in_map. exact Hr.
Qed.

(** X5. [print_result], on any cart and any result.  When the catalog has
    the offer of every order of the assignment, no [KeyError] is raised; and
    when moreover every amount of money to print is below 2^52 cents in
    absolute value, the report is printed, and the line of an order shows
    its quantity, the cost of its offer and the URL of its item, or
    "Unknown URL" when [item_id_to_url] has no entry for the item.  When
    some order names an offer the catalog does not have, the amounts being
    below 2^52 cents, the call raises [KeyError] with the first such offer
    identifier, in the order of the assignment. *)
Theorem print_result_missing_keys (c : cart) (asg : Dict.t (list order))
    (dc : Dict.t Z) (total : Z) :
  ((forall r, In r (all_orders asg) -> In (order_offer r) (Dict.keys (offer_catalog c))) ->
   no_key_error (print_result c (asg, dc, total)) /\
   ((forall x, In x (amounts_fed c (asg, dc, total)) -> Z.abs x < 2 ^ 52) ->
    exists report, print_result c (asg, dc, total) = Ok report /\
      forall r e, In r (all_orders asg) ->
        Dict.get (offer_catalog c) (order_offer r) = Some e ->
        In (print_order (order_qty r) (cost e)
              (match Dict.get (item_id_to_url c) (order_item r) with
               | Some u => u
               | None => "Unknown URL"
               end)) report)) /\
  (forall pre r post,
     all_orders asg = pre ++ r :: post ->
     (forall r', In r' pre -> In (order_offer r') (Dict.keys (offer_catalog c))) ->
     ~ In (order_offer r) (Dict.keys (offer_catalog c)) ->
     (forall x, In x (amounts_fed c (asg, dc, total)) -> Z.abs x < 2 ^ 52) ->
     print_result c (asg, dc, total) = KeyError (order_offer r)).
Proof.
  split.
  - intros Hall. split; [apply print_result_no_key_error; exact Hall|].
    intros Hrange. exists (report_of c (asg, dc, total)). split.
    + rewrite (print_result_first c asg dc total Hrange).
      replace (first_some (missing_offer c) (all_orders asg)) with (@None string);
        [reflexivity|].
      symmetry. apply first_some_None. intros r Hr. apply missing_offer_None. auto.
    + intros r e Hr He. pose proof (order_line_in_report c asg dc total r Hr) as H.
      unfold order_line, cost_of, Dict.get_default in H. rewrite He in H. exact H.
  - intros pre r post E Hpre Hr Hrange.
    rewrite (print_result_first c asg dc total Hrange), E, first_some_app.
    replace (first_some (missing_offer c) pre) with (@None string).
    + simpl. unfold missing_offer at 1.
      apply get_None in Hr. rewrite Hr. reflexivity.
    + symmetry. apply first_some_None. intros r' Hr'. apply missing_offer_None. auto.
Qed.

Lemma sum_block_delivery (c : cart) (dc : Dict.t Z) (p : string * list order) :
  sum (map delivery_of_line (seller_block c dc p)) = Dict.get_default dc (fst p) 0.
Proof.
  unfold seller_block. simpl. rewrite sum_cons, map_app, sum_app, map_map. simpl.
  rewrite sum_map_zero, sum_cons, sum_nil. lia.
Qed.

Lemma sum_block_items (c : cart) (dc : Dict.t Z) (p : string * list order) :
  sum (map items_total_of (seller_block c dc p)) = sum (map (priced c) (snd p)).
Proof.
  unfold seller_block. simpl. rewrite sum_cons, map_app, sum_app, map_map. simpl.
  rewrite sum_map_zero, sum_cons, sum_nil. lia.
Qed.

Lemma plan_has_entries (c : cart) (sol : solution) :
  well_formed c -> first_some (missing_offer c) (all_orders (plan_of c sol)) = None.
Proof.
  intros wf. apply first_some_None. intros r Hr. apply missing_offer_None.
  rewrite (wf_catalog_keys c wf). apply (plan_order_known c sol r Hr).
Qed.

Lemma print_result_plan (c : cart) (sol : solution) :
  well_formed c ->
  (forall x, In x (amounts_fed c (plan_of c sol, fees_of c sol, total_of c sol)) ->
     Z.abs x < 2 ^ 52) ->
  print_result c (plan_of c sol, fees_of c sol, total_of c sol) =
  Ok (report_of c (plan_of c sol, fees_of c sol, total_of c sol)).
Proof.
  intros wf Hr. rewrite (print_result_first _ _ _ _ Hr), (plan_has_entries c sol wf).
  reflexivity.
Qed.

Lemma print_result_plan_no_key_error (c : cart) (sol : solution) :
  well_formed c ->
  no_key_error (print_result c (plan_of c sol, fees_of c sol, total_of c sol)).
Proof.
  intros wf. apply print_result_no_key_error. intros r Hr.
  rewrite (wf_catalog_keys c wf). apply (plan_order_known c sol r Hr).
Qed.

(** X6. The report of a solve adds up below 2^52 cents.  For every
    document, after an Optimal answer, when every amount of money of the
    result is below 2^52 cents in absolute value, [print_result] prints the
    result of [solve_shopping_problem] without raising: between the heading
    and the last line come the blocks of the sellers, and the last line
    shows as delivery cost the sum of the delivery fees printed in the
    blocks and as total cost the total returned by the solve, which is the
    sum of the items totals printed in the blocks plus that delivery cost. *)
Theorem report_adds_up (data : list Json.item) (solver : LpProblem -> solution) :
  let c := load_cart data in
  exists prob, build_model c = Ok prob /\
    (status (solver prob) = LpStatusOptimal ->
     exists events res,
       solve_shopping_problem solver c = Ok (events, Some res) /\
       ((forall x, In x (amounts_fed c res) -> Z.abs x < 2 ^ 52) ->
        exists blocks delivery total_cost,
          snd res = total_cost /\
          print_result c res =
            Ok (print_optimal_cart :: blocks ++ [print_totals delivery total_cost]) /\
          delivery = sum (map delivery_of_line blocks) /\
          total_cost = sum (map items_total_of blocks) + delivery)).
Proof.
  intros c. pose proof (load_cart_well_formed data) as wf. fold c in wf.
  exists (model_of c). split; [apply build_model_Ok; exact wf|].
  intros Hopt. set (sol := solver (model_of c)) in *.
  exists [print_solving; solver_called (model_of c)],
         (plan_of c sol, fees_of c sol, total_of c sol).
  split; [apply solve_optimal; assumption|]. intros Hrange.
  exists (List.concat (map (seller_block c (fees_of c sol)) (Dict.items (plan_of c sol)))),
         (sum (map (fun p : string * list order => Dict.get_default (fees_of c sol) (fst p) 0)
                   (Dict.items (plan_of c sol)))),
         (total_of c sol).
  split; [reflexivity|].
  split; [apply print_result_plan; assumption|].
  assert (D : sum (map delivery_of_line
                (List.concat (map (seller_block c (fees_of c sol)) (Dict.items (plan_of c sol))))) =
              sum (map (fun p : string * list order => Dict.get_default (fees_of c sol) (fst p) 0)
                       (Dict.items (plan_of c sol)))).
  { rewrite sum_concat, map_map. apply sum_map_ext_in.
    intros p _. apply sum_block_delivery. }
  split; [symmetry; exact D|].
  unfold total_of. rewrite sum_map_add. f_equal.
  rewrite sum_concat, map_map. apply sum_map_ext_in.
  intros p _. symmetry. apply sum_block_items.
Qed.

(** On the sample cart, the solver answering the sample assignment: the
    largest amount is the total, 435 cents. *)
Lemma report_adds_up_witness :
  exists events res blocks delivery total_cost,
    solve_shopping_problem (answers sample_assignment) (load_cart sample_cart) =
      Ok (events, Some res) /\
    snd res = total_cost /\
    print_result (load_cart sample_cart) res =
      Ok (print_optimal_cart :: blocks ++ [print_totals delivery total_cost]) /\
    delivery = sum (map delivery_of_line blocks) /\
    total_cost = sum (map items_total_of blocks) + delivery.
Proof.
  destruct (report_adds_up sample_cart (answers sample_assignment)) as [prob [Hb H]].
  destruct (H eq_refl) as (events & res & Hs & Hr).
  assert (E : res = ([("X", [("item_0", "X_0_0", 4); ("item_1", "X_1_0", 2)]);
                      ("Y", [("item_0", "Y_0_2", 1)])],
                     [("X", 237); ("Y", 132)], 435)).
  { rewrite (solve_optimal (load_cart sample_cart) (answers sample_assignment)
               (load_cart_well_formed sample_cart) eq_refl) in Hs.
    injection Hs as _ <-. vm_compute. reflexivity. }
  destruct Hr as (blocks & delivery & total_cost & H1 & H2 & H3 & H4).
  { rewrite E. intros x Hx. vm_compute in Hx.
    repeat (destruct Hx as [<-|Hx]; [reflexivity|]). contradiction. }
  exists events, res, blocks, delivery, total_cost. auto.
Defined.

(** There the report ends with a delivery cost of 3.69 and a total of 4.35. *)
Example sample_report :
  main (answers sample_assignment) sample_cart =
  Ok [print_checking_availability;
      print_need_available "u0" 5 104; print_need_available "u1" 2 2;
      print_solving; solver_called (model_of (load_cart sample_cart));
      print_optimal_cart;
      print_seller "X"; print_order 4 10 "u0"; print_order 2 7 "u1";
      print_seller_totals 6 54 237;
      print_seller "Y"; print_order 1 12 "u0";
      print_seller_totals 1 12 132;
      print_totals 369 435].
Proof. vm_compute. reflexivity. Qed.

(** Above 2^52 cents the printed amounts need not add up: the unit costs
    90071992547409.93 and is printed as 90071992547409.94, the delivery is
    1.32, and the total is printed as 90071992547411.25. *)
Example large_report :
  main (replies LpStatusOptimal (unit_values 1)) dear_cart =
  Ok [print_checking_availability;
      print_need_available "u0" 1 10;
      print_solving; solver_called (model_of (load_cart dear_cart));
      print_optimal_cart;
      print_seller "X"; print_order 1 9007199254740994 "u0";
      print_seller_totals 1 9007199254740994 132;
      print_totals 132 9007199254741125].
Proof. vm_compute. reflexivity. Qed.

(** ** [main], from end to end *)

Lemma check_trace_enough (its : list Json.item) :
  snd (check_trace its) = negb (existsb insufficient its).
Proof.
  induction its as [|it its IH]; simpl; [reflexivity|].
  destruct (insufficient it); simpl; [reflexivity | exact IH].
Qed.

Lemma check_trace_no_call (its : list Json.item) :
  filter is_solver_call (fst (check_trace its)) = [].
Proof.
  induction its as [|it its IH]; simpl; [reflexivity|].
  destruct (insufficient it); simpl; [reflexivity | exact IH].
Qed.

Lemma report_no_call (c : cart) (r : result) : filter is_solver_call (report_of c r) = [].
Proof.
  destruct r as [[asg dc] total]. apply filter_none. intros e He.
  unfold report_of in He. destruct He as [<-|He]; [reflexivity|].
  apply in_app_or in He. destruct He as [He|[<-|[]]]; [|reflexivity].
  apply in_concat in He. destruct He as [b [Hb He]].
  apply in_map_iff in Hb. destruct Hb as [p [<- _]].
  unfold seller_block in He. destruct He as [<-|He]; [reflexivity|].
  apply in_app_or in He. destruct He as [He|[<-|[]]]; [|reflexivity].
  apply in_map_iff in He. destruct He as [r [<- _]]. reflexivity.
Qed.

Lemma main_steps (data : list Json.item) (solver : LpProblem -> solution) :
  let c := load_cart data in
  let sol := solver (model_of c) in
  main solver data =
  if snd (check_trace data)
  then if is_optimal (status sol)
       then report <- print_result c (plan_of c sol, fees_of c sol, total_of c sol) ;;
            Ok (print_checking_availability :: fst (check_trace data) ++
                [print_solving; solver_called (model_of c)] ++ report)
       else Ok (print_checking_availability :: fst (check_trace data) ++
                [print_solving; solver_called (model_of c); print_no_optimal_solution])
  else Ok (print_checking_availability :: fst (check_trace data)).
Proof.
  intros c sol. subst c sol. pose proof (load_cart_well_formed data) as wf.
  unfold main. rewrite main_check. destruct (check_trace data) as [printed enough].
  destruct enough; cbn [bind negb fst snd]; [|reflexivity].
  rewrite (solve_shopping_problem_Ok (load_cart data) solver wf).
  destruct (is_optimal (status (solver (model_of (load_cart data))))); reflexivity.
Qed.

Lemma main_closed_form (data : list Json.item) (solver : LpProblem -> solution) :
  let c := load_cart data in
  let sol := solver (model_of c) in
  (is_optimal (status sol) = true ->
   forall x, In x (amounts_fed c (plan_of c sol, fees_of c sol, total_of c sol)) ->
     Z.abs x < 2 ^ 52) ->
  main solver data =
  Ok (print_checking_availability :: fst (check_trace data) ++
      if snd (check_trace data)
      then if is_optimal (status sol)
           then [print_solving; solver_called (model_of c)] ++
                report_of c (plan_of c sol, fees_of c sol, total_of c sol)
           else [print_solving; solver_called (model_of c); print_no_optimal_solution]
      else []).
Proof.
  intros c sol Hr. pose proof (load_cart_well_formed data) as wf. fold c in wf.
  pose proof (main_steps data solver) as M. cbv zeta in M. fold c sol in M. rewrite M.
  destruct (snd (check_trace data)); [|rewrite app_nil_r; reflexivity].
  destruct (is_optimal (status sol)); [|reflexivity].
  rewrite (print_result_plan c sol wf (Hr eq_refl)). reflexivity.
Qed.

Lemma main_no_key_error (data : list Json.item) (solver : LpProblem -> solution) :
  no_key_error (main solver data).
Proof.
  pose proof (load_cart_well_formed data) as wf.
  pose proof (main_steps data solver) as M. cbv zeta in M. rewrite M.
  destruct (snd (check_trace data)); [|exact I].
  destruct (is_optimal (status (solver (model_of (load_cart data))))); [|exact I].
  apply no_key_error_bind; [apply print_result_plan_no_key_error; exact wf|].
  intros report _. exact I.
Qed.

Lemma is_optimal_true (st : LpStatus) : is_optimal st = true -> st = LpStatusOptimal.
Proof. destruct st; simpl; intros H; try discriminate; reflexivity. Qed.

(** X7. [main] on any document and with any solver raises no [KeyError]: every
    subscript it and the functions it calls evaluate finds its key.  When
    every amount of money of a result to print is below 2^52 cents in
    absolute value, [main] returns; its first event is the "Checking
    availability" heading, and the solver is called exactly once when every
    item has enough stock and not at all otherwise. *)
Theorem main_calls_solver_once (data : list Json.item) (solver : LpProblem -> solution) :
  no_key_error (main solver data) /\
  ((forall events res,
      solve_shopping_problem solver (load_cart data) = Ok (events, Some res) ->
      forall x, In x (amounts_fed (load_cart data) res) -> Z.abs x < 2 ^ 52) ->
   exists events,
     main solver data = Ok (print_checking_availability :: events) /\
     List.length (filter is_solver_call events) =
       (if existsb insufficient data then 0 else 1)%nat).
Proof.
  split; [apply main_no_key_error|]. intros Hrange.
  pose proof (load_cart_well_formed data) as wf.
  pose proof (main_closed_form data solver) as M. cbv zeta in M.
  eexists. split.
  - apply M. intros Hopt. apply (Hrange [print_solving;
                                       solver_called (model_of (load_cart data))]).
    apply solve_optimal; [exact wf | apply is_optimal_true; exact Hopt].
  - rewrite filter_app, check_trace_no_call, check_trace_enough.
    destruct (existsb insufficient data); cbn [negb app]; [reflexivity|].
    destruct (is_optimal (status (solver (model_of (load_cart data))))).
    + rewrite filter_app, report_no_call. reflexivity.
    + reflexivity.
Qed.

(** X8. The successful run.  For every document in which every item has
    enough stock, when the solver answers Optimal and every amount of money
    of the result is below 2^52 cents in absolute value, [main] prints the
    heading, the availability line of every item in the order of the
    document, "Solving...", calls the solver on the model that was built,
    and prints the report of the result that [solve_shopping_problem]
    returns. *)
Theorem main_success_path (data : list Json.item) (solver : LpProblem -> solution) :
  let c := load_cart data in
  existsb insufficient data = false ->
  exists prob, build_model c = Ok prob /\
    (status (solver prob) = LpStatusOptimal ->
     exists res,
       solve_shopping_problem solver c =
         Ok ([print_solving; solver_called prob], Some res) /\
       ((forall x, In x (amounts_fed c res) -> Z.abs x < 2 ^ 52) ->
        exists report,
          print_result c res = Ok report /\
          main solver data =
            Ok (print_checking_availability :: map availability_line data ++
                [print_solving; solver_called prob] ++ report))).
Proof.
  intros c Hstock. pose proof (load_cart_well_formed data) as wf. fold c in wf.
  exists (model_of c). split; [apply build_model_Ok; exact wf|].
  intros Hopt. set (sol := solver (model_of c)) in *.
  exists (plan_of c sol, fees_of c sol, total_of c sol).
  split; [apply solve_optimal; assumption|]. intros Hrange.
  exists (report_of c (plan_of c sol, fees_of c sol, total_of c sol)).
  split; [apply print_result_plan; assumption|].
  pose proof (main_closed_form data solver) as M. cbv zeta in M. fold c sol in M.
  rewrite (M (fun _ => Hrange)), (check_trace_sufficient data Hstock), Hopt. reflexivity.
Qed.

(** On the sample cart every item has enough stock. *)
Lemma main_success_path_witness :
  existsb insufficient sample_cart = false /\
  exists prob, build_model (load_cart sample_cart) = Ok prob /\
    (status (answers sample_assignment prob) = LpStatusOptimal ->
     exists res,
       solve_shopping_problem (answers sample_assignment) (load_cart sample_cart) =
         Ok ([print_solving; solver_called prob], Some res) /\
       ((forall x, In x (amounts_fed (load_cart sample_cart) res) -> Z.abs x < 2 ^ 52) ->
        exists report,
          print_result (load_cart sample_cart) res = Ok report /\
          main (answers sample_assignment) sample_cart =
            Ok (print_checking_availability :: map availability_line sample_cart ++
                [print_solving; solver_called prob] ++ report))).
Proof.
  split; [reflexivity|].
  exact (main_success_path sample_cart (answers sample_assignment) eq_refl).
Defined.

(** ** Seller activation and quantity aggregation *)

Lemma sum_all_zero {A} (f : A -> Z) (l : list A) :
  (forall x, In x l -> f x = 0) -> sum (map f l) = 0.
Proof.
  intros H. rewrite (sum_map_ext_in f (fun _ => 0) l H). apply sum_map_zero.
Qed.

Lemma sum_map_le {A} (f g : A -> Z) (l : list A) :
  (forall x, In x l -> f x <= g x) -> sum (map f l) <= sum (map g l).
Proof.
  induction l as [|x l IH]; simpl; intros H; [reflexivity|].
  rewrite !sum_cons. specialize (IH (fun z Hz => H z (or_intror Hz))).
  specialize (H x (or_introl eq_refl)). lia.
Qed.

(** X9. Lines 78-81.  For every document and every seller of its cart the
    model holds the constraint that qty_seller is the sum of buy over the
    offers of the seller and, for each of these offers, the constraint
    buy <= available * use_seller.  So in every feasible integer assignment
    a seller from which anything is bought has use_seller = 1, and a seller
    with use_seller = 0 sells nothing at any of its offers and has
    quantity 0 and no tier; nothing forces use_seller to 0 when nothing is
    bought. *)
Theorem seller_activation (data : list Json.item) :
  let c := load_cart data in
  exists prob, build_model c = Ok prob /\
    forall s, In s (sellers_of c) ->
      In (eq_c (of_var (qty_variable s)) (buys (seller_offers c s))) (constraints prob) /\
      (forall o e, In o (seller_offers c s) -> Dict.get (offer_catalog c) o = Some e ->
         In (le_c (of_var (buy_variable o))
                  (scale (available e) (of_var (binary_variable (use_seller s)))))
            (constraints prob)) /\
      forall a, feasible prob a = true ->
        a (qty_seller s) = sum (map (fun o => a (buy o)) (seller_offers c s)) /\
        (forall o, In o (seller_offers c s) -> 0 < a (buy o) -> a (use_seller s) = 1) /\
        (0 < a (qty_seller s) -> a (use_seller s) = 1) /\
        (a (use_seller s) = 0 ->
           (forall o, In o (seller_offers c s) -> a (buy o) = 0) /\
           a (qty_seller s) = 0 /\
           a (small_del s) = 0 /\ a (med_del s) = 0 /\ a (big_del s) = 0).
Proof.
  intros c. pose proof (load_cart_well_formed data) as wf. fold c in wf.
  exists (model_of c). split; [apply build_model_Ok; exact wf|].
  intros s Hs. split; [|split].
  - apply (In_seller_part c s _ Hs). left. reflexivity.
  - intros o e Ho He. apply (In_seller_part c s _ Hs). right.
    rewrite <- (available_of_get c o e He).
    apply (in_map (linkage_of c s)). exact Ho.
  - intros a feas.
    pose proof (feasible_quantity c a feas s Hs) as Hq.
    pose proof (feasible_binaries c a feas s Hs) as (B0 & B1 & B2 & B3 & B4).
    pose proof (feasible_tiers c a feas s Hs) as (T1 & _).
    assert (Hoff : forall o, In o (seller_offers c s) ->
              0 <= a (buy o) <= available_of c o * a (use_seller s)).
    { intros o Ho. split.
      - apply (feasible_buy_nonneg c a feas). apply filter_In in Ho. tauto.
      - apply (feasible_linkage c a feas s o Hs Ho). }
    assert (Hzero : a (use_seller s) = 0 ->
              forall o, In o (seller_offers c s) -> a (buy o) = 0).
    { intros U o Ho. specialize (Hoff o Ho). rewrite U in Hoff. lia. }
    assert (Hone : forall o, In o (seller_offers c s) -> 0 < a (buy o) ->
              a (use_seller s) = 1).
    { intros o Ho Hpos.
      assert (U : a (use_seller s) = 0 \/ a (use_seller s) = 1) by lia.
      destruct U as [U|U]; [|exact U]. specialize (Hzero U o Ho). lia. }
    split; [exact Hq|]. split; [exact Hone|]. split.
    + intros Hpos.
      assert (U : a (use_seller s) = 0 \/ a (use_seller s) = 1) by lia.
      destruct U as [U|U]; [|exact U].
      rewrite Hq, (sum_all_zero _ _ (Hzero U)) in Hpos. lia.
    + intros U. split; [exact (Hzero U)|].
      split; [rewrite Hq; apply sum_all_zero; exact (Hzero U)|]. lia.
Qed.

(** On the sample cart, X sells six units and is used. *)
Lemma seller_activation_witness :
  sample_assignment (qty_seller "X") = 6 /\ sample_assignment (use_seller "X") = 1.
Proof.
  destruct (seller_activation sample_cart) as [prob [Hb H]].
  apply (build_model_unique _ _ (load_cart_well_formed sample_cart)) in Hb. subst prob.
  assert (HX : In "X" (sellers_of (load_cart sample_cart))) by (vm_compute; auto).
  destruct (H "X" HX) as (_ & _ & F).
  destruct (F sample_assignment sample_feasible) as (Hq & _ & Hu & _).
  split; [reflexivity|]. apply Hu. reflexivity.
Defined.

(** ** The availability check is necessary *)

Lemma In_enumerate_from {A} (l : list A) (x : A) :
  In x l -> forall n, exists i, In (i, x) (enumerate_from n l).
Proof.
  induction l as [|a l IH]; simpl; intros H n; [contradiction|].
  destruct H as [->|H].
  - exists n. left. reflexivity.
  - destruct (IH H (S n)) as [i Hi]. exists i. right. exact Hi.
Qed.

Lemma total_available_sum (c : cart) (id : string) :
  well_formed c ->
  total_available c id = Ok (sum (map (available_of c) (item_offers c id))).
Proof.
  intros wf. unfold total_available. rewrite (offers_of_item_Ok c wf). simpl.
  rewrite (mapM_Ok _ (available_of c)); [reflexivity|].
  intros o Ho. apply filter_In in Ho. destruct Ho as [Ho _].
  destruct (entry_of_offer c wf o Ho) as [e He].
  unfold Dict.subscript, available_of. rewrite He. reflexivity.
Qed.

Lemma stock_of_item_sum (data : list Json.item) (i : nat) (it : Json.item) :
  In (i, it) (enumerate data) ->
  sum (map (available_of (load_cart data)) (item_offers (load_cart data) (item_id_of i))) =
  stock_of_item it.
Proof.
  intros H. pose proof (total_available_Ok data i it H) as T.
  rewrite (total_available_sum _ _ (load_cart_well_formed data)) in T.
  injection T as T. exact T.
Qed.

(** X10. The availability check of [main] turns no solvable cart away: for
    every document in which some item has less stock than its required
    amount, the model built from the cart has no feasible integer
    assignment. *)
Theorem short_stock_infeasible (data : list Json.item) :
  let c := load_cart data in
  existsb insufficient data = true ->
  exists prob, build_model c = Ok prob /\ forall a, feasible prob a = false.
Proof.
  intros c Hshort. pose proof (load_cart_well_formed data) as wf. fold c in wf.
  exists (model_of c). split; [apply build_model_Ok; exact wf|].
  intros a. destruct (feasible (model_of c) a) eqn:feas; [|reflexivity]. exfalso.
  apply existsb_exists in Hshort. destruct Hshort as [it [Hit Hins]].
  destruct (In_enumerate_from data it Hit 0%nat) as [i Hi].
  fold (enumerate data) in Hi.
  destruct (item_lookups data i it Hi) as [Hn _]. fold c in Hn.
  pose proof (feasible_demand c a feas (item_id_of i) (get_Some_key _ _ _ Hn)) as D.
  rewrite (needed_get c _ _ Hn) in D.
  pose proof (stock_of_item_sum data i it Hi) as S. fold c in S.
  assert (L : sum (map (fun o => a (buy o)) (item_offers c (item_id_of i))) <=
              sum (map (available_of c) (item_offers c (item_id_of i)))).
  { apply sum_map_le. intros o Ho. apply filter_In in Ho.
    apply (feasible_stock c a feas o). tauto. }
  unfold insufficient in Hins. apply Z.ltb_lt in Hins. lia.
Qed.

(** On the short cart no assignment is feasible. *)
Lemma short_stock_infeasible_witness :
  existsb insufficient short_cart = true /\
  exists prob, build_model (load_cart short_cart) = Ok prob /\
               forall a, feasible prob a = false.
Proof.
  split; [reflexivity | exact (short_stock_infeasible short_cart eq_refl)].
Defined.

(** ** How the plan is filed *)

Lemma length_filter_sum {A} (p : A -> bool) (l : list A) :
  Z.of_nat (List.length (filter p l)) = sum (map (fun x => if p x then 1 else 0) l).
Proof.
  induction l as [|x l IH]; [reflexivity|].
  simpl. rewrite sum_cons. destruct (p x); simpl List.length; lia.
Qed.

Lemma length_sum {A} (l : list A) : Z.of_nat (List.length l) = sum (map (fun _ => 1) l).
Proof.
  induction l as [|x l IH]; [reflexivity|].
  simpl. rewrite sum_cons. lia.
Qed.

Lemma plan_seller_orders (c : cart) (sol : solution) (s : string) (r : order) :
  In r (Dict.get_default (plan_of c sol) s []) -> In (s, r) (purchases c sol).
Proof.
  unfold plan_of. rewrite group_get_default. unfold Dict.get_default at 1. simpl.
  intros H. apply in_map_iff in H. destruct H as [[s' r'] [E H]]. simpl in E. subst r'.
  apply filter_In in H. destruct H as [H E]. simpl in E.
  apply String.eqb_eq in E. subst s'. exact H.
Qed.

(** X11. Lines 104-110, whatever values the solver gives.  In every returned
    assignment an order is filed under the seller of its offer and carries
    the item of its offer; no offer has two orders; and every offer of the
    catalog whose value is positive has its order under its seller. *)
Theorem plan_filing (data : list Json.item) (solver : LpProblem -> solution) :
  let c := load_cart data in
  exists prob, build_model c = Ok prob /\
    (status (solver prob) = LpStatusOptimal ->
     exists events assignment delivery_costs total_cost,
       solve_shopping_problem solver c =
         Ok (events, Some (assignment, delivery_costs, total_cost)) /\
       (forall s r, In r (Dict.get_default assignment s []) ->
          exists e, Dict.get (offer_catalog c) (order_offer r) = Some e /\
                    seller e = s /\ item_id e = order_item r) /\
       (forall o, (List.length (filter (fun r => String.eqb (order_offer r) o)
                                      (all_orders assignment)) <= 1)%nat) /\
       (forall o e v, Dict.get (offer_catalog c) o = Some e ->
          varValue (solver prob) (buy o) = Some v -> (0 < v)%Q ->
          exists r, In r (Dict.get_default assignment (seller e) []) /\
                    order_offer r = o /\ order_qty r = py_int v)).
Proof.
  intros c. pose proof (load_cart_well_formed data) as wf. fold c in wf.
  exists (model_of c). split; [apply build_model_Ok; exact wf|].
  intros Hopt. set (sol := solver (model_of c)) in *.
  exists [print_solving; solver_called (model_of c)],
         (plan_of c sol), (fees_of c sol), (total_of c sol).
  split; [apply solve_optimal; assumption|]. split; [|split].
  - intros s r Hr. apply plan_seller_orders, purchases_inv in Hr.
    destruct Hr as (Ho & Hs & Hi & _).
    destruct (entry_of_offer c wf _ Ho) as [e He]. exists e.
    split; [exact He|]. split.
    + rewrite Hs. symmetry. apply (seller_of_entry c wf _ e He).
    + rewrite Hi. unfold item_of. rewrite He. reflexivity.
  - intros o. apply Nat2Z.inj_le. rewrite length_filter_sum.
    rewrite (plan_sum c sol (fun r => if String.eqb (order_offer r) o then 1 else 0)).
    etransitivity.
    { apply (sum_map_le _ (fun o' => if String.eqb o' o then 1 else 0)).
      intros o' _. unfold order_offer. simpl.
      destruct (recorded sol o'); destruct (String.eqb o' o); lia. }
    rewrite (sum_single (fun _ => 1) (offer_ids c) o (wf_offer_ids c wf)).
    destruct (in_dec string_dec o (offer_ids c)); simpl; lia.
  - intros o e v He Hv Hpos.
    assert (Ho : In o (offer_ids c)).
    { rewrite <- (wf_catalog_keys c wf). eapply get_Some_key; eassumption. }
    exists (item_of c o, o, py_int v). split; [|split; reflexivity].
    rewrite <- (seller_of_entry c wf o e He). apply recorded_in_plan; [exact Ho|].
    unfold recorded. fold sol in Hv. rewrite Hv, truthy_and_positive_pos.
    unfold Qlt in Hpos. simpl in Hpos.
    destruct (Z.ltb_spec 0 (Qnum v)); [reflexivity | lia].
Qed.

(** On the sample cart the four units of X's first offer are filed under X. *)
Lemma plan_filing_witness :
  exists events assignment delivery_costs total_cost r,
    solve_shopping_problem (answers sample_assignment) (load_cart sample_cart) =
      Ok (events, Some (assignment, delivery_costs, total_cost)) /\
    In r (Dict.get_default assignment "X" []) /\
    order_offer r = "X_0_0" /\ order_qty r = 4.
Proof.
  destruct (plan_filing sample_cart (answers sample_assignment)) as [prob [Hb H]].
  destruct (H eq_refl) as (ev & asg & dc & tot & Hs & _ & _ & Hrec).
  destruct (Hrec "X_0_0" {| item_id := "item_0"; cost := 10; available := 4; seller := "X" |}
              4%Q eq_refl eq_refl eq_refl) as (r & Hr & Ho & Hq).
  exists ev, asg, dc, tot, r. auto.
Defined.

(** ** The delivery costs *)

Lemma fold_set_keys {V} (f : string -> V) (l : list string) :
  forall d, NoDup (Dict.keys d ++ l) ->
    Dict.keys (fold_left (fun d i => Dict.set d i (f i)) l d) = Dict.keys d ++ l.
Proof.
  induction l as [|a l IH]; intros d H; simpl.
  - rewrite app_nil_r. reflexivity.
  - assert (Ha : ~ In a (Dict.keys d)).
    { intros Hin. apply NoDup_remove_2 in H. apply H. apply in_or_app. auto. }
    assert (K : Dict.keys (Dict.set d a (f a)) = Dict.keys d ++ [a]).
    { rewrite keys_set. destruct (in_dec string_dec a (Dict.keys d)); tauto. }
    rewrite IH; rewrite K, <- app_assoc; [reflexivity | exact H].
Qed.

(** X12. Lines 112-126, whatever values the solver gives.  The delivery costs
    returned have one entry for every seller of the cart, used or not, in
    the order of the sellers, and no other entry.  The entry is 132 when the
    small indicator rounds to 1, else 237 when the medium one does, else
    2000 when the large one does, else 0. *)
Theorem delivery_costs_cover_sellers (data : list Json.item) (solver : LpProblem -> solution) :
  let c := load_cart data in
  exists prob, build_model c = Ok prob /\
    (status (solver prob) = LpStatusOptimal ->
     exists events assignment delivery_costs total_cost,
       solve_shopping_problem solver c =
         Ok (events, Some (assignment, delivery_costs, total_cost)) /\
       Dict.keys delivery_costs = sellers_of c /\
       forall s, In s (sellers_of c) ->
         let rounded v := py_round (or_zero (varValue (solver prob) v)) in
         Dict.get delivery_costs s =
           Some (if rounded (small_del s) =? 1 then 132
                 else if rounded (med_del s) =? 1 then 237
                 else if rounded (big_del s) =? 1 then 2000
                 else 0)).
Proof.
  intros c. pose proof (load_cart_well_formed data) as wf. fold c in wf.
  exists (model_of c). split; [apply build_model_Ok; exact wf|].
  intros Hopt. set (sol := solver (model_of c)) in *.
  exists [print_solving; solver_called (model_of c)],
         (plan_of c sol), (fees_of c sol), (total_of c sol).
  split; [apply solve_optimal; assumption|]. split.
  - unfold fees_of. rewrite fold_set_keys; [reflexivity|].
    simpl. apply load_cart_sellers_NoDup.
  - intros s Hs. cbv zeta. rewrite (fees_of_get c sol s Hs). reflexivity.
Qed.

(** On the idle cart seller Y, from which nothing is bought, has an entry of
    132. *)
Lemma delivery_costs_cover_sellers_witness :
  exists events assignment delivery_costs total_cost,
    solve_shopping_problem (answers idle_assignment) (load_cart idle_cart) =
      Ok (events, Some (assignment, delivery_costs, total_cost)) /\
    Dict.keys delivery_costs = ["X"; "Y"] /\
    Dict.get delivery_costs "Y" = Some 132.
Proof.
  destruct (delivery_costs_cover_sellers idle_cart (answers idle_assignment))
    as [prob [Hb H]].
  destruct (H eq_refl) as (ev & asg & dc & tot & Hs & Hk & Hf).
  exists ev, asg, dc, tot. split; [exact Hs|]. split; [exact Hk|].
  apply (Hf "Y"). vm_compute. auto.
Defined.

(** ** A cart whose catalog misses an offer *)



(** ** The items of the document *)

Lemma enumerate_from_nth {A} (l : list A) (x : A) :
  forall i n, nth_error l i = Some x -> In ((n + i)%nat, x) (enumerate_from n l).
Proof.
  induction l as [|a l IH]; intros [|i] n H; simpl in H; try discriminate.
  - injection H as ->. rewrite Nat.add_0_r. left. reflexivity.
  - right. replace (n + S i)%nat with (S n + i)%nat by lia. apply IH. exact H.
Qed.

Lemma enumerate_from_fst {A} (l : list A) :
  forall n, map fst (enumerate_from n l) = seq n (List.length l).
Proof.
  induction l as [|a l IH]; intros n; simpl; [reflexivity|].
  rewrite IH. reflexivity.
Qed.

(** X14. Lines 23-27 and 42.  Every item of the document, with or without
    offers, is in [items_needed] and [item_id_to_url] under "item_" followed
    by its position, with its amount and its URL; the two dictionaries have
    these keys in the order of the document and no other; and [offer_ids]
    lists the offers kept in the order of the document, items first. *)
Theorem load_cart_items (data : list Json.item) :
  let c := load_cart data in
  Dict.keys (items_needed c) = map item_id_of (seq 0 (List.length data)) /\
  Dict.keys (item_id_to_url c) = map item_id_of (seq 0 (List.length data)) /\
  (forall i it, nth_error data i = Some it ->
     Dict.get (items_needed c) (item_id_of i) = Some (Json.amount it) /\
     Dict.get (item_id_to_url c) (item_id_of i) = Some (Json.url it)) /\
  (forall id, Dict.get (items_needed c) id <> None ->
     exists i, (i < List.length data)%nat /\ id = item_id_of i) /\
  offer_ids c = map id_of (kept_offers data).
Proof.
  intros c. pose proof (load_cart_well_formed data) as wf. fold c in wf.
  pose proof (load_cart_represents data) as (Hn & Hu & Hc & Hi & _). fold c in Hn, Hu, Hc, Hi.
  assert (K : Dict.keys (items_needed c) = map item_id_of (seq 0 (List.length data))).
  { unfold c. rewrite items_needed_keys.
    rewrite <- (enumerate_from_fst data 0), map_map. reflexivity. }
  split; [exact K|]. split; [rewrite (wf_urls c wf); exact K|].
  split; [|split; [|exact Hi]].
  - intros i it H. apply (item_lookups data i it).
    apply (enumerate_from_nth data it i 0%nat H).
  - intros id H. destruct (Dict.get (items_needed c) id) as [n|] eqn:E; [|congruence].
    apply get_Some_key in E. rewrite K in E. apply in_map_iff in E.
    destruct E as [i [<- Hin]]. apply in_seq in Hin. exists i. split; [lia | reflexivity].
Qed.

(** ** The size of the model *)

Lemma length_concat_sum {A} (ls : list (list A)) :
  Z.of_nat (List.length (List.concat ls)) =
  sum (map (fun l => Z.of_nat (List.length l)) ls).
Proof.
  induction ls as [|l ls IH]; [reflexivity|].
  simpl. rewrite sum_cons, length_app. lia.
Qed.

Lemma LpVariable_dicts_length (name : string -> LpVar) (l : list string) low up k :
  NoDup l ->
  List.length (map snd (Dict.items (LpVariable_dicts name l low up k))) = List.length l.
Proof.
  intros H. pose proof (fold_set_keys
    (fun i => {| var := name i; lowBound := low; upBound := up; cat := k |}) l Dict.empty H) as E.
  simpl in E. rewrite <- E at 2. unfold Dict.keys, Dict.items, LpVariable_dicts.
  rewrite !length_map. reflexivity.
Qed.

(** X15. Lines 55-95.  The model of a loaded cart has one integer variable
    per offer kept and five variables per seller, and one constraint per
    item of the document, two per offer kept (its stock cap and its link to
    its seller) and six per seller (its quantity and five for the delivery
    tiers). *)
Theorem model_size (data : list Json.item) :
  let c := load_cart data in
  let offers := List.length (kept_offers data) in
  let sellers := List.length (sellers_of c) in
  exists prob, build_model c = Ok prob /\
    List.length (variables prob) = (offers + 5 * sellers)%nat /\
    List.length (constraints prob) = (List.length data + 2 * offers + 6 * sellers)%nat.
Proof.
  intros c offers sellers.
  pose proof (load_cart_well_formed data) as wf. fold c in wf.
  pose proof (load_cart_represents data) as (_ & _ & _ & Hi & _). fold c in Hi.
  pose proof (load_cart_sellers_NoDup data) as Hs. fold c in Hs.
  assert (Ho : List.length (offer_ids c) = offers).
  { rewrite Hi. apply length_map. }
  exists (model_of c). split; [apply build_model_Ok; exact wf|]. split.
  - simpl. unfold all_variables, declare_vars. cbn [x y q z1 z2 z3].
    rewrite !length_app.
    rewrite (LpVariable_dicts_length buy _ _ _ _ (wf_offer_ids c wf)).
    rewrite !(LpVariable_dicts_length _ _ _ _ _ Hs). fold sellers. lia.
  - simpl. rewrite !length_app, !length_map.
    assert (Hd : List.length (Dict.keys (items_needed c)) = List.length data).
    { unfold c. rewrite items_needed_keys, length_map.
      rewrite <- (enumerate_from_snd data 0) at 2. rewrite length_map. reflexivity. }
    assert (Ht : List.length (List.concat (map tiers_of (sellers_of c))) = (5 * sellers)%nat).
    { unfold sellers. generalize (sellers_of c) as l.
      induction l as [|s l IH]; [reflexivity|].
      simpl. rewrite IH. lia. }
    assert (Hl : Z.of_nat (List.length (List.concat
                   (map (fun s => quantity_of c s :: map (linkage_of c s) (seller_offers c s))
                        (sellers_of c)))) = Z.of_nat sellers + Z.of_nat offers).
    { rewrite length_concat_sum, map_map.
      rewrite (sum_map_ext_in _
                 (fun s => 1 + sum (map (fun _ => 1)
                    (filter (fun o => String.eqb (seller_of c o) s) (offer_ids c))))).
      - rewrite (sum_map_add (fun _ => 1)).
        rewrite <- (sum_by_class (fun _ => 1) (seller_of c) (sellers_of c) (offer_ids c) Hs).
        + rewrite <- !length_sum. fold sellers. rewrite Ho. reflexivity.
        + intros o Hin. apply (seller_of_known c wf o Hin).
      - intros s _. simpl List.length. rewrite length_map, Nat2Z.inj_succ, length_sum.
        unfold seller_offers.
        rewrite (filter_ext_in _ _ _ (fun o Hin => sold_by_seller_of c wf s o Hin)). lia. }
    rewrite Hd, Ho, Ht. apply Nat2Z.inj. rewrite !Nat2Z.inj_add, Hl. lia.
Qed.

(** ** When the model has a feasible assignment *)

Lemma feasible_intro (prob : LpProblem) (a : LpVar -> Z) :
  (forall k, In k (constraints prob) -> holds a k = true) ->
  (forall v, In v (variables prob) -> in_domain a v = true) ->
  feasible prob a = true.
Proof.
  intros Hk Hv. unfold feasible. apply andb_true_intro.
  split; apply forallb_forall; assumption.
Qed.

Lemma In_set_inv {V} (d : Dict.t V) (k i : string) (w v : V) :
  In (i, v) (Dict.set d k w) -> In (i, v) d \/ (i = k /\ v = w).
Proof.
  induction d as [|[k' v'] d IH]; simpl.
  - intros [H|[]]. injection H as -> ->. auto.
  - destruct (String.eqb_spec k k') as [->|Hne]; simpl.
    + intros [H|H]; [injection H as -> ->|]; auto.
    + intros [H|H]; [auto|]. destruct (IH H) as [H'|H']; auto.
Qed.

Lemma In_fold_set_inv {V} (f : string -> V) (l : list string) (i : string) (v : V) :
  forall d, In (i, v) (fold_left (fun d i => Dict.set d i (f i)) l d) ->
    In (i, v) d \/ (In i l /\ v = f i).
Proof.
  induction l as [|a l IH]; simpl; intros d H; [auto|].
  destruct (IH _ H) as [H'|[H' E]]; [|auto].
  destruct (In_set_inv _ _ _ _ _ H') as [H''|[-> ->]]; auto.
Qed.

Lemma LpVariable_dicts_In (name : string -> LpVar) (l : list string) low up k v :
  In v (map snd (Dict.items (LpVariable_dicts name l low up k))) ->
  exists i, In i l /\ v = {| var := name i; lowBound := low; upBound := up; cat := k |}.
Proof.
  intros H. apply in_map_iff in H. destruct H as [[i v'] [E H]]. simpl in E. subst v'.
  apply (In_fold_set_inv
           (fun i => {| var := name i; lowBound := low; upBound := up; cat := k |})) in H.
  destruct H as [[]|[Hi ->]]. exists i. auto.
Qed.

Lemma get_default_keys {V} (d : Dict.t V) (dflt : V) :
  NoDup (Dict.keys d) -> map (fun k => Dict.get_default d k dflt) (Dict.keys d) = map snd d.
Proof.
  intros H. unfold Dict.keys. rewrite map_map. apply map_ext_in.
  intros [k v] Hin. simpl. unfold Dict.get_default.
  rewrite (In_get d k v H Hin). reflexivity.
Qed.

Section Greedy.
Variable c : cart.
Hypothesis wf : well_formed c.
Hypothesis enough : forall id, In id (Dict.keys (items_needed c)) ->
  0 <= needed c id <= sum (map (available_of c) (item_offers c id)).
Hypothesis fits : total_demand c <= BIG_M + 4.

Lemma available_of_nonneg (o : string) : 0 <= available_of c o.
Proof.
  unfold available_of. destruct (Dict.get (offer_catalog c) o) as [e|] eqn:E; [|lia].
  destruct (wf_entry c wf o e E) as [H _]. lia.
Qed.

Lemma needed_nonneg (id : string) : 0 <= needed c id.
Proof.
  destruct (in_dec string_dec id (Dict.keys (items_needed c))) as [H|H].
  - apply (enough id H).
  - unfold needed, Dict.get_default. rewrite (proj2 (get_None _ id) H). lia.
Qed.

Lemma greedy_fill_keys (l : list string) : forall n, Dict.keys (greedy_fill c n l) = l.
Proof.
  induction l as [|o l IH]; intros n; simpl; [reflexivity|].
  f_equal. apply IH.
Qed.

Lemma greedy_fill_bounds (l : list string) :
  forall n p, 0 <= n -> In p (greedy_fill c n l) -> 0 <= snd p <= available_of c (fst p).
Proof.
  induction l as [|o l IH]; simpl; intros n p Hn H; [contradiction|].
  pose proof (available_of_nonneg o) as Ho.
  destruct H as [<-|H]; [simpl; lia|].
  apply (IH (n - Z.min n (available_of c o))); [lia | exact H].
Qed.

Lemma greedy_fill_sum (l : list string) :
  forall n, 0 <= n -> n <= sum (map (available_of c) l) ->
    sum (map snd (greedy_fill c n l)) = n.
Proof.
  induction l as [|o l IH]; intros n Hn Hle.
  - simpl in *. rewrite sum_nil in *. lia.
  - simpl in Hle. rewrite sum_cons in Hle.
    pose proof (available_of_nonneg o) as Ho.
    assert (Hl : 0 <= sum (map (available_of c) l)).
    { apply sum_nonneg. intros z Hz. apply in_map_iff in Hz.
      destruct Hz as [o' [<- _]]. apply available_of_nonneg. }
    cbn [greedy_fill map snd]. rewrite sum_cons, IH; lia.
Qed.

Lemma greedy_buy_bounds (o : string) : 0 <= greedy_buy c o <= available_of c o.
Proof.
  unfold greedy_buy, Dict.get_default.
  destruct (Dict.get _ o) as [n|] eqn:E.
  - apply get_Some_In in E.
    apply (greedy_fill_bounds _ _ (o, n) (needed_nonneg _) E).
  - pose proof (available_of_nonneg o). lia.
Qed.

Lemma greedy_demand (id : string) :
  In id (Dict.keys (items_needed c)) ->
  sum (map (greedy_buy c) (item_offers c id)) = needed c id.
Proof.
  intros Hid.
  assert (Hnd : NoDup (item_offers c id))
    by (apply NoDup_filter, (wf_offer_ids c wf)).
  rewrite (map_ext_in (greedy_buy c)
             (fun o => Dict.get_default
                         (greedy_fill c (needed c id) (item_offers c id)) o 0)).
  - pose proof (get_default_keys (greedy_fill c (needed c id) (item_offers c id)) 0) as G.
    rewrite greedy_fill_keys in G. rewrite (G Hnd).
    apply greedy_fill_sum; apply (enough id Hid).
  - intros o Ho. apply filter_In in Ho. destruct Ho as [Ho E].
    rewrite (offer_of_item_item_of c wf id o Ho) in E. apply String.eqb_eq in E.
    unfold greedy_buy. rewrite E. reflexivity.
Qed.

Lemma greedy_quantity_bounds (s : string) : 0 <= greedy_quantity c s <= BIG_M + 4.
Proof.
  unfold greedy_quantity. split.
  - apply sum_nonneg. intros n Hn. apply in_map_iff in Hn.
    destruct Hn as [o [<- _]]. apply greedy_buy_bounds.
  - etransitivity; [|exact fits]. unfold seller_offers. etransitivity.
    { apply sum_filter_le. intros o _. apply greedy_buy_bounds. }
    rewrite (sum_by_class (greedy_buy c) (item_of c)
               (Dict.keys (items_needed c)) (offer_ids c) (wf_items c wf)).
    + rewrite (total_demand_needed c (wf_items c wf)).
      apply Z.eq_le_incl. apply sum_map_ext_in. intros id Hid.
      rewrite <- (greedy_demand id Hid). unfold item_offers.
      f_equal. f_equal. apply filter_ext_in. intros o Ho.
      symmetry. apply (offer_of_item_item_of c wf id o Ho).
    + intros o Ho. destruct (entry_of_offer c wf o Ho) as [e He].
      unfold item_of. rewrite He. apply (wf_entry c wf o e He).
Qed.

Lemma greedy_feasible : feasible (model_of c) (greedy_assignment c) = true.
Proof.
  apply feasible_intro.
  - intros k Hk. simpl in Hk.
    apply in_app_or in Hk. destruct Hk as [Hk|Hk].
    { apply in_map_iff in Hk. destruct Hk as [id [<- Hid]].
      apply holds_eq. rewrite eval_buys, eval_of_const.
      apply (greedy_demand id Hid). }
    apply in_app_or in Hk. destruct Hk as [Hk|Hk].
    { apply in_map_iff in Hk. destruct Hk as [o [<- Ho]].
      apply holds_le. rewrite eval_of_var, eval_of_const.
      apply greedy_buy_bounds. }
    apply in_app_or in Hk. destruct Hk as [Hk|Hk].
    { apply in_concat in Hk. destruct Hk as [ks [Hks Hk]].
      apply in_map_iff in Hks. destruct Hks as [s [<- Hs]].
      destruct Hk as [<-|Hk].
      - apply holds_eq. rewrite eval_buys, eval_of_var. reflexivity.
      - apply in_map_iff in Hk. destruct Hk as [o [<- Ho]].
        apply holds_le. rewrite eval_scale, !eval_of_var.
        cbn [var buy_variable binary_variable greedy_assignment].
        pose proof (greedy_buy_bounds o) as Hb.
        destruct (Z.ltb_spec 0 (greedy_quantity c s)) as [Hq|Hq]; [lia|].
        assert (greedy_buy c o <= greedy_quantity c s).
        { unfold greedy_quantity. apply (sum_ge_member (greedy_buy c)); [|exact Ho].
          intros y _. apply greedy_buy_bounds. }
        lia. }
    apply in_concat in Hk. destruct Hk as [ks [Hks Hk]].
    apply in_map_iff in Hks. destruct Hks as [s [<- Hs]].
    pose proof (greedy_quantity_bounds s) as Hq. unfold BIG_M in Hq.
    unfold tiers_of in Hk. simpl in Hk.
    destruct Hk as [<-|[<-|[<-|[<-|[<-|[]]]]]];
      [apply holds_eq | apply holds_le | apply holds_ge | apply holds_le | apply holds_ge];
      autorewrite with eval;
      cbn [var binary_variable qty_variable greedy_assignment]; unfold BIG_M;
      destruct (Z.ltb_spec 0 (greedy_quantity c s));
      destruct (Z.leb_spec (greedy_quantity c s) 4);
      destruct (Z.leb_spec 5 (greedy_quantity c s));
      destruct (Z.leb_spec (greedy_quantity c s) 20);
      destruct (Z.leb_spec 21 (greedy_quantity c s)); simpl; lia.
  - intros v Hv. simpl in Hv. unfold all_variables, declare_vars in Hv.
    cbn [x y q z1 z2 z3] in Hv.
    repeat (apply in_app_or in Hv; destruct Hv as [Hv|Hv]);
      apply LpVariable_dicts_In in Hv; destruct Hv as [i [_ ->]];
      unfold in_domain; cbn [var lowBound upBound cat above below greedy_assignment].
    + pose proof (greedy_buy_bounds i).
      rewrite !andb_true_r. apply Z.leb_le. lia.
    + destruct (0 <? greedy_quantity c i); reflexivity.
    + pose proof (greedy_quantity_bounds i).
      rewrite !andb_true_r. apply Z.leb_le. lia.
    + destruct ((0 <? greedy_quantity c i) && (greedy_quantity c i <=? 4)); reflexivity.
    + destruct ((5 <=? greedy_quantity c i) && (greedy_quantity c i <=? 20)); reflexivity.
    + destruct (21 <=? greedy_quantity c i); reflexivity.
Qed.

End Greedy.

(** X16. Lines 69-95 against the check of lines 169-179, the other way
    round.  When no item is short of stock, no amount is
    negative and the amounts add up to 100004 at most (the largest quantity
    the relaxed tier bounds let one seller have), the model has a feasible
    integer assignment; serving every item from its first offers is one. *)
Theorem enough_stock_feasible (data : list Json.item) :
  existsb insufficient data = false ->
  forallb (fun it => 0 <=? Json.amount it) data = true ->
  sum (map Json.amount data) <= BIG_M + 4 ->
  exists prob a, build_model (load_cart data) = Ok prob /\ feasible prob a = true.
Proof.
  intros Hstock Hpos Hfit. set (c := load_cart data).
  pose proof (load_cart_well_formed data) as wf. fold c in wf.
  exists (model_of c), (greedy_assignment c).
  split; [apply build_model_Ok; exact wf|].
  apply (greedy_feasible c wf).
  - intros id Hid. unfold c in Hid. rewrite items_needed_keys in Hid.
    apply in_map_iff in Hid. destruct Hid as [[i it] [<- Hi]]. simpl.
    destruct (item_lookups data i it Hi) as [Hn _]. fold c in Hn.
    rewrite (needed_get c _ _ Hn).
    pose proof (stock_of_item_sum data i it Hi) as S. fold c in S. rewrite S.
    assert (Hit : In it data).
    { rewrite <- (enumerate_from_snd data 0). apply (in_map snd) in Hi. exact Hi. }
    rewrite forallb_forall in Hpos. specialize (Hpos it Hit). apply Z.leb_le in Hpos.
    assert (Hs : insufficient it = false).
    { destruct (insufficient it) eqn:E; [|reflexivity].
      rewrite <- Hstock. symmetry. apply existsb_exists. exists it. auto. }
    unfold insufficient in Hs. apply Z.ltb_ge in Hs. lia.
  - destruct (load_cart_represents data) as (Hn & _). fold c in Hn.
    unfold total_demand, Dict.items. rewrite Hn, map_map. simpl.
    rewrite <- (enumerate_from_snd data 0) in Hfit at 1.
    rewrite map_map in Hfit. exact Hfit.
Qed.

(** The sample cart passes the three tests. *)
Lemma enough_stock_feasible_witness :
  exists prob a, build_model (load_cart sample_cart) = Ok prob /\ feasible prob a = true.
Proof.
  apply (enough_stock_feasible sample_cart); [reflexivity | reflexivity |].
  vm_compute. discriminate.
Defined.

(** X17. Lines 23-24, 69-71 and 169-179.  An item whose amount is negative is
    never reported as short of stock, since the stock counted is never
    negative; but the model of a document with such an item has no feasible
    assignment, the quantities bought being non-negative. *)
Theorem negative_amount_infeasible (data : list Json.item) :
  existsb (fun it => Json.amount it <? 0) data = true ->
  (forall it, Json.amount it < 0 -> insufficient it = false) /\
  exists prob, build_model (load_cart data) = Ok prob /\
               forall a, feasible prob a = false.
Proof.
  intros Hneg. set (c := load_cart data).
  pose proof (load_cart_well_formed data) as wf. fold c in wf. split.
  - intros it Hit. unfold insufficient. apply Z.ltb_ge.
    assert (0 <= stock_of_item it); [|lia].
    unfold stock_of_item. apply sum_nonneg. intros n Hn.
    apply in_map_iff in Hn. destruct Hn as [o [<- Ho]].
    apply filter_In in Ho. destruct Ho as [_ Ho].
    destruct (Z.leb_spec (Json.available o) 0); [discriminate | lia].
  - exists (model_of c). split; [apply build_model_Ok; exact wf|].
    intros a. destruct (feasible (model_of c) a) eqn:feas; [|reflexivity]. exfalso.
    apply existsb_exists in Hneg. destruct Hneg as [it [Hit Hlt]].
    apply Z.ltb_lt in Hlt.
    destruct (In_enumerate_from data it Hit 0%nat) as [i Hi].
    fold (enumerate data) in Hi.
    destruct (item_lookups data i it Hi) as [Hn _]. fold c in Hn.
    pose proof (feasible_demand c a feas (item_id_of i) (get_Some_key _ _ _ Hn)) as D.
    rewrite (needed_get c _ _ Hn) in D.
    assert (0 <= sum (map (fun o => a (buy o)) (item_offers c (item_id_of i)))); [|lia].
    apply sum_nonneg. intros n Hin. apply in_map_iff in Hin.
    destruct Hin as [o [<- Ho]]. apply filter_In in Ho.
    apply (feasible_buy_nonneg c a feas o). tauto.
Qed.

(** A cart asking for -1 units passes the availability check, the solver is
    called, and its model has no feasible assignment. *)
Lemma negative_amount_infeasible_witness :
  existsb insufficient (bulk_cart (-1)) = false /\
  (exists prob, build_model (load_cart (bulk_cart (-1))) = Ok prob /\
                forall a, feasible prob a = false).
Proof.
  split; [reflexivity|].
  apply (negative_amount_infeasible (bulk_cart (-1)) eq_refl).
Defined.
